(** * Mushroom Gateway: the procedural-generation core

    A shallow embedding of the four algorithms of the scene generator
    (utils/Random.js, terrain/TerrainGenerator.js, forest/TreeGenerator.js,
    mushrooms/MushroomGenerator.js and the day/night cycle of
    scene/SceneManager.js) together with the properties stated about them,
    followed by the code around them: the ground mesh, the mushrooms thrown
    out of the portal and their flight, the spawner of the mushroom module
    and the placement of the gate (models/GatewayLoader.js).

    Numbers.  A JavaScript number is an IEEE-754 binary64 value.
    - Where the source works on the bits of a number ([<<], [^], [&], [>>>],
      [Math.imul]) the model is exact: integer-valued numbers are [Z], the
      conversions [ToInt32]/[ToUint32] are written out, and an arithmetic
      result that no longer fits 53 significant bits is rounded to nearest,
      ties to even ([round53]), as binary64 does.
    - The state of the generator ([this.seed]) is a primitive binary64 float.
    - Real-valued geometry (terrain interpolation, placement, the
      day/night progress, the flight of a mushroom) is modelled over [R],
      that is with exact arithmetic.  Where rounding decides a property the
      same function is given with the binary64 operations of the source as
      well ([Terrain64], [TreeGenerator64], [MushroomGenerator64],
      [Spawned64]) and the property is stated of that version or within
      the range and up to the allowance in which the two agree; the last
      part of the file runs the two side by side. *)

From Stdlib Require Import ZArith Lia Bool String List Floats Reals Lra Psatz.
From Stdlib Require Import Permutation.
Import ListNotations.

Set Warnings "-inexact-float".

#[local] Open Scope Z_scope.

(** ** JavaScript number conversions and 32-bit operators *)

Module JS.

(** [ToInt32] and [ToUint32] of an integer-valued number. *)
Definition ToInt32 (z : Z) : Z := (z + 2 ^ 31) mod 2 ^ 32 - 2 ^ 31.
Definition ToUint32 (z : Z) : Z := z mod 2 ^ 32.

(** [a ^ b], [a | b], [a & b], [a << k], [a >>> k]. *)
Definition xor (a b : Z) : Z := ToInt32 (Z.lxor (ToInt32 a) (ToInt32 b)).
Definition or (a b : Z) : Z := ToInt32 (Z.lor (ToInt32 a) (ToInt32 b)).
Definition and (a b : Z) : Z := ToInt32 (Z.land (ToInt32 a) (ToInt32 b)).
Definition shl (a k : Z) : Z := ToInt32 (Z.shiftl (ToInt32 a) (k mod 32)).
Definition ushr (a k : Z) : Z := Z.shiftr (ToUint32 a) (k mod 32).

(** [Math.imul]. *)
Definition imul (a b : Z) : Z := ToInt32 (ToInt32 a * ToInt32 b).

(** Rounding of an exact integer result to binary64: 53 significant bits,
    round to nearest, ties to even.  Below 2^53 every integer is a
    binary64 value. *)
Definition round53 (z : Z) : Z :=
  let a := Z.abs z in
  if a <? 2 ^ 53 then z else
  let e := Z.log2 a - 52 in
  let q := Z.shiftr a e in
  let r := a - Z.shiftl q e in
  let h := Z.shiftl 1 (e - 1) in
  let q' := if r <? h then q
            else if h <? r then q + 1
            else if Z.even q then q else q + 1 in
  Z.sgn z * Z.shiftl q' e.

(** [a + b] and [a * b] on integer-valued numbers. *)
Definition add (a b : Z) : Z := round53 (a + b).
Definition mul (a b : Z) : Z := round53 (a * b).

(** The integer part of a binary64 value (truncation towards zero);
    [None] for NaN and the infinities. *)
Definition trunc (f : float) : option Z :=
  match Prim2SF f with
  | S754_zero _ => Some 0
  | S754_finite s m e =>
      let a := if 0 <=? e then Z.shiftl (Zpos m) e
               else Z.shiftr (Zpos m) (- e) in
      Some (if s then - a else a)
  | _ => None
  end.

(** [ToInt32] of an arbitrary number: NaN and the infinities convert
    to 0. *)
Definition ToInt32F (f : float) : Z :=
  match trunc f with Some z => ToInt32 z | None => 0 end.

(** The binary64 value of an integer of magnitude below 2^63. *)
Definition ofZ (z : Z) : float :=
  if z <? 0 then PrimFloat.opp (PrimFloat.of_uint63 (Uint63.of_Z (- z)))
  else PrimFloat.of_uint63 (Uint63.of_Z z).

(** [Math.floor]: NaN, the infinities, zeros and integers are returned
    unchanged. *)
Definition floor (f : float) : float :=
  match Prim2SF f with
  | S754_finite s m e =>
      if 0 <=? e then f
      else
        let q := Z.shiftr (Zpos m) (- e) in
        let exact := Z.shiftl q (- e) =? Zpos m in
        if s then (if exact then f else ofZ (- q - 1))
        else ofZ q
  | _ => f
  end.

End JS.

(** ** terrain/TerrainGenerator.js *)

Module Terrain.

#[local] Infix "+'" := JS.add (at level 50, left associativity).
#[local] Infix "*'" := JS.mul (at level 40, left associativity).

(** The integer [n & 0x7fffffff] reached by [pseudoRandom] before the
    final normalisation. *)
Definition pseudoRandom_bits (ix iz : Z) : Z :=
  let n := ix +' iz *' 57 in
  let n := JS.xor (JS.shl n 13) n in
  let n := n *' (n *' n *' 15731 +' 789221) +' 1376312589 in
  JS.and n 0x7fffffff.

#[local] Open Scope R_scope.

Definition pseudoRandom (ix iz : Z) : R :=
  1 - IZR (pseudoRandom_bits ix iz) / 1073741823.

(** [pseudoRandom] evaluated with the primitive binary64 operations, for
    arguments below 2^63 in magnitude; used to check the rounding model
    against the hardware arithmetic. *)
Definition pseudoRandom_binary64 (ix iz : Z) : float :=
  let n := (JS.ofZ ix + JS.ofZ iz * 57)%float in
  let n := JS.ofZ (JS.xor (JS.shl (JS.ToInt32F n) 13) (JS.ToInt32F n)) in
  let n := (n * (n * n * 15731 + 789221) + 1376312589)%float in
  let n := JS.ofZ (JS.and (JS.ToInt32F n) 0x7fffffff) in
  (1.0 - n / 1073741823.0)%float.

(** Terrain parameters. *)
Definition TERRAIN_MAX_HEIGHT : R := 3.5.
Definition TERRAIN_BASE_FREQUENCY : R := 0.04.
Definition TERRAIN_OCTAVES : nat := 5.
Definition TERRAIN_PERSISTENCE : R := 0.45.
Definition TERRAIN_LACUNARITY : R := 2.1.

(** [THREE.MathUtils.lerp] of the three.js library. *)
Definition lerp (x y t : R) : R := (1 - t) * x + t * y.

Definition interpolatedNoise (x z frequency : R) : R :=
  let scaledX := x * frequency in
  let scaledZ := z * frequency in
  let intX := Zfloor scaledX in
  let fracX := scaledX - IZR intX in
  let intZ := Zfloor scaledZ in
  let fracZ := scaledZ - IZR intZ in
  let v1 := pseudoRandom intX intZ in
  let v2 := pseudoRandom (intX + 1) intZ in
  let v3 := pseudoRandom intX (intZ + 1) in
  let v4 := pseudoRandom (intX + 1) (intZ + 1) in
  let smoothFracX := fracX * fracX * (3 - 2 * fracX) in
  let smoothFracZ := fracZ * fracZ * (3 - 2 * fracZ) in
  let i1 := lerp v1 v2 smoothFracX in
  let i2 := lerp v3 v4 smoothFracX in
  lerp i1 i2 smoothFracZ.

(** The variables of the loop of [getTerrainHeight]. *)
Record fbm := {
  totalHeight : R;
  currentFrequency : R;
  currentAmplitude : R;
  normalizationFactor : R
}.

(** One iteration of the loop body. *)
Definition octave (worldX worldZ : R) (s : fbm) : fbm :=
  {| totalHeight :=
       totalHeight s
       + interpolatedNoise worldX worldZ (currentFrequency s)
         * currentAmplitude s;
     normalizationFactor := normalizationFactor s + currentAmplitude s;
     currentAmplitude := currentAmplitude s * TERRAIN_PERSISTENCE;
     currentFrequency := currentFrequency s * TERRAIN_LACUNARITY |}.

Definition getTerrainHeight (worldX worldZ : R) : R :=
  let s0 := {| totalHeight := 0;
               currentFrequency := TERRAIN_BASE_FREQUENCY;
               currentAmplitude := 1;
               normalizationFactor := 0 |} in
  let s := Nat.iter TERRAIN_OCTAVES (octave worldX worldZ) s0 in
  (totalHeight s / normalizationFactor s) * TERRAIN_MAX_HEIGHT.

(** *** The reference definition of the height field

    Fractal Brownian motion over smoothstep-interpolated value noise, as the
    specification words it. *)

(** The smoothstep-shaped blending weight t^2 (3 - 2 t). *)
Definition smoothstep_weight (t : R) : R := t ^ 2 * (3 - 2 * t).

(** Value noise at spatial frequency [f]: the bilinear blend of the four
    surrounding lattice hashes, weighted by the smoothstep of the fractional
    offsets. *)
Definition value_noise_reference (x z f : R) : R :=
  let ix := Zfloor (x * f) in
  let iz := Zfloor (z * f) in
  let wx := smoothstep_weight (x * f - IZR ix) in
  let wz := smoothstep_weight (z * f - IZR iz) in
  (1 - wx) * (1 - wz) * pseudoRandom ix iz
  + wx * (1 - wz) * pseudoRandom (ix + 1) iz
  + (1 - wx) * wz * pseudoRandom ix (iz + 1)
  + wx * wz * pseudoRandom (ix + 1) (iz + 1).

(** [sum_below n f] is f 0 + ... + f (n - 1). *)
Fixpoint sum_below (n : nat) (f : nat -> R) : R :=
  match n with
  | O => 0
  | S n' => sum_below n' f + f n'
  end.

(** Octave [i] has frequency 0.04 * 2.1^i and amplitude 1.0 * 0.45^i; the
    weighted sum over 5 octaves is divided by the sum of the amplitudes
    used and multiplied by 3.5. *)
Definition fbm_reference (x z : R) : R :=
  sum_below 5 (fun i => value_noise_reference x z (0.04 * 2.1 ^ i)
                        * (1.0 * 0.45 ^ i))
  / sum_below 5 (fun i => 1.0 * 0.45 ^ i)
  * 3.5.

#[local] Close Scope R_scope.

End Terrain.

(** ** utils/Random.js *)

Module Random.

(** An instance of [SeededRandom]: its only field is [seed]. *)
Record SeededRandom := { seed : float }.

(** [constructor(seed)].  The argument is [None] when it is [undefined]
    or [null]; the stream is then seeded from [Date.now()], here [now]. *)
Definition constructor (arg : option float) (now : float) : SeededRandom :=
  {| seed := match arg with Some s => s | None => now end |}.

(** The 32-bit integer [(t ^ t >>> 14) >>> 0] computed by [random()],
    with the instance after the call. *)
Definition random_bits (g : SeededRandom) : Z * SeededRandom :=
  let seed' := (seed g + 1831565813)%float in   (* this.seed += 0x6D2B79F5 *)
  let t := JS.ToInt32F seed' in
  let t := JS.imul (JS.xor t (JS.ushr t 15)) (JS.or t 1) in
  let t := JS.xor t (JS.add t (JS.imul (JS.xor t (JS.ushr t 7)) (JS.or t 61))) in
  (JS.ushr (JS.xor t (JS.ushr t 14)) 0, {| seed := seed' |}).

(** *** Exact arithmetic *)

#[local] Open Scope R_scope.

Definition random (g : SeededRandom) : R * SeededRandom :=
  let (u, g') := random_bits g in (IZR u / 4294967296, g').

Definition randFloat (g : SeededRandom) (min max : R) : R * SeededRandom :=
  let (r, g') := random g in (r * (max - min) + min, g').

Definition randInt (g : SeededRandom) (min max : R) : R * SeededRandom :=
  let (r, g') := random g in (IZR (Zfloor (r * (max - min) + min)), g').

(** *** binary64 arithmetic *)

#[local] Close Scope R_scope.
#[local] Open Scope float_scope.

Definition randomF (g : SeededRandom) : float * SeededRandom :=
  let (u, g') := random_bits g in (JS.ofZ u / 4294967296, g').

Definition randFloatF (g : SeededRandom) (min max : float)
  : float * SeededRandom :=
  let (r, g') := randomF g in (r * (max - min) + min, g').

Definition randIntF (g : SeededRandom) (min max : float)
  : float * SeededRandom :=
  let (r, g') := randomF g in (JS.floor (r * (max - min) + min), g').

#[local] Close Scope float_scope.

(** [getPlacementPrng()]. *)
Definition PLACEMENT_SEED : float := 54321%float.
Definition getPlacementPrng (now : float) : SeededRandom :=
  constructor (Some PLACEMENT_SEED) now.

(** *** Programs over several instances

    A program holds references to instances and calls their methods in
    some order. *)
Inductive call :=
| Random
| RandFloat (min max : float)
| RandInt (min max : float).

Definition perform (c : call) (g : SeededRandom) : float * SeededRandom :=
  match c with
  | Random => randomF g
  | RandFloat min max => randFloatF g min max
  | RandInt min max => randIntF g min max
  end.

(** The outputs of a sequence of calls on one instance. *)
Fixpoint run (g : SeededRandom) (cs : list call) : list float :=
  match cs with
  | [] => []
  | c :: cs' => let (v, g') := perform c g in v :: run g' cs'
  end.

Definition ref := nat.
Definition store := ref -> SeededRandom.

Definition update (st : store) (r : ref) (g : SeededRandom) : store :=
  fun r' => if Nat.eqb r r' then g else st r'.

(** Executing a schedule of calls, each addressed to an instance; the
    trace records which instance answered what. *)
Fixpoint exec (st : store) (sched : list (ref * call)) : list (ref * float) :=
  match sched with
  | [] => []
  | (r, c) :: sched' =>
      let (v, g') := perform c (st r) in
      (r, v) :: exec (update st r g') sched'
  end.

Definition calls_to (r : ref) (sched : list (ref * call)) : list call :=
  map snd (filter (fun rc => Nat.eqb (fst rc) r) sched).

Definition outputs_of (r : ref) (trace : list (ref * float)) : list float :=
  map snd (filter (fun rv => Nat.eqb (fst rv) r) trace).

End Random.

(** ** Instanced placement *)

(** What [dummy.updateMatrix()] composes and [setMatrixAt] copies into an
    instanced mesh: a position, a rotation about the y axis and a uniform
    scale. *)
Record Transform := {
  position : R * R * R;
  rotation_y : R;
  scale : R
}.

(** ** forest/TreeGenerator.js *)

Module TreeGenerator.

#[local] Open Scope R_scope.

(** A tree template: the height and bottom radius of the trunk cylinder,
    the radius of the foliage sphere or cone and the translation of the
    foliage. *)
Record TreeGeometry := {
  trunkHeight : R;
  trunkRadius : R;
  foliageRadius : R;
  foliageOffset : R * R * R
}.

Definition createDeciduousTreeGeometry (prng : Random.SeededRandom)
  : TreeGeometry * Random.SeededRandom :=
  let (trunkHeight, prng) := Random.randFloat prng 1.5 2.5 in
  let trunkRadius := trunkHeight * 0.1 in
  let foliageRadius := trunkHeight * 0.5 in
  let (dx, prng) :=
    Random.randFloat prng (- trunkRadius * 0.5) (trunkRadius * 0.5) in
  let (dz, prng) :=
    Random.randFloat prng (- trunkRadius * 0.5) (trunkRadius * 0.5) in
  ({| trunkHeight := trunkHeight;
      trunkRadius := trunkRadius;
      foliageRadius := foliageRadius;
      foliageOffset := (dx, trunkHeight + foliageRadius * 0.6, dz) |}, prng).

Definition createConiferousTreeGeometry (prng : Random.SeededRandom)
  : TreeGeometry * Random.SeededRandom :=
  let (trunkHeight, prng) := Random.randFloat prng 2.0 3.5 in
  let trunkRadius := trunkHeight * 0.08 in
  let coneRadius := trunkHeight * 0.3 in
  let coneHeight := trunkHeight * 0.9 in
  ({| trunkHeight := trunkHeight;
      trunkRadius := trunkRadius;
      foliageRadius := coneRadius;
      foliageOffset :=
        (0, trunkHeight + coneHeight / 2 - trunkHeight * 0.1, 0) |}, prng).

(** The parameters of [createInstancedTrees] that placement depends on. *)
Record Params := {
  prng : Random.SeededRandom;
  getTerrainHeight : R -> R -> R;
  TREE_COUNT : Z;
  SPREAD : R;
  MIN_DISTANCE_FROM_CENTER_TREES : R
}.

(** The [do ... while (dist < MIN_DISTANCE_FROM_CENTER_TREES)] loop.  The
    source puts no bound on it; [fuel] bounds the number of iterations the
    model follows, and [None] means the loop is still running. *)
Fixpoint sample_position (fuel : nat) (spread minDist : R)
    (prng : Random.SeededRandom) : option (R * R * Random.SeededRandom) :=
  match fuel with
  | O => None
  | S fuel' =>
      let (x, prng) := Random.randFloat prng (- spread) spread in
      let (z, prng) := Random.randFloat prng (- spread) spread in
      let dist := sqrt (x * x + z * z) in
      if Rlt_dec dist minDist
      then sample_position fuel' spread minDist prng
      else Some (x, z, prng)
  end.

(** One [for (let i = 0; i < count; i++)] loop of [createInstancedTrees];
    the scale varies in [scaleMin, scaleMax). *)
Fixpoint place (fuel : nat) (p : Params) (scaleMin scaleMax : R)
    (count : nat) (prng : Random.SeededRandom)
  : option (list Transform * Random.SeededRandom) :=
  match count with
  | O => Some ([], prng)
  | S count' =>
      match sample_position fuel (SPREAD p)
              (MIN_DISTANCE_FROM_CENTER_TREES p) prng with
      | None => None
      | Some (x, z, prng) =>
          let terrainY := getTerrainHeight p x z in
          let (scaleVariation, prng) :=
            Random.randFloat prng scaleMin scaleMax in
          let (r, prng) := Random.random prng in
          let m := {| position := (x, terrainY, z);
                      rotation_y := r * PI * 2;
                      scale := scaleVariation |} in
          match place fuel p scaleMin scaleMax count' prng with
          | None => None
          | Some (ms, prng) => Some (m :: ms, prng)
          end
      end
  end.

(** The four instanced meshes added to the scene. *)
Record Trees := {
  deciduousTrunkInstances : list Transform;
  deciduousFoliageInstances : list Transform;
  coniferousTrunkInstances : list Transform;
  coniferousFoliageInstances : list Transform
}.

Definition createInstancedTrees (fuel : nat) (p : Params) : option Trees :=
  let (deciduousTemplate, g) := createDeciduousTreeGeometry (prng p) in
  let (coniferousTemplate, g) := createConiferousTreeGeometry g in
  let deciduousCount := (TREE_COUNT p / 2)%Z in
  let coniferousCount := (TREE_COUNT p - deciduousCount)%Z in
  match place fuel p 0.8 1.2 (Z.to_nat deciduousCount) g with
  | None => None
  | Some (deciduous, g) =>
      match place fuel p 0.7 1.1 (Z.to_nat coniferousCount) g with
      | None => None
      | Some (coniferous, _) =>
          Some {| deciduousTrunkInstances := deciduous;
                  deciduousFoliageInstances := deciduous;
                  coniferousTrunkInstances := coniferous;
                  coniferousFoliageInstances := coniferous |}
      end
  end.

Definition instances (t : Trees) : list Transform :=
  deciduousTrunkInstances t ++ deciduousFoliageInstances t
  ++ coniferousTrunkInstances t ++ coniferousFoliageInstances t.

#[local] Close Scope R_scope.

End TreeGenerator.

(** ** mushrooms/MushroomGenerator.js *)

Module MushroomGenerator.

(** [array.map((x, index) => f index x)], indices counted from [i]. *)
Fixpoint mapi_from {A B : Type} (i : Z) (f : Z -> A -> B) (l : list A)
  : list B :=
  match l with
  | [] => []
  | x :: l' => f i x :: mapi_from (i + 1) f l'
  end.

(** [a[n] = x] for an index inside the array. *)
Fixpoint set_nth {A : Type} (l : list A) (n : nat) (x : A) : list A :=
  match l, n with
  | [], _ => []
  | _ :: l', O => x :: l'
  | y :: l', S n' => y :: set_nth l' n' x
  end.

(** [[a[i], a[j]] = [a[j], a[i]]] for indices inside the array (the
    shuffle below never leaves it, see [shuffle_index_in_range]). *)
Definition swap {A : Type} (l : list A) (i j : nat) : list A :=
  match nth_error l i, nth_error l j with
  | Some ai, Some aj => set_nth (set_nth l i aj) j ai
  | _, _ => l
  end.

#[local] Open Scope R_scope.

(** A geometry template: stem height, cap size and variety tag. *)
Record MushroomTemplate := {
  stemHeight : R;
  capSize : R;
  type : Z
}.

Definition createMushroomGeometries : list MushroomTemplate :=
  [ {| stemHeight := 0.3; capSize := 0.2; type := 1 |};
    {| stemHeight := 0.5; capSize := 0.1; type := 2 |};
    {| stemHeight := 0.15; capSize := 0.12; type := 3 |} ].

(** The parameters of [createInstancedMushrooms] that placement depends
    on. *)
Record Params := {
  prng : Random.SeededRandom;
  getTerrainHeight : R -> R -> R;
  MUSHROOM_COUNT : Z;
  SPREAD : R;
  MIN_DISTANCE_FROM_GATEWAY_CENTER : R
}.

(** [counts]: instances per variety. *)
Definition variety_counts (MUSHROOM_COUNT : Z) : list Z :=
  let mushroomTemplates := createMushroomGeometries in
  let countPerVariety :=
    (MUSHROOM_COUNT / Z.of_nat (length mushroomTemplates))%Z in
  let remaining :=
    Z.rem MUSHROOM_COUNT (Z.of_nat (length mushroomTemplates)) in
  mapi_from 0
    (fun index _ =>
       (countPerVariety + (if index <? remaining then 1 else 0))%Z)
    mushroomTemplates.

(** [instanceTypes] before the shuffle: [count] tags [typeIndex + 1] for
    each variety, in order. *)
Definition variety_tags (counts : list Z) : list Z :=
  concat (mapi_from 0
            (fun typeIndex count => repeat (typeIndex + 1)%Z (Z.to_nat count))
            counts).

(** The Fisher-Yates loop [for (i = length - 1; i > 0; i--)], entered at
    index [i]. *)
Fixpoint shuffle (i : nat) (prng : Random.SeededRandom)
    (instanceTypes : list Z) : list Z * Random.SeededRandom :=
  match i with
  | O => (instanceTypes, prng)
  | S i' =>
      let (r, prng) := Random.random prng in
      let j := Z.to_nat (Zfloor (r * (INR i + 1))) in
      shuffle i' prng (swap instanceTypes i j)
  end.

(** The [do ... while (dist < MIN || dist > SPREAD * 0.9)] loop; [fuel]
    as in [TreeGenerator.sample_position]. *)
Fixpoint sample_position (fuel : nat) (spread minDist : R)
    (prng : Random.SeededRandom) : option (R * R * Random.SeededRandom) :=
  match fuel with
  | O => None
  | S fuel' =>
      let (x, prng) := Random.randFloat prng (- spread) spread in
      let (z, prng) := Random.randFloat prng (- spread) spread in
      let dist := sqrt (x * x + z * z) in
      if Rlt_dec dist minDist
      then sample_position fuel' spread minDist prng
      else if Rgt_dec dist (spread * 0.9)
      then sample_position fuel' spread minDist prng
      else Some (x, z, prng)
  end.

(** The instanced meshes.  [setMatrixAt] is called with consecutive
    indices from 0 ([i] for the stems, [vIdx[type - 1]++] for the caps), so
    a mesh is the list of the transforms written to it and [vIdx[k]] is
    the length of the k-th cap mesh; a variety without instances has no cap
    mesh ([null]). *)
Record Mushrooms := {
  stemInstances : list Transform;
  capInstances : list (option (list Transform))
}.

(** [capInstances[mushroomType - 1].setMatrixAt(vIdx[mushroomType - 1]++, m)]
    under its guard. *)
Definition set_cap (counts : list Z) (caps : list (option (list Transform)))
    (mushroomType : option Z) (m : Transform)
  : list (option (list Transform)) :=
  match mushroomType with
  | None => caps
  | Some t =>
      if (t - 1 <? 0)%Z then caps else
      let k := Z.to_nat (t - 1) in
      match nth_error caps k, nth_error counts k with
      | Some (Some cap), Some count =>
          if (Z.of_nat (length cap) <? count)%Z
          then set_nth caps k (Some (cap ++ [m]))
          else caps
      | _, _ => caps
      end
  end.

(** The placement loop [for (let i = 0; i < MUSHROOM_COUNT; i++)], with
    [todo] iterations left. *)
Fixpoint place (fuel : nat) (p : Params) (counts instanceTypes : list Z)
    (todo i : nat) (prng : Random.SeededRandom) (acc : Mushrooms)
  : option Mushrooms :=
  match todo with
  | O => Some acc
  | S todo' =>
      match sample_position fuel (SPREAD p)
              (MIN_DISTANCE_FROM_GATEWAY_CENTER p) prng with
      | None => None
      | Some (x, z, prng) =>
          let terrainY := getTerrainHeight p x z in
          let (scaleVariation, prng) := Random.randFloat prng 0.5 1.5 in
          let (r, prng) := Random.random prng in
          let m := {| position := (x, terrainY, z);
                      rotation_y := r * PI * 2;
                      scale := scaleVariation |} in
          let mushroomType := nth_error instanceTypes i in
          place fuel p counts instanceTypes todo' (S i) prng
            {| stemInstances := stemInstances acc ++ [m];
               capInstances :=
                 set_cap counts (capInstances acc) mushroomType m |}
      end
  end.

Definition createInstancedMushrooms (fuel : nat) (p : Params)
  : option Mushrooms :=
  let counts := variety_counts (MUSHROOM_COUNT p) in
  let capInstances :=
    map (fun count => if (0 <? count)%Z then Some [] else None) counts in
  let instanceTypes := variety_tags counts in
  let (instanceTypes, g) :=
    shuffle (length instanceTypes - 1) (prng p) instanceTypes in
  place fuel p counts instanceTypes (Z.to_nat (MUSHROOM_COUNT p)) 0 g
    {| stemInstances := []; capInstances := capInstances |}.

Definition instances (m : Mushrooms) : list Transform :=
  stemInstances m
  ++ concat (map (fun c => match c with Some l => l | None => [] end)
                 (capInstances m)).

#[local] Close Scope R_scope.

End MushroomGenerator.

(** ** The day/night cycle (scene/SceneManager.js, lighting module) *)

Module DayNight.

#[local] Open Scope R_scope.

Definition LIGHT_ORBIT_RADIUS : R := 25.
Definition DAY_CYCLE_DURATION : R := 60.
Definition NIGHT_CYCLE_DURATION : R := 45.

(** A settings record: colours are their 24-bit codes, the fog is its
    colour and its near and far distances. *)
Record Settings := {
  background : Z;
  fog : Z * R * R;
  ambientLightIntensity : R;
  directionalLightIntensity : R;
  directionalLightColor : Z;
  groundColor : Z;
  trunkColor : Z;
  deciduousFoliageColor : Z;
  coniferousFoliageColor : Z
}.

Definition daySettings : Settings :=
  {| background := 0x87CEEB;
     fog := (0xcce0ff%Z, 10, 50);
     ambientLightIntensity := 0.5;
     directionalLightIntensity := 0.8;
     directionalLightColor := 0xffffff;
     groundColor := 0x8FBC8F;
     trunkColor := 0xA0522D;
     deciduousFoliageColor := 0x556B2F;
     coniferousFoliageColor := 0x228B22 |}.

Definition nightSettings : Settings :=
  {| background := 0x0a0a20;
     fog := (0x0a0a20%Z, 25, 70);
     ambientLightIntensity := 0.5;
     directionalLightIntensity := 0.8;
     directionalLightColor := 0xc0c0ff;
     groundColor := 0x6A7F6A;
     trunkColor := 0xA06A35;
     deciduousFoliageColor := 0x4E8B57;
     coniferousFoliageColor := 0x208420 |}.

(** The sun or moon mesh. *)
Record Mesh := {
  mesh_position : R * R * R;
  opacity : R;
  transparent : bool;
  mesh_scale : R;
  visible : bool
}.

(** What the cycle writes in the scene: the properties overwritten from a
    settings record, the position of the directional light and the two
    celestial bodies. *)
Record Scene := {
  applied : Settings;
  lightPosition : R * R * R;
  sunMesh : Mesh;
  moonMesh : Mesh
}.

(** The module-level variables of the cycle, with the scene and the label
    of the toggle button. *)
Record World := {
  isDaytime : bool;
  dayTimeProgress : R;
  nightTimeProgress : R;
  scene : Scene;
  toggleText : string
}.

(** [THREE.MathUtils.smoothstep] of the three.js library. *)
Definition smoothstep (x min max : R) : R :=
  if Rle_dec x min then 0
  else if Rge_dec x max then 1
  else let x := (x - min) / (max - min) in x * x * (3 - 2 * x).

Definition hide (m : Mesh) : Mesh :=
  {| mesh_position := mesh_position m;
     opacity := opacity m;
     transparent := transparent m;
     mesh_scale := mesh_scale m;
     visible := false |}.

(** [updateCelestialBodyPosition(progress, isDay)]; [daytime] is the
    module-level [isDaytime] it reads. *)
Definition updateCelestialBodyPosition (daytime : bool) (progress : R)
    (isDay : bool) (sc : Scene) : Scene :=
  let alpha := (1.0 - progress) * PI in
  let x := LIGHT_ORBIT_RADIUS * cos alpha in
  let y := LIGHT_ORBIT_RADIUS * sin alpha in
  let z := LIGHT_ORBIT_RADIUS * cos (alpha - PI / 2) in
  let heightFactor := Rmax 0 (y / LIGHT_ORBIT_RADIUS) in
  let updated :=
    {| mesh_position := (z, y, x);
       opacity := smoothstep heightFactor 0.05 0.15;
       transparent := true;
       mesh_scale :=
         Rmax 0.5 (heightFactor * (if isDay then 1.2 else 1.0) + 0.1);
       visible :=
         Bool.eqb isDay daytime && (if Rgt_dec y (-0.1) then true else false)
    |} in
  {| applied := applied sc;
     lightPosition := (z, y, x);
     sunMesh := if isDay then updated else hide (sunMesh sc);
     moonMesh := if isDay then hide (moonMesh sc) else updated |}.

(** [applySceneState(settings, progress)]: the progress of the body is
    read from the module-level variables, not from the argument. *)
Definition applySceneState (settings : Settings) (progress : R) (w : World)
  : World :=
  let sc := {| applied := settings;
               lightPosition := lightPosition (scene w);
               sunMesh := sunMesh (scene w);
               moonMesh := moonMesh (scene w) |} in
  let currentProgress :=
    if isDaytime w then dayTimeProgress w else nightTimeProgress w in
  {| isDaytime := isDaytime w;
     dayTimeProgress := dayTimeProgress w;
     nightTimeProgress := nightTimeProgress w;
     scene := updateCelestialBodyPosition (isDaytime w) currentProgress
                (isDaytime w) sc;
     toggleText := toggleText w |}.

(** The day/night part of [animate()], [delta] seconds after the previous
    frame. *)
Definition animate (delta : R) (w : World) : World :=
  if isDaytime w then
    let dayTimeProgress := dayTimeProgress w + delta / DAY_CYCLE_DURATION in
    if Rge_dec dayTimeProgress 1.0 then
      applySceneState nightSettings 0
        {| isDaytime := false;
           dayTimeProgress := 0;
           nightTimeProgress := 0;
           scene := scene w;
           toggleText := "Switch to Night" |}
    else
      {| isDaytime := true;
         dayTimeProgress := dayTimeProgress;
         nightTimeProgress := nightTimeProgress w;
         scene := updateCelestialBodyPosition true dayTimeProgress true
                    (scene w);
         toggleText := toggleText w |}
  else
    let nightTimeProgress :=
      nightTimeProgress w + delta / NIGHT_CYCLE_DURATION in
    if Rge_dec nightTimeProgress 1.0 then
      applySceneState daySettings 0
        {| isDaytime := true;
           dayTimeProgress := 0;
           nightTimeProgress := 0;
           scene := scene w;
           toggleText := "Switch to Day" |}
    else
      {| isDaytime := false;
         dayTimeProgress := dayTimeProgress w;
         nightTimeProgress := nightTimeProgress;
         scene := updateCelestialBodyPosition false nightTimeProgress false
                    (scene w);
         toggleText := toggleText w |}.

(** The click handler of the toggle button. *)
Definition toggle (w : World) : World :=
  let daytime := negb (isDaytime w) in
  let w' := applySceneState (if daytime then daySettings else nightSettings) 0
              {| isDaytime := daytime;
                 dayTimeProgress := 0;
                 nightTimeProgress := 0;
                 scene := scene w;
                 toggleText := toggleText w |} in
  {| isDaytime := isDaytime w';
     dayTimeProgress := dayTimeProgress w';
     nightTimeProgress := nightTimeProgress w';
     scene := scene w';
     toggleText := if daytime then "Switch to Night" else "Switch to Day" |}.

(** The progress and the duration of the phase that is active. *)
Definition activeProgress (w : World) : R :=
  if isDaytime w then dayTimeProgress w else nightTimeProgress w.

Definition activeDuration (w : World) : R :=
  if isDaytime w then DAY_CYCLE_DURATION else NIGHT_CYCLE_DURATION.



#[local] Close Scope R_scope.

End DayNight.

(** ** terrain/TerrainGenerator.js: the ground mesh *)

Module Ground.

#[local] Open Scope R_scope.

(** The loop of [createGroundMesh] over the position attribute of the
    plane geometry: [positions.setZ(i, getTerrainHeight(x, -y))]. *)
Definition displace (positions : list (R * R * R)) : list (R * R * R) :=
  map (fun v => let '(px_local, py_local, _) := v in
                (px_local, py_local,
                 Terrain.getTerrainHeight px_local (- py_local)))
      positions.

(** A mesh: its geometry and [rotation.x]; the ground has no other
    transform. *)
Record Mesh := {
  vertices : list (R * R * R);
  rotation_x : R
}.

Definition createGroundMesh (positions : list (R * R * R)) : Mesh :=
  {| vertices := displace positions;
     rotation_x := - PI / 2 |}.

(** The rotation about the x axis that three.js applies to the vertices
    of a mesh with [rotation.x = a]. *)
Definition rotateX (a : R) (v : R * R * R) : R * R * R :=
  let '(x, y, z) := v in (x, y * cos a - z * sin a, y * sin a + z * cos a).

(** The vertices of a mesh in world space. *)
Definition world (m : Mesh) : list (R * R * R) :=
  map (rotateX (rotation_x m)) (vertices m).

#[local] Close Scope R_scope.

End Ground.

(** ** scene/SceneManager.js: mushrooms thrown out of the portal *)

Module Spawned.

#[local] Open Scope R_scope.

Definition MAX_SPAWNED_MUSHROOMS : nat := 50.
Definition GRAVITY : R := 15.0.

(** An entry of [spawnedMushrooms].  [mesh] is the reference of the group
    created for it; the position and the rotation are those of the
    group. *)
Record MushroomData := {
  mesh : nat;
  template : MushroomGenerator.MushroomTemplate;
  capMaterial : Z;
  mesh_position : R * R * R;
  mesh_rotation : R * R * R;
  velocity : R * R * R;
  rotationSpeed : R * R * R;
  airborne : bool
}.

(** The module-level variables of the spawner, the groups the scene
    holds for it and the number of groups created so far. *)
Record State := {
  spawnedMushrooms : list MushroomData;
  sceneGroups : list nat;
  created : nat;
  mushroomTemplates : option (list MushroomGenerator.MushroomTemplate);
  portalMesh : option (R * R * R)
}.

(** The values of the seven calls of [Math.random()] in one call of
    [spawnMushroom]. *)
Record Draws := {
  r_template : R;
  r_vx : R; r_vy : R; r_vz : R;
  r_rx : R; r_ry : R; r_rz : R
}.

(** [scene.remove(object)]: the first occurrence leaves the children. *)
Fixpoint remove_group (r : nat) (l : list nat) : list nat :=
  match l with
  | [] => []
  | x :: l' => if Nat.eqb x r then l' else x :: remove_group r l'
  end.

(** The eviction at the head of [spawnMushroom]. *)
Definition evict (s : State) : State :=
  if (MAX_SPAWNED_MUSHROOMS <=? length (spawnedMushrooms s))%nat then
    match spawnedMushrooms s with
    | oldestMushroomData :: rest =>
        {| spawnedMushrooms := rest;
           sceneGroups := remove_group (mesh oldestMushroomData) (sceneGroups s);
           created := created s;
           mushroomTemplates := mushroomTemplates s;
           portalMesh := portalMesh s |}
    | [] => s
    end
  else s.

(** [spawnMushroom()].  [None] is the TypeError of reading [stemGeo] of
    an undefined template. *)
Definition spawnMushroom (d : Draws) (s : State) : option State :=
  let s := evict s in
  match mushroomTemplates s with
  | None => Some s
  | Some [] => Some s
  | Some templates =>
      let templateIndex := Zfloor (r_template d * INR (length templates)) in
      match (if (templateIndex <? 0)%Z then None
             else nth_error templates (Z.to_nat templateIndex)) with
      | None => None
      | Some template =>
          let capMaterial :=
            match MushroomGenerator.type template with
            | 1%Z => 1%Z | 2%Z => 2%Z | 3%Z => 3%Z | _ => 1%Z
            end in
          match portalMesh s with
          | None => Some s
          | Some (px, py, pz) =>
              let mushroomData :=
                {| mesh := created s;
                   template := template;
                   capMaterial := capMaterial;
                   mesh_position := (px, py + 0.5, pz);
                   mesh_rotation := (0, 0, 0);
                   velocity := ((r_vx d - 0.5) * 4,
                                r_vy d * 3 + 7,
                                r_vz d * -3 - 5);
                   rotationSpeed := ((r_rx d - 0.5) * 8,
                                     (r_ry d - 0.5) * 8,
                                     (r_rz d - 0.5) * 8);
                   airborne := true |} in
              Some {| spawnedMushrooms := spawnedMushrooms s ++ [mushroomData];
                      sceneGroups := sceneGroups s ++ [created s];
                      created := S (created s);
                      mushroomTemplates := mushroomTemplates s;
                      portalMesh := portalMesh s |}
          end
      end
  end.

(** The body of [spawnedMushrooms.forEach] in [animate()], [delta]
    seconds after the previous frame. *)
Definition fly (delta : R) (m : MushroomData) : MushroomData :=
  if airborne m then
    let '(vx, vy, vz) := velocity m in
    let vy := vy - GRAVITY * delta in
    let '(x, y, z) := mesh_position m in
    let '(x, y, z) := (x + vx * delta, y + vy * delta, z + vz * delta) in
    let '(rx, ry, rz) := mesh_rotation m in
    let '(sx, sy, sz) := rotationSpeed m in
    let '(rx, ry, rz) := (rx + sx * delta, ry + sy * delta, rz + sz * delta) in
    let landing :=
      if Rlt_dec vy 0
      then if Rlt_dec y (Terrain.getTerrainHeight x z) then true else false
      else false in
    {| mesh := mesh m;
       template := template m;
       capMaterial := capMaterial m;
       mesh_position :=
         if landing then (x, Terrain.getTerrainHeight x z, z) else (x, y, z);
       mesh_rotation := if landing then (0, ry, 0) else (rx, ry, rz);
       velocity := (vx, vy, vz);
       rotationSpeed := rotationSpeed m;
       airborne := negb landing |}
  else m.

Definition animate (delta : R) (s : State) : State :=
  {| spawnedMushrooms := map (fly delta) (spawnedMushrooms s);
     sceneGroups := sceneGroups s;
     created := created s;
     mushroomTemplates := mushroomTemplates s;
     portalMesh := portalMesh s |}.

(** The end of the loader callback of [init()]: the portal is placed and
    [initMushroomTemplates()] is called. *)
Definition loaded (portal : R * R * R) (s : State) : State :=
  {| spawnedMushrooms := spawnedMushrooms s;
     sceneGroups := sceneGroups s;
     created := created s;
     mushroomTemplates := Some MushroomGenerator.createMushroomGeometries;
     portalMesh := Some portal |}.

(** What happens to the spawner: the model finishes loading, the gate is
    clicked, a frame is drawn. *)
Inductive event :=
| Loaded (portal : R * R * R)
| Click (d : Draws)
| Frame (delta : R).

Definition handle (e : event) (s : State) : option State :=
  match e with
  | Loaded portal => Some (loaded portal s)
  | Click d => spawnMushroom d s
  | Frame delta => Some (animate delta s)
  end.

Fixpoint run (es : list event) (s : State) : option State :=
  match es with
  | [] => Some s
  | e :: es' =>
      match handle e s with
      | None => None
      | Some s' => run es' s'
      end
  end.

(** The state when the script is loaded. *)
Definition initial : State :=
  {| spawnedMushrooms := [];
     sceneGroups := [];
     created := 0;
     mushroomTemplates := None;
     portalMesh := None |}.

#[local] Close Scope R_scope.

End Spawned.

(** ** mushrooms/MushroomGenerator.js: the spawner of the module *)

Module MushroomSpawn.

#[local] Open Scope R_scope.

(** The group returned by [spawnMushroom]: the template of its stem and
    cap meshes, the material of the cap ([None] when [capMaterials] has no
    entry at the index) and the position. *)
Record Group := {
  template : MushroomGenerator.MushroomTemplate;
  capMaterial : option Z;
  position : R * R * R
}.

(** [spawnMushroom({mushroomTemplates, capMaterials, position,
    getRandom})]; [getRandom] is the value its one call returns.  [None] is
    the TypeError of reading [stemGeo] of an undefined template. *)
Definition spawnMushroom
    (mushroomTemplates : list MushroomGenerator.MushroomTemplate)
    (capMaterials : list Z) (position : R * R * R) (getRandom : R)
  : option Group :=
  let templateIndex := Zfloor (getRandom * INR (length mushroomTemplates)) in
  if (templateIndex <? 0)%Z then None else
  match nth_error mushroomTemplates (Z.to_nat templateIndex) with
  | None => None
  | Some template =>
      Some {| template := template;
              capMaterial := nth_error capMaterials (Z.to_nat templateIndex);
              position := position |}
  end.

#[local] Close Scope R_scope.

End MushroomSpawn.

(** ** models/GatewayLoader.js: the gate and its portal *)

Module Gateway.

#[local] Open Scope R_scope.

(** [THREE.Box3]. *)
Record Box3 := { min : R * R * R; max : R * R * R }.

(** [new THREE.Box3().setFromObject(object)] for the loaded object: it has
    unit scale and no rotation, so its box is the box of its geometry moved
    by its position. *)
Definition setFromObject (geometry : Box3) (position : R * R * R) : Box3 :=
  let '(px, py, pz) := position in
  let '(ax, ay, az) := min geometry in
  let '(bx, by_, bz) := max geometry in
  {| min := (ax + px, ay + py, az + pz);
     max := (bx + px, by_ + py, bz + pz) |}.

Definition getSize (b : Box3) : R * R * R :=
  let '(ax, ay, az) := min b in
  let '(bx, by_, bz) := max b in
  (bx - ax, by_ - ay, bz - az).

Definition getCenter (b : Box3) : R * R * R :=
  let '(ax, ay, az) := min b in
  let '(bx, by_, bz) := max b in
  ((ax + bx) * 0.5, (ay + by_) * 0.5, (az + bz) * 0.5).

(** What the loader callback hands to [onLoaded], with the dimensions of
    the portal plane. *)
Record Loaded := {
  gatePosition : R * R * R;
  worldBoundingBox : Box3;
  worldCenter : R * R * R;
  size : R * R * R;
  portalWidth : R;
  portalHeight : R;
  portalPosition : R * R * R
}.

(** The callback of [objLoader.load] in [loadGatewayModel];
    [geometry] is the box of the loaded model. *)
Definition loadGatewayModel (getTerrainHeight : R -> R -> R)
    (geometry : Box3) : Loaded :=
  let position := (0, 0, 0) in
  let boundingBox := setFromObject geometry position in
  let size := getSize boundingBox in
  let '(sx, sy, sz) := size in
  let groundOffsetAtGate := getTerrainHeight 0 0 in
  let '(_, miny, _) := min boundingBox in
  let position := (0, - miny + groundOffsetAtGate, 0) in
  let worldBoundingBox := setFromObject geometry position in
  let worldCenter := getCenter worldBoundingBox in
  let '(cx, cy, cz) := worldCenter in
  let portalWidth := sx * 0.4 in
  let portalHeight := sy * 0.65 in
  let yOffset := portalHeight * 0.20 in
  let zOffset := sz * 0.1 in
  {| gatePosition := position;
     worldBoundingBox := worldBoundingBox;
     worldCenter := worldCenter;
     size := size;
     portalWidth := portalWidth;
     portalHeight := portalHeight;
     portalPosition := (cx, cy - yOffset, cz - zOffset) |}.

#[local] Close Scope R_scope.

End Gateway.

(** ** The same functions in binary64

    Where a property is decided by the rounding of an intermediate value
    (the product [x * frequency] under [Math.floor], the distance compared
    with its bounds) the functions are given again with the binary64
    operations of the source. *)

(** *** terrain/TerrainGenerator.js *)

Module Terrain64.

#[local] Open Scope float_scope.

Definition TERRAIN_MAX_HEIGHT : float := 3.5.
Definition TERRAIN_BASE_FREQUENCY : float := 0.04.
Definition TERRAIN_OCTAVES : nat := 5.
Definition TERRAIN_PERSISTENCE : float := 0.45.
Definition TERRAIN_LACUNARITY : float := 2.1.

Definition pseudoRandom (ix iz : float) : float :=
  let n := ix + iz * 57 in
  let n := JS.ofZ (JS.xor (JS.shl (JS.ToInt32F n) 13) (JS.ToInt32F n)) in
  let n := n * (n * n * 15731 + 789221) + 1376312589 in
  let n := JS.ofZ (JS.and (JS.ToInt32F n) 0x7fffffff) in
  1.0 - n / 1073741823.0.

(** [THREE.MathUtils.lerp]. *)
Definition lerp (x y t : float) : float := (1 - t) * x + t * y.

Definition interpolatedNoise (x z frequency : float) : float :=
  let scaledX := x * frequency in
  let scaledZ := z * frequency in
  let intX := JS.floor scaledX in
  let fracX := scaledX - intX in
  let intZ := JS.floor scaledZ in
  let fracZ := scaledZ - intZ in
  let v1 := pseudoRandom intX intZ in
  let v2 := pseudoRandom (intX + 1) intZ in
  let v3 := pseudoRandom intX (intZ + 1) in
  let v4 := pseudoRandom (intX + 1) (intZ + 1) in
  let smoothFracX := fracX * fracX * (3 - 2 * fracX) in
  let smoothFracZ := fracZ * fracZ * (3 - 2 * fracZ) in
  let i1 := lerp v1 v2 smoothFracX in
  let i2 := lerp v3 v4 smoothFracX in
  lerp i1 i2 smoothFracZ.

(** The variables of the loop of [getTerrainHeight]. *)
Record fbm := {
  totalHeight : float;
  currentFrequency : float;
  currentAmplitude : float;
  normalizationFactor : float
}.

Definition octave (worldX worldZ : float) (s : fbm) : fbm :=
  {| totalHeight :=
       totalHeight s
       + interpolatedNoise worldX worldZ (currentFrequency s)
         * currentAmplitude s;
     normalizationFactor := normalizationFactor s + currentAmplitude s;
     currentAmplitude := currentAmplitude s * TERRAIN_PERSISTENCE;
     currentFrequency := currentFrequency s * TERRAIN_LACUNARITY |}.

Definition getTerrainHeight (worldX worldZ : float) : float :=
  let s0 := {| totalHeight := 0;
               currentFrequency := TERRAIN_BASE_FREQUENCY;
               currentAmplitude := 1;
               normalizationFactor := 0 |} in
  let s := Nat.iter TERRAIN_OCTAVES (octave worldX worldZ) s0 in
  (totalHeight s / normalizationFactor s) * TERRAIN_MAX_HEIGHT.

#[local] Close Scope float_scope.

End Terrain64.

(** The position, the rotation about y and the scale given to [dummy]
    for one instance, as binary64 values. *)
Record Transform64 := {
  position64 : float * float * float;
  rotation_y64 : float;
  scale64 : float
}.

(** [Math.PI]. *)
Definition PI64 : float := 0x1.921fb54442d18p+1%float.

(** *** forest/TreeGenerator.js *)

Module TreeGenerator64.

#[local] Open Scope float_scope.

Record TreeGeometry := {
  trunkHeight : float;
  trunkRadius : float;
  foliageRadius : float;
  foliageOffset : float * float * float
}.

Definition createDeciduousTreeGeometry (prng : Random.SeededRandom)
  : TreeGeometry * Random.SeededRandom :=
  let (trunkHeight, prng) := Random.randFloatF prng 1.5 2.5 in
  let trunkRadius := trunkHeight * 0.1 in
  let foliageRadius := trunkHeight * 0.5 in
  let (dx, prng) :=
    Random.randFloatF prng (- trunkRadius * 0.5) (trunkRadius * 0.5) in
  let (dz, prng) :=
    Random.randFloatF prng (- trunkRadius * 0.5) (trunkRadius * 0.5) in
  ({| trunkHeight := trunkHeight;
      trunkRadius := trunkRadius;
      foliageRadius := foliageRadius;
      foliageOffset := (dx, trunkHeight + foliageRadius * 0.6, dz) |}, prng).

Definition createConiferousTreeGeometry (prng : Random.SeededRandom)
  : TreeGeometry * Random.SeededRandom :=
  let (trunkHeight, prng) := Random.randFloatF prng 2.0 3.5 in
  let trunkRadius := trunkHeight * 0.08 in
  let coneRadius := trunkHeight * 0.3 in
  let coneHeight := trunkHeight * 0.9 in
  ({| trunkHeight := trunkHeight;
      trunkRadius := trunkRadius;
      foliageRadius := coneRadius;
      foliageOffset :=
        (0, trunkHeight + coneHeight / 2 - trunkHeight * 0.1, 0) |}, prng).

Record Params := {
  prng : Random.SeededRandom;
  getTerrainHeight : float -> float -> float;
  TREE_COUNT : Z;
  SPREAD : float;
  MIN_DISTANCE_FROM_CENTER_TREES : float
}.

(** [dist] as the loop computes it. *)
Definition dist (x z : float) : float := PrimFloat.sqrt (x * x + z * z).

(** The [do ... while (dist < MIN_DISTANCE_FROM_CENTER_TREES)] loop;
    [fuel] as in [TreeGenerator.sample_position]. *)
Fixpoint sample_position (fuel : nat) (spread minDist : float)
    (prng : Random.SeededRandom)
  : option (float * float * Random.SeededRandom) :=
  match fuel with
  | O => None
  | S fuel' =>
      let (x, prng) := Random.randFloatF prng (- spread) spread in
      let (z, prng) := Random.randFloatF prng (- spread) spread in
      if dist x z <? minDist
      then sample_position fuel' spread minDist prng
      else Some (x, z, prng)
  end.

Fixpoint place (fuel : nat) (p : Params) (scaleMin scaleMax : float)
    (count : nat) (prng : Random.SeededRandom)
  : option (list Transform64 * Random.SeededRandom) :=
  match count with
  | O => Some ([], prng)
  | S count' =>
      match sample_position fuel (SPREAD p)
              (MIN_DISTANCE_FROM_CENTER_TREES p) prng with
      | None => None
      | Some (x, z, prng) =>
          let terrainY := getTerrainHeight p x z in
          let (scaleVariation, prng) :=
            Random.randFloatF prng scaleMin scaleMax in
          let (r, prng) := Random.randomF prng in
          let m := {| position64 := (x, terrainY, z);
                      rotation_y64 := r * PI64 * 2;
                      scale64 := scaleVariation |} in
          match place fuel p scaleMin scaleMax count' prng with
          | None => None
          | Some (ms, prng) => Some (m :: ms, prng)
          end
      end
  end.

Record Trees := {
  deciduousTrunkInstances : list Transform64;
  deciduousFoliageInstances : list Transform64;
  coniferousTrunkInstances : list Transform64;
  coniferousFoliageInstances : list Transform64
}.

Definition createInstancedTrees (fuel : nat) (p : Params) : option Trees :=
  let (deciduousTemplate, g) := createDeciduousTreeGeometry (prng p) in
  let (coniferousTemplate, g) := createConiferousTreeGeometry g in
  let deciduousCount := (TREE_COUNT p / 2)%Z in
  let coniferousCount := (TREE_COUNT p - deciduousCount)%Z in
  match place fuel p 0.8 1.2 (Z.to_nat deciduousCount) g with
  | None => None
  | Some (deciduous, g) =>
      match place fuel p 0.7 1.1 (Z.to_nat coniferousCount) g with
      | None => None
      | Some (coniferous, _) =>
          Some {| deciduousTrunkInstances := deciduous;
                  deciduousFoliageInstances := deciduous;
                  coniferousTrunkInstances := coniferous;
                  coniferousFoliageInstances := coniferous |}
      end
  end.

Definition instances (t : Trees) : list Transform64 :=
  deciduousTrunkInstances t ++ deciduousFoliageInstances t
  ++ coniferousTrunkInstances t ++ coniferousFoliageInstances t.

#[local] Close Scope float_scope.

End TreeGenerator64.

(** *** mushrooms/MushroomGenerator.js *)

Module MushroomGenerator64.

#[local] Open Scope float_scope.

Record Params := {
  prng : Random.SeededRandom;
  getTerrainHeight : float -> float -> float;
  MUSHROOM_COUNT : Z;
  SPREAD : float;
  MIN_DISTANCE_FROM_GATEWAY_CENTER : float
}.

(** The index [Math.floor(prng.random() * (i + 1))] of the shuffle. *)
Definition shuffle_index (r : float) (i : nat) : nat :=
  match JS.trunc (JS.floor (r * JS.ofZ (Z.of_nat i + 1))) with
  | Some j => Z.to_nat j
  | None => 0%nat
  end.

Fixpoint shuffle (i : nat) (prng : Random.SeededRandom)
    (instanceTypes : list Z) : list Z * Random.SeededRandom :=
  match i with
  | O => (instanceTypes, prng)
  | S i' =>
      let (r, prng) := Random.randomF prng in
      shuffle i' prng (MushroomGenerator.swap instanceTypes i (shuffle_index r i))
  end.

Definition dist (x z : float) : float := PrimFloat.sqrt (x * x + z * z).

(** The [do ... while (dist < MIN || dist > SPREAD * 0.9)] loop. *)
Fixpoint sample_position (fuel : nat) (spread minDist : float)
    (prng : Random.SeededRandom)
  : option (float * float * Random.SeededRandom) :=
  match fuel with
  | O => None
  | S fuel' =>
      let (x, prng) := Random.randFloatF prng (- spread) spread in
      let (z, prng) := Random.randFloatF prng (- spread) spread in
      if dist x z <? minDist
      then sample_position fuel' spread minDist prng
      else if spread * 0.9 <? dist x z
      then sample_position fuel' spread minDist prng
      else Some (x, z, prng)
  end.

Record Mushrooms := {
  stemInstances : list Transform64;
  capInstances : list (option (list Transform64))
}.

Definition set_cap (counts : list Z) (caps : list (option (list Transform64)))
    (mushroomType : option Z) (m : Transform64)
  : list (option (list Transform64)) :=
  match mushroomType with
  | None => caps
  | Some t =>
      if (t - 1 <? 0)%Z then caps else
      let k := Z.to_nat (t - 1) in
      match nth_error caps k, nth_error counts k with
      | Some (Some cap), Some count =>
          if (Z.of_nat (length cap) <? count)%Z
          then MushroomGenerator.set_nth caps k (Some (cap ++ [m]))
          else caps
      | _, _ => caps
      end
  end.

Fixpoint place (fuel : nat) (p : Params) (counts instanceTypes : list Z)
    (todo i : nat) (prng : Random.SeededRandom) (acc : Mushrooms)
  : option Mushrooms :=
  match todo with
  | O => Some acc
  | S todo' =>
      match sample_position fuel (SPREAD p)
              (MIN_DISTANCE_FROM_GATEWAY_CENTER p) prng with
      | None => None
      | Some (x, z, prng) =>
          let terrainY := getTerrainHeight p x z in
          let (scaleVariation, prng) := Random.randFloatF prng 0.5 1.5 in
          let (r, prng) := Random.randomF prng in
          let m := {| position64 := (x, terrainY, z);
                      rotation_y64 := r * PI64 * 2;
                      scale64 := scaleVariation |} in
          let mushroomType := nth_error instanceTypes i in
          place fuel p counts instanceTypes todo' (S i) prng
            {| stemInstances := stemInstances acc ++ [m];
               capInstances :=
                 set_cap counts (capInstances acc) mushroomType m |}
      end
  end.

Definition createInstancedMushrooms (fuel : nat) (p : Params)
  : option Mushrooms :=
  let counts := MushroomGenerator.variety_counts (MUSHROOM_COUNT p) in
  let capInstances :=
    map (fun count => if (0 <? count)%Z then Some [] else None) counts in
  let instanceTypes := MushroomGenerator.variety_tags counts in
  let (instanceTypes, g) :=
    shuffle (length instanceTypes - 1) (prng p) instanceTypes in
  place fuel p counts instanceTypes (Z.to_nat (MUSHROOM_COUNT p)) 0 g
    {| stemInstances := []; capInstances := capInstances |}.

Definition instances (m : Mushrooms) : list Transform64 :=
  stemInstances m
  ++ concat (map (fun c => match c with Some l => l | None => [] end)
                 (capInstances m)).

#[local] Close Scope float_scope.

End MushroomGenerator64.

(** *** The number behind a binary64 value *)

Module Float64.

(** A finite binary64 value as a fraction [(n, d)], [d] a power of two;
    [(0, 1)] for the zeros and, by convention, for NaN and the
    infinities. *)
Definition ratio (f : float) : Z * Z :=
  match Prim2SF f with
  | S754_finite s m e =>
      let a := if s then Zneg m else Zpos m in
      if 0 <=? e then (a * 2 ^ e, 1) else (a, 2 ^ (- e))
  | _ => (0, 1)
  end.

Definition value (f : float) : R :=
  let (n, d) := ratio f in (IZR n / IZR d)%R.



End Float64.

(** *** scene/SceneManager.js: the launch of a mushroom *)

Module Spawned64.

#[local] Open Scope float_scope.

(** [initialVelocity] of [spawnMushroom()], from the three values
    [Math.random()] returned for it. *)
Definition initialVelocity (rx ry rz : float) : float * float * float :=
  ((rx - 0.5) * 4, ry * 3 + 7, (rz * -3) - 5).

(** [randomRotationSpeed] of [spawnMushroom()]. *)
Definition randomRotationSpeed (rx ry rz : float) : float * float * float :=
  ((rx - 0.5) * 8, (ry - 0.5) * 8, (rz - 0.5) * 8).

#[local] Close Scope float_scope.

End Spawned64.

(** * Vocabulary of the properties

    Definitions the statements below are phrased with, and the concrete
    inputs they are tried on. *)

(** ** The lattice hash *)

(** The third statement of [pseudoRandom], on its own. *)
Definition hash_polynomial (n : Z) : Z :=
  JS.add (JS.mul n (JS.add (JS.mul (JS.mul n n) 15731) 789221)) 1376312589.

(** [p] holds at every integer whose magnitude is at least [i] and below
    [i + k]. *)
Fixpoint holds_between (k : nat) (i : Z) (p : Z -> bool) : bool :=
  match k with
  | O => true
  | S k' =>
      if p i then
        if p (- i) then holds_between k' (i + 1) p else false
      else false
  end.

Definition not_all_ones (n : Z) : bool :=
  negb (hash_polynomial n mod 2 ^ 31 =? 2 ^ 31 - 1).

(** The rounding model against the primitive binary64 operations: the
    masked integer of the model, converted and normalised in binary64, is
    the value the binary64 evaluation returns. *)
Definition agrees_with_binary64 (ix iz : Z) : bool :=
  PrimFloat.eqb
    (1.0 - JS.ofZ (Terrain.pseudoRandom_bits ix iz) / 1073741823.0)%float
    (Terrain.pseudoRandom_binary64 ix iz).

(** ** Streams *)

Definition two_streams : Random.store :=
  Random.update
    (Random.update (fun _ => Random.constructor None 1700000000000)
                   0%nat (Random.constructor (Some 54321%float) 11))
    1%nat (Random.constructor (Some 54321%float) 22).

Definition interleaved : list (Random.ref * Random.call) :=
  [ (0%nat, Random.Random); (1%nat, Random.Random); (2%nat, Random.Random);
    (1%nat, Random.RandFloat (-20) 20); (0%nat, Random.RandFloat (-20) 20);
    (0%nat, Random.RandInt 0 10); (2%nat, Random.RandInt 0 10);
    (1%nat, Random.RandInt 0 10) ].

(** ** Interpolation *)

(** One row of lattice values [a], blended along x as [interpolatedNoise]
    blends [v1, v2] and [v3, v4]. *)
Definition row (a : Z -> R) (X : R) : R :=
  let i := Zfloor X in
  let t := (X - IZR i)%R in
  Terrain.lerp (a i) (a (i + 1)) (t * t * (3 - 2 * t))%R.

(** ** Placement *)


(** The value [randFloat(-20, 20)] makes of the 32-bit draw [u]. *)
Definition coordinate (u : Z) : R := (IZR u / 4294967296 * (20 - - 20) + - 20)%R.

Definition placed (ux uz : Z) (scaleMin scaleMax : R) (us ur : Z) : Transform :=
  {| position := (coordinate ux,
                  Terrain.getTerrainHeight (coordinate ux) (coordinate uz),
                  coordinate uz);
     rotation_y := (IZR ur / 4294967296 * PI * 2)%R;
     scale := (IZR us / 4294967296 * (scaleMax - scaleMin) + scaleMin)%R |}.

Definition tree_params : TreeGenerator.Params :=
  {| TreeGenerator.prng := Random.getPlacementPrng 0;
     TreeGenerator.getTerrainHeight := Terrain.getTerrainHeight;
     TreeGenerator.TREE_COUNT := 2;
     TreeGenerator.SPREAD := 20;
     TreeGenerator.MIN_DISTANCE_FROM_CENTER_TREES := 5 |}.

Definition two_trees : TreeGenerator.Trees :=
  let deciduous := [placed 1462784502 713281538 0.8 1.2 2771779791 3304214401] in
  let coniferous := [placed 3336369548 4016290905 0.7 1.1 1687649913 3699549657] in
  {| TreeGenerator.deciduousTrunkInstances := deciduous;
     TreeGenerator.deciduousFoliageInstances := deciduous;
     TreeGenerator.coniferousTrunkInstances := coniferous;
     TreeGenerator.coniferousFoliageInstances := coniferous |}.

Definition mushroom_params : MushroomGenerator.Params :=
  {| MushroomGenerator.prng := Random.getPlacementPrng 0;
     MushroomGenerator.getTerrainHeight := Terrain.getTerrainHeight;
     MushroomGenerator.MUSHROOM_COUNT := 2;
     MushroomGenerator.SPREAD := 20;
     MushroomGenerator.MIN_DISTANCE_FROM_GATEWAY_CENTER := 1 |}.

Definition two_mushrooms : MushroomGenerator.Mushrooms :=
  let m0 := placed 2132909012 552159557 0.5 1.5 3297054289 1462784502 in
  let m1 := placed 713281538 2771779791 0.5 1.5 3304214401 3336369548 in
  {| MushroomGenerator.stemInstances := [m0; m1];
     MushroomGenerator.capInstances := [Some [m1]; Some [m0]; None] |}.




(** ** The day/night cycle *)

Definition resting_mesh : DayNight.Mesh :=
  {| DayNight.mesh_position := (0, 0, 0)%R;
     DayNight.opacity := 1%R;
     DayNight.transparent := false;
     DayNight.mesh_scale := 1%R;
     DayNight.visible := true |}.

(** Late in the day: day progress 0.98. *)
Definition late_afternoon : DayNight.World :=
  {| DayNight.isDaytime := true;
     DayNight.dayTimeProgress := 0.98%R;
     DayNight.nightTimeProgress := 0%R;
     DayNight.scene :=
       {| DayNight.applied := DayNight.daySettings;
          DayNight.lightPosition := (0, 0, 0)%R;
          DayNight.sunMesh := resting_mesh;
          DayNight.moonMesh := DayNight.hide resting_mesh |};
     DayNight.toggleText := "Switch to Night" |}.

(** The frames of an animation, one call of [animate] per frame time. *)
Definition frames (deltas : list R) (w : DayNight.World) : DayNight.World :=
  fold_left (fun w delta => DayNight.animate delta w) deltas w.

(** ** The lattice hash and the octaves, for the further properties *)

(** The masked polynomial is zero at [xor (shl m 13) m]. *)
Definition hash_is_zero (m : Z) : bool :=
  hash_polynomial (JS.xor (JS.shl m 13) m) mod 2 ^ 31 =? 0.

(** The state of the loop of [getTerrainHeight] after [n] iterations. *)
Definition octaves (n : nat) (x z : R) : Terrain.fbm :=
  Nat.iter n (Terrain.octave x z)
    {| Terrain.totalHeight := 0;
       Terrain.currentFrequency := Terrain.TERRAIN_BASE_FREQUENCY;
       Terrain.currentAmplitude := 1;
       Terrain.normalizationFactor := 0 |}.

(** ** Where the instances stand *)


(** The transforms written to a cap mesh; none for a missing mesh. *)
Definition cap_list (c : option (list Transform)) : list Transform :=
  match c with Some l => l | None => [] end.

(** A cap mesh allocated for [count] instances and filled completely; a
    variety without instances has no mesh. *)
Definition cap_filled (count : Z) (c : option (list Transform)) : Prop :=
  match c with
  | Some l => 0 < count /\ Z.of_nat (length l) = count
  | None => count = 0
  end.

(** ** The clock of the cycle *)


(** The seconds of a run of frames. *)
Definition elapsed (deltas : list R) : R := fold_right Rplus 0%R deltas.

(** ** The spawner *)

(** Values that [Math.random()] can return. *)
Definition unit_draws (d : Spawned.Draws) : Prop :=
  Forall (fun r => (0 <= r < 1)%R)
    [Spawned.r_template d; Spawned.r_vx d; Spawned.r_vy d; Spawned.r_vz d;
     Spawned.r_rx d; Spawned.r_ry d; Spawned.r_rz d].

Definition possible (e : Spawned.event) : Prop :=
  match e with
  | Spawned.Click d => unit_draws d
  | _ => True
  end.

(** A mushroom that has landed stands on the terrain, upright. *)
Definition at_rest (m : Spawned.MushroomData) : Prop :=
  let '(x, y, z) := Spawned.mesh_position m in
  let '(rx, _, rz) := Spawned.mesh_rotation m in
  y = Terrain.getTerrainHeight x z /\ rx = 0%R /\ rz = 0%R.

(** The bookkeeping of the spawner is in order: the queue is within its
    limit, the scene holds exactly the groups of the queue, each once, and
    every mushroom that is not in flight is at rest. *)
Definition tidy (s : Spawned.State) : Prop :=
  (length (Spawned.spawnedMushrooms s) <= Spawned.MAX_SPAWNED_MUSHROOMS)%nat
  /\ Spawned.sceneGroups s = map Spawned.mesh (Spawned.spawnedMushrooms s)
  /\ NoDup (Spawned.sceneGroups s)
  /\ Forall (fun m => (Spawned.mesh m < Spawned.created s)%nat)
            (Spawned.spawnedMushrooms s)
  /\ Forall (fun m => Spawned.airborne m = false -> at_rest m)
            (Spawned.spawnedMushrooms s).

(** The launch of a mushroom: out of the portal, upwards and towards
    negative z.  The bounds 10 and -8 are closed: the exact sums stay
    inside them, their binary64 roundings reach them
    ([Spawned64.initialVelocity]). *)
Definition launched (portal : R * R * R) (m : Spawned.MushroomData) : Prop :=
  let '(px, py, pz) := portal in
  let '(vx, vy, vz) := Spawned.velocity m in
  let '(sx, sy, sz) := Spawned.rotationSpeed m in
  Spawned.mesh_position m = (px, (py + 0.5)%R, pz)
  /\ Spawned.airborne m = true
  /\ (-2 <= vx < 2 /\ 7 <= vy <= 10 /\ -8 <= vz <= -5)%R
  /\ (-4 <= sx < 4 /\ -4 <= sy < 4 /\ -4 <= sz < 4)%R
  /\ Spawned.capMaterial m = MushroomGenerator.type (Spawned.template m).

(** The spawner once the model is loaded, with the portal at [portal]. *)
Definition ready (portal : R * R * R) : Spawned.State :=
  Spawned.loaded portal Spawned.initial.

Definition middle_draws : Spawned.Draws :=
  {| Spawned.r_template := 0.5; Spawned.r_vx := 0.5; Spawned.r_vy := 0.5;
     Spawned.r_vz := 0.5; Spawned.r_rx := 0.5; Spawned.r_ry := 0.5;
     Spawned.r_rz := 0.5 |}%R.

(** The frames drawn for one mushroom, [delta] seconds each in turn. *)
Definition flight (deltas : list R) (m : Spawned.MushroomData)
  : Spawned.MushroomData :=
  fold_left (fun m delta => Spawned.fly delta m) deltas m.

(** A mushroom in flight over the origin. *)
Definition thrown : Spawned.MushroomData :=
  {| Spawned.mesh := 0;
     Spawned.template :=
       {| MushroomGenerator.stemHeight := 0.3;
          MushroomGenerator.capSize := 0.2;
          MushroomGenerator.type := 1 |};
     Spawned.capMaterial := 1;
     Spawned.mesh_position := (0, 5, 0)%R;
     Spawned.mesh_rotation := (0, 0, 0)%R;
     Spawned.velocity := (1, 9, -6)%R;
     Spawned.rotationSpeed := (1, 2, 3)%R;
     Spawned.airborne := true |}.

(** The height reached after [t] seconds on the parabola of a point
    thrown from height [y] with vertical velocity [vy]. *)
Definition parabola (t y vy : R) : R :=
  (y + vy * t - Spawned.GRAVITY * (t * t) / 2)%R.

(** The sum of the squares of the frame times. *)
Definition squares (deltas : list R) : R :=
  fold_right (fun delta acc => (delta * delta + acc)%R) 0%R deltas.

(** ** The gate *)

(** A box with its corners in order. *)
Definition proper (b : Gateway.Box3) : Prop :=
  let '(ax, ay, az) := Gateway.min b in
  let '(bx, by_, bz) := Gateway.max b in
  (ax <= bx /\ ay <= by_ /\ az <= bz)%R.

(** The box of a model two units wide, three high and one deep, modelled
    around its own centre. *)
Definition sample_gate : Gateway.Box3 :=
  {| Gateway.min := (-1, -1.5, -0.5)%R; Gateway.max := (1, 1.5, 0.5)%R |}.

(** The materials of the three cap varieties, in the order of the
    templates. *)
Definition variety_materials : list Z := [1; 2; 3].

(** ** Placement in binary64 *)







(** ** Where the exact height stands for the computed one *)

(** Coordinates up to 10^4 in magnitude: every lattice coordinate
    [x * frequency] of the five octaves stays below 2^13 there, so its
    binary64 value keeps 39 bits after the binary point. *)
Definition in_terrain_range (x : R) : Prop := (Rabs x <= 10000)%R.

(** What the rounding of the binary64 evaluation may add to a difference
    of two heights in that range. *)
Definition rounding_allowance : R := (1 / 1000000000)%R.





(** * Properties *)

(** ** Number conversions *)

Lemma ToInt32_range (z : Z) : - 2 ^ 31 <= JS.ToInt32 z < 2 ^ 31.
Proof.
  unfold JS.ToInt32.
  pose proof (Z.mod_pos_bound (z + 2 ^ 31) (2 ^ 32) ltac:(lia)). lia.
Qed.

Lemma ToInt32_small (z : Z) : - 2 ^ 31 <= z < 2 ^ 31 -> JS.ToInt32 z = z.
Proof.
  intros H. unfold JS.ToInt32. rewrite Z.mod_small; lia.
Qed.

Lemma ToInt32_eqm (z : Z) : exists k, JS.ToInt32 z = z + k * 2 ^ 32.
Proof.
  exists (- ((z + 2 ^ 31) / 2 ^ 32)). unfold JS.ToInt32.
  rewrite Z.mod_eq by lia. lia.
Qed.

Lemma ToInt32_mod31 (z : Z) : JS.ToInt32 z mod 2 ^ 31 = z mod 2 ^ 31.
Proof.
  destruct (ToInt32_eqm z) as [k ->].
  replace (z + k * 2 ^ 32) with (z + (2 * k) * 2 ^ 31) by lia.
  apply Z.mod_add. lia.
Qed.

(** [x & 0x7fffffff] keeps the low 31 bits of [x]. *)
Lemma and_mask31 (x : Z) : JS.and x 0x7fffffff = x mod 2 ^ 31.
Proof.
  unfold JS.and.
  rewrite (ToInt32_small 0x7fffffff) by lia.
  change 0x7fffffff with (Z.ones 31).
  rewrite Z.land_ones by lia.
  rewrite ToInt32_mod31.
  apply ToInt32_small.
  pose proof (Z.mod_pos_bound x (2 ^ 31) ltac:(lia)). lia.
Qed.

(** ** Rounding to binary64 *)

Lemma round53_exact (z : Z) : Z.abs z < 2 ^ 53 -> JS.round53 z = z.
Proof.
  intros H. unfold JS.round53.
  destruct (Z.ltb_spec (Z.abs z) (2 ^ 53)); [reflexivity | lia].
Qed.

(** The shape of a rounded value: a mantissa of at least 2^52 scaled by a
    positive power of two. *)
Lemma round53_large (z : Z) :
  2 ^ 53 <= Z.abs z ->
  exists q e, 1 <= e /\ 2 ^ 52 <= q /\ e = Z.log2 (Z.abs z) - 52 /\
              JS.round53 z = Z.sgn z * (q * 2 ^ e).
Proof.
  intros H. unfold JS.round53.
  destruct (Z.ltb_spec (Z.abs z) (2 ^ 53)); [lia |].
  set (a := Z.abs z) in *.
  assert (Hlog : 53 <= Z.log2 a) by (apply Z.log2_le_pow2; lia).
  set (e := Z.log2 a - 52).
  assert (He : 1 <= e) by (unfold e; lia).
  assert (Hq : 2 ^ 52 <= Z.shiftr a e).
  { rewrite Z.shiftr_div_pow2 by lia.
    apply Z.div_le_lower_bound; [apply Z.pow_pos_nonneg; lia |].
    rewrite <- Z.pow_add_r by lia.
    replace (e + 52) with (Z.log2 a) by (unfold e; lia).
    apply Z.log2_spec. lia. }
  set (q := Z.shiftr a e) in *.
  match goal with |- context [Z.shiftl ?q' e] => exists q', e end.
  repeat split; try assumption.
  - repeat match goal with |- context [if ?c then _ else _] => destruct c end; lia.
  - rewrite Z.shiftl_mul_pow2 by lia. reflexivity.
Qed.

Lemma round53_even (z : Z) : 2 ^ 53 <= Z.abs z -> Z.even (JS.round53 z) = true.
Proof.
  intros H. destruct (round53_large z H) as (q & e & He & _ & _ & ->).
  replace (Z.sgn z * (q * 2 ^ e)) with (2 * (Z.sgn z * q * 2 ^ (e - 1))).
  - apply Z.even_mul.
  - replace (2 ^ e) with (2 * 2 ^ (e - 1)); [ring |].
    rewrite <- Z.pow_succ_r by lia. f_equal. lia.
Qed.

Lemma round53_abs_ge (z k : Z) :
  0 <= k -> 2 ^ k <= Z.abs z -> 2 ^ k <= Z.abs (JS.round53 z).
Proof.
  intros Hk H.
  destruct (Z.ltb_spec (Z.abs z) (2 ^ 53)) as [Hs | Hl].
  - rewrite round53_exact; assumption.
  - destruct (round53_large z Hl) as (q & e & He & Hq & Hlog & ->).
    assert (Hz : 0 < Z.abs z) by lia.
    assert (Hk' : k <= Z.log2 (Z.abs z)) by (apply Z.log2_le_pow2; lia).
    assert (Hpe : 0 < 2 ^ e) by (apply Z.pow_pos_nonneg; lia).
    assert (Hge : 2 ^ k <= 2 ^ 52 * 2 ^ e).
    { rewrite <- Z.pow_add_r by lia. apply Z.pow_le_mono_r; lia. }
    rewrite Z.abs_mul, (Z.abs_eq (q * 2 ^ e)) by nia.
    assert (Z.abs (Z.sgn z) = 1) by lia.
    nia.
Qed.

Lemma round53_nonneg (z : Z) : 0 <= z -> 0 <= JS.round53 z.
Proof.
  intros H.
  destruct (Z.ltb_spec (Z.abs z) (2 ^ 53)) as [Hs | Hl].
  - rewrite round53_exact; assumption.
  - destruct (round53_large z Hl) as (q & e & He & Hq & _ & ->).
    assert (0 < 2 ^ e) by (apply Z.pow_pos_nonneg; lia).
    assert (0 <= Z.sgn z) by lia. nia.
Qed.

(** ** The lattice hash *)

Lemma holds_between_spec (p : Z -> bool) (k : nat) :
  forall i, holds_between k i p = true ->
  forall n, i <= Z.abs n < i + Z.of_nat k -> p n = true.
Proof.
  induction k as [| k IH]; intros i Hall n Hn.
  - lia.
  - cbn [holds_between] in Hall.
    destruct (p i) eqn:Hpos; [| discriminate].
    destruct (p (- i)) eqn:Hneg; [| discriminate].
    destruct (Z.eq_dec (Z.abs n) i) as [Heq | Hne].
    + destruct (Z.abs_eq_or_opp n) as [E | E].
      * replace n with i by lia. assumption.
      * replace n with (- i) by lia. assumption.
    + apply (IH (i + 1)); [assumption | lia].
Qed.

(** For an argument of magnitude at least 2^14 the polynomial exceeds 2^53
    in magnitude, so its binary64 value is an even integer. *)
Lemma hash_polynomial_even (n : Z) :
  2 ^ 14 <= Z.abs n -> Z.even (hash_polynomial n) = true.
Proof.
  intros Hn. unfold hash_polynomial, JS.add, JS.mul.
  set (s1 := JS.round53 (n * n)).
  assert (H1 : 2 ^ 28 <= s1).
  { assert (A : 2 ^ 28 <= Z.abs (JS.round53 (n * n))).
    { apply round53_abs_ge; [lia |]. rewrite Z.abs_mul. nia. }
    pose proof (round53_nonneg (n * n) ltac:(nia)). unfold s1. lia. }
  set (s2 := JS.round53 (s1 * 15731)).
  assert (H2 : 2 ^ 41 <= s2).
  { assert (A : 2 ^ 41 <= Z.abs (JS.round53 (s1 * 15731))).
    { apply round53_abs_ge; [lia |]. lia. }
    pose proof (round53_nonneg (s1 * 15731) ltac:(lia)). unfold s2. lia. }
  set (s3 := JS.round53 (s2 + 789221)).
  assert (H3 : 2 ^ 41 <= s3).
  { assert (A : 2 ^ 41 <= Z.abs (JS.round53 (s2 + 789221))).
    { apply round53_abs_ge; [lia |]. lia. }
    pose proof (round53_nonneg (s2 + 789221) ltac:(lia)). unfold s3. lia. }
  set (s4 := JS.round53 (n * s3)).
  assert (H4 : 2 ^ 55 <= Z.abs s4).
  { apply round53_abs_ge; [lia |]. rewrite Z.abs_mul.
    change (2 ^ 55) with (2 ^ 14 * 2 ^ 41).
    apply Z.mul_le_mono_nonneg; lia. }
  apply round53_even. lia.
Qed.

Lemma hash_polynomial_small :
  holds_between (Z.to_nat (2 ^ 14)) 0 not_all_ones = true.
Proof. vm_compute. reflexivity. Qed.

(** The masked value never has all of its 31 bits set. *)
Lemma hash_polynomial_mask (n : Z) :
  0 <= hash_polynomial n mod 2 ^ 31 <= 2 ^ 31 - 2.
Proof.
  pose proof (Z.mod_pos_bound (hash_polynomial n) (2 ^ 31) ltac:(lia)) as B.
  enough (hash_polynomial n mod 2 ^ 31 <> 2 ^ 31 - 1) by lia.
  destruct (Z.lt_ge_cases (Z.abs n) (2 ^ 14)) as [Hs | Hl].
  - pose proof (holds_between_spec _ _ _ hash_polynomial_small n) as C.
    rewrite Z2Nat.id in C by lia. specialize (C ltac:(lia)).
    unfold not_all_ones in C. apply negb_true_iff, Z.eqb_neq in C. exact C.
  - intros E. pose proof (hash_polynomial_even n Hl) as Ev.
    rewrite (Z.div_mod (hash_polynomial n) (2 ^ 31)) in Ev by lia.
    rewrite E in Ev.
    replace (2 ^ 31 * (hash_polynomial n / 2 ^ 31) + (2 ^ 31 - 1))
      with (1 + 2 * (2 ^ 30 * (hash_polynomial n / 2 ^ 31) + (2 ^ 30 - 1)))
      in Ev by lia.
    rewrite Z.even_add_mul_2 in Ev. discriminate.
Qed.

Lemma pseudoRandom_bits_eq (ix iz : Z) :
  Terrain.pseudoRandom_bits ix iz =
  hash_polynomial
    (JS.xor (JS.shl (JS.add ix (JS.mul iz 57)) 13) (JS.add ix (JS.mul iz 57)))
  mod 2 ^ 31.
Proof.
  unfold Terrain.pseudoRandom_bits. cbv zeta.
  rewrite and_mask31. unfold hash_polynomial. reflexivity.
Qed.

Lemma pseudoRandom_bits_range (ix iz : Z) :
  0 <= Terrain.pseudoRandom_bits ix iz <= 2 ^ 31 - 2.
Proof.
  rewrite pseudoRandom_bits_eq. apply hash_polynomial_mask.
Qed.

(** C7: for every pair of integers the lattice hash lies in [-1, 1]. *)
Theorem pseudoRandom_in_unit_interval (ix iz : Z) :
  (-1 <= Terrain.pseudoRandom ix iz <= 1)%R.
Proof.
  unfold Terrain.pseudoRandom.
  destruct (pseudoRandom_bits_range ix iz) as [Lo Hi].
  apply IZR_le in Lo, Hi.
  change (2 ^ 31 - 2) with 2147483646 in Hi.
  lra.
Qed.

(** Sample values of the hash, as computed by a binary64 evaluation of the
    source expression. *)
Example pseudoRandom_bits_samples :
  map (fun p => Terrain.pseudoRandom_bits (fst p) (snd p))
      [(0, 0); (1, 0); (0, 1); (5, 3); (-7, 12); (1000, -2000)]
  = [1376312589; 1316808037; 854327296; 931135488; 536870912; 0].
Proof. vm_compute. reflexivity. Qed.

Example rounding_model_agrees_near_origin :
  holds_between 64 0
    (fun ix => holds_between 16 0 (agrees_with_binary64 ix)) = true.
Proof. vm_compute. reflexivity. Qed.

Example rounding_model_agrees_far_out :
  forallb (fun p => agrees_with_binary64 (fst p) (snd p))
    [ (-16, 4503599627370497); (41, 4503599627370496);
      (123456789, 987654321); (2 ^ 40, 3); (-2 ^ 31, 2 ^ 31 - 1);
      (2 ^ 62, - 2 ^ 55); (9007199254740994, 9007199254740996) ] = true.
Proof. vm_compute. reflexivity. Qed.

Example pseudoRandom_binary64_on_one_line :
  Terrain.pseudoRandom_binary64 (-16) 4503599627370497
  = 0.46874999950523488%float
  /\ Terrain.pseudoRandom_binary64 41 4503599627370496
     = 0.28369140558288564%float.
Proof. vm_compute. split; reflexivity. Qed.

(** The normalisation at the two ends of the masked range, in binary64. *)
Example normalisation_extremes_binary64 :
  (1.0 - JS.ofZ 0 / 1073741823.0)%float = 1%float
  /\ (1.0 - JS.ofZ (2 ^ 31 - 2) / 1073741823.0)%float = (-1)%float.
Proof. vm_compute. split; reflexivity. Qed.

(** The index [ix + iz * 57] is computed without rounding as long as the
    coordinates stay well inside the 53-bit range. *)
Lemma hash_index_exact (ix iz : Z) :
  Z.abs ix <= 2 ^ 52 + 57 -> Z.abs iz <= 2 ^ 46 + 1 ->
  JS.add ix (JS.mul iz 57) = ix + iz * 57.
Proof.
  intros Hx Hz. unfold JS.add, JS.mul.
  rewrite (round53_exact (iz * 57)) by lia.
  apply round53_exact. lia.
Qed.

(** C10, as stated, fails once the index arithmetic rounds: the lattice
    points (-16, 2^52 + 1) and (41, 2^52) lie on one line
    [ix + 57 * iz = constant] and hash to different values. *)
Lemma pseudoRandom_line_counterexample :
  Terrain.pseudoRandom (-16) 4503599627370497
  <> Terrain.pseudoRandom (-16 + 57) (4503599627370497 - 1).
Proof.
  unfold Terrain.pseudoRandom.
  replace (Terrain.pseudoRandom_bits (-16) 4503599627370497)
    with 570425344 by (vm_compute; reflexivity).
  replace (Terrain.pseudoRandom_bits (-16 + 57) (4503599627370497 - 1))
    with 769130496 by (vm_compute; reflexivity).
  lra.
Qed.

(** C10 (amended): for lattice coordinates with |ix| <= 2^52 and
    |iz| <= 2^46 the hash depends only on [ix + 57 * iz]:
    [pseudoRandom ix iz = pseudoRandom (ix + 57) (iz - 1)]. *)
Theorem pseudoRandom_line_invariant (ix iz : Z) :
  Z.abs ix <= 2 ^ 52 -> Z.abs iz <= 2 ^ 46 ->
  Terrain.pseudoRandom ix iz = Terrain.pseudoRandom (ix + 57) (iz - 1).
Proof.
  intros Hx Hz. unfold Terrain.pseudoRandom. do 2 f_equal. f_equal.
  rewrite !pseudoRandom_bits_eq.
  rewrite !hash_index_exact by lia.
  replace (ix + 57 + (iz - 1) * 57) with (ix + iz * 57) by ring.
  reflexivity.
Qed.

Lemma pseudoRandom_line_invariant_witness :
  Terrain.pseudoRandom 5 3 = Terrain.pseudoRandom (5 + 57) (3 - 1).
Proof.
  apply (pseudoRandom_line_invariant 5 3); vm_compute; discriminate.
Defined.

(** ** The seeded generator *)

Example random_bits_seed_54321 :
  fst (Random.random_bits (Random.getPlacementPrng 0)) = 1977376442.
Proof. vm_compute. reflexivity. Qed.

Example random_bits_seed_0 :
  fst (Random.random_bits (Random.constructor (Some 0%float) 7)) = 1144304738.
Proof. vm_compute. reflexivity. Qed.

Lemma run_length (cs : list Random.call) :
  forall g, length (Random.run g cs) = length cs.
Proof.
  induction cs as [| c cs IH]; intros g; simpl.
  - reflexivity.
  - destruct (Random.perform c g) as [v g']. simpl. now rewrite IH.
Qed.

(** Instances share no state: what an instance answers under any schedule
    is what it answers when it runs alone on the calls addressed to it. *)
Lemma exec_isolated (r : Random.ref) (sched : list (Random.ref * Random.call)) :
  forall st,
    Random.outputs_of r (Random.exec st sched)
    = Random.run (st r) (Random.calls_to r sched).
Proof.
  unfold Random.outputs_of, Random.calls_to.
  induction sched as [| [r0 c] sched IH]; intros st; simpl.
  - reflexivity.
  - destruct (Random.perform c (st r0)) as [v g'] eqn:P. simpl.
    destruct (Nat.eqb_spec r0 r) as [-> | Hne]; simpl.
    + rewrite P. f_equal. rewrite IH. unfold Random.update.
      now rewrite Nat.eqb_refl.
    + rewrite IH. unfold Random.update.
      destruct (Nat.eqb_spec r0 r); [contradiction | reflexivity].
Qed.

(** C1: two instances constructed with the same explicit seed and issued
    the same sequence of [random]/[randFloat]/[randInt] calls, in any
    interleaving with each other and with other instances, return the same
    outputs at every step, one output per call. *)
Theorem same_seed_same_stream
    (s now1 now2 : float) (st : Random.store) (a b : Random.ref)
    (sched : list (Random.ref * Random.call)) :
  st a = Random.constructor (Some s) now1 ->
  st b = Random.constructor (Some s) now2 ->
  Random.calls_to a sched = Random.calls_to b sched ->
  Random.outputs_of a (Random.exec st sched)
  = Random.outputs_of b (Random.exec st sched)
  /\ length (Random.outputs_of a (Random.exec st sched))
     = length (Random.calls_to a sched).
Proof.
  intros Ha Hb Hcalls.
  rewrite !exec_isolated, Ha, Hb, Hcalls. split.
  - reflexivity.
  - apply run_length.
Qed.

Lemma same_seed_same_stream_witness :
  Random.outputs_of 0%nat (Random.exec two_streams interleaved)
  = Random.outputs_of 1%nat (Random.exec two_streams interleaved)
  /\ length (Random.outputs_of 0%nat (Random.exec two_streams interleaved))
     = length (Random.calls_to 0%nat interleaved).
Proof.
  apply (same_seed_same_stream 54321 11 22 two_streams 0%nat 1%nat interleaved);
    reflexivity.
Defined.

Example interleaved_outputs :
  Random.outputs_of 0%nat (Random.exec two_streams interleaved)
  = [0.46039382973685861; -0.13573687523603439; 1]%float.
Proof. vm_compute. reflexivity. Qed.

(** Without an explicit seed the stream follows the clock. *)
Example clock_seeded_streams_differ :
  Random.run (Random.constructor None 1700000000000) [Random.Random]
  <> Random.run (Random.constructor None 1700000000001) [Random.Random].
Proof. vm_compute. intros E. discriminate E. Qed.

Lemma random_bits_range (g : Random.SeededRandom) :
  0 <= fst (Random.random_bits g) < 2 ^ 32.
Proof.
  unfold Random.random_bits, JS.ushr. cbv zeta. cbn [fst].
  change (0 mod 32) with 0. rewrite Z.shiftr_0_r.
  unfold JS.ToUint32. apply Z.mod_pos_bound. lia.
Qed.

(** [random()] returns a value in [0, 1).  The quotient of a 32-bit integer
    by 2^32 is a binary64 value, so no rounding is involved. *)
Lemma random_unit_interval (g : Random.SeededRandom) :
  (0 <= fst (Random.random g) < 1)%R.
Proof.
  unfold Random.random.
  pose proof (random_bits_range g) as [Lo Hi].
  destruct (Random.random_bits g) as [u g']. cbn [fst] in *.
  apply IZR_le in Lo. apply IZR_lt in Hi.
  change (2 ^ 32) with 4294967296 in Hi. lra.
Qed.

(** In exact arithmetic [randFloat(a, b)] lies in [a, b) whenever a < b. *)
Lemma randFloat_exact_range (g : Random.SeededRandom) (a b : R) :
  (a < b)%R -> (a <= fst (Random.randFloat g a b) < b)%R.
Proof.
  intros Hab. unfold Random.randFloat.
  pose proof (random_unit_interval g) as Hr.
  destruct (Random.random g) as [r g']. cbn [fst] in *.
  split; nra.
Qed.

(** C9 (code defect): in binary64 [randFloat(a, b)] can return [b].  The
    generator seeded with 1 first draws 2693262067 / 2^32 > 1/2, and
    2^52 + 0.627... rounds to 2^52 + 1: the call
    [randFloat(4503599627370496, 4503599627370497)] returns its excluded
    upper bound. *)
Theorem randFloatF_reaches_max :
  let g := Random.constructor (Some 1%float) 0 in
  let a := 4503599627370496%float in
  let b := 4503599627370497%float in
  (a <? b)%float = true
  /\ fst (Random.random_bits g) = 2693262067
  /\ fst (Random.randFloatF g a b) = b
  /\ (fst (Random.randFloatF g a b) <? b)%float = false.
Proof. vm_compute. repeat split; reflexivity. Qed.

(** ** The height field *)

Lemma interpolatedNoise_reference (x z f : R) :
  Terrain.interpolatedNoise x z f = Terrain.value_noise_reference x z f.
Proof.
  unfold Terrain.interpolatedNoise, Terrain.value_noise_reference,
    Terrain.lerp, Terrain.smoothstep_weight.
  cbv zeta. ring.
Qed.

(** The state of the loop of [getTerrainHeight] after [n] iterations. *)
Lemma octave_loop_invariant (x z : R) (n : nat) :
  let s := Nat.iter n (Terrain.octave x z)
             {| Terrain.totalHeight := 0;
                Terrain.currentFrequency := Terrain.TERRAIN_BASE_FREQUENCY;
                Terrain.currentAmplitude := 1;
                Terrain.normalizationFactor := 0 |} in
  (Terrain.totalHeight s
   = Terrain.sum_below n
       (fun i => Terrain.interpolatedNoise x z
                   (Terrain.TERRAIN_BASE_FREQUENCY
                    * Terrain.TERRAIN_LACUNARITY ^ i)
                 * Terrain.TERRAIN_PERSISTENCE ^ i)
   /\ Terrain.normalizationFactor s
      = Terrain.sum_below n (fun i => Terrain.TERRAIN_PERSISTENCE ^ i)
   /\ Terrain.currentFrequency s
      = Terrain.TERRAIN_BASE_FREQUENCY * Terrain.TERRAIN_LACUNARITY ^ n
   /\ Terrain.currentAmplitude s = Terrain.TERRAIN_PERSISTENCE ^ n)%R.
Proof.
  induction n as [| n IH]; cbn zeta in *.
  - simpl. repeat split; ring.
  - rewrite Nat.iter_succ.
    destruct IH as (Ht & Hn & Hf & Ha).
    cbn [Terrain.octave Terrain.totalHeight Terrain.normalizationFactor
         Terrain.currentFrequency Terrain.currentAmplitude Terrain.sum_below].
    rewrite Ht, Hn, Hf, Ha. simpl pow. repeat split; ring.
Qed.

(** C5, within the range where exact arithmetic stands for the binary64
    evaluation: for every (x, z) with |x| <= 10^4 and |z| <= 10^4,
    [getTerrainHeight] equals the reference fBm: the sum over 5 octaves of
    smoothstep-interpolated value noise, with frequency 0.04 * 2.1^i and
    amplitude 0.45^i, divided by the sum of the amplitudes and multiplied
    by 3.5.  The equality is one of exact arithmetic; the binary64 code
    follows it up to rounding in that range and leaves it for large
    coordinates. *)
Theorem getTerrainHeight_is_fbm (x z : R) :
  in_terrain_range x -> in_terrain_range z ->
  Terrain.getTerrainHeight x z = Terrain.fbm_reference x z.
Proof.
  intros _ _. unfold Terrain.getTerrainHeight. cbv zeta.
  destruct (octave_loop_invariant x z Terrain.TERRAIN_OCTAVES)
    as (Ht & Hn & _ & _).
  rewrite Ht, Hn.
  unfold Terrain.fbm_reference, Terrain.TERRAIN_OCTAVES,
    Terrain.TERRAIN_BASE_FREQUENCY, Terrain.TERRAIN_LACUNARITY,
    Terrain.TERRAIN_PERSISTENCE, Terrain.TERRAIN_MAX_HEIGHT.
  cbn [Terrain.sum_below].
  rewrite !interpolatedNoise_reference.
  replace 1.0%R with 1%R by lra.
  f_equal. f_equal; ring.
Qed.

Lemma getTerrainHeight_is_fbm_witness :
  Terrain.getTerrainHeight 5 3 = Terrain.fbm_reference 5 3.
Proof.
  apply (getTerrainHeight_is_fbm 5 3);
    unfold in_terrain_range; rewrite Rabs_right; lra.
Defined.

(** *** Continuity of the interpolation *)

Lemma smooth_weight_range (t : R) :
  (0 <= t <= 1 -> 0 <= t * t * (3 - 2 * t) <= 1)%R.
Proof.
  intros Ht. split; [nra |].
  assert (0 <= (1 - t) * (1 - t) * (1 + 2 * t))%R
    by (apply Rmult_le_pos; nra).
  nra.
Qed.

Lemma smooth_weight_lipschitz (t t' : R) :
  (0 <= t -> t <= t' -> t' <= 1 ->
   0 <= t' * t' * (3 - 2 * t') - t * t * (3 - 2 * t) <= 3 / 2 * (t' - t))%R.
Proof.
  intros H0 H1 H2.
  replace (t' * t' * (3 - 2 * t') - t * t * (3 - 2 * t))%R
    with ((t' - t) * (3 * (t + t') - 2 * (t * t + t * t' + t' * t')))%R by ring.
  assert (E1 : (0 <= 3 * (t + t') - 2 * (t * t + t * t' + t' * t'))%R).
  { assert (0 <= t * (1 - t))%R by (apply Rmult_le_pos; lra).
    assert (0 <= t' * (1 - t'))%R by (apply Rmult_le_pos; lra).
    assert (0 <= t * (1 - t'))%R by (apply Rmult_le_pos; lra).
    assert (0 <= t' * (1 - t))%R by (apply Rmult_le_pos; lra).
    nra. }
  assert (E2 : (3 * (t + t') - 2 * (t * t + t * t' + t' * t') <= 3 / 2)%R).
  { pose proof (Rle_0_sqr (t - 1 / 2 + (t' - 1 / 2))) as Q1.
    pose proof (Rle_0_sqr (t - 1 / 2)) as Q2.
    pose proof (Rle_0_sqr (t' - 1 / 2)) as Q3.
    unfold Rsqr in Q1, Q2, Q3. lra. }
  split; nra.
Qed.

Section Row.

#[local] Open Scope R_scope.

Variable a : Z -> R.
Hypothesis a_bound : forall k, -1 <= a k <= 1.

(** Inside a cell and at its right end the row is the cell's own blend:
    the weight reaches 1 where the next cell starts with weight 0. *)
Lemma row_cell (k : Z) (X : R) :
  IZR k <= X <= IZR k + 1 ->
  row a X = Terrain.lerp (a k) (a (k + 1))
            ((X - IZR k) * (X - IZR k) * (3 - 2 * (X - IZR k))).
Proof.
  intros [Lo Hi]. unfold row. cbv zeta.
  destruct (Rle_lt_or_eq_dec _ _ Hi) as [Lt | Eq].
  - rewrite (Zfloor_eq k X) by lra. reflexivity.
  - assert (F : Zfloor X = (k + 1)%Z).
    { apply Zfloor_eq. rewrite plus_IZR. lra. }
    rewrite F, plus_IZR. unfold Terrain.lerp. rewrite Eq. ring.
Qed.

Lemma row_lipschitz_cell (k : Z) (X X' : R) :
  IZR k <= X -> X <= X' -> X' <= IZR k + 1 ->
  Rabs (row a X' - row a X) <= 3 * (X' - X).
Proof.
  intros H0 H1 H2.
  rewrite (row_cell k X), (row_cell k X') by lra.
  unfold Terrain.lerp.
  pose proof (smooth_weight_lipschitz (X - IZR k) (X' - IZR k)
                ltac:(lra) ltac:(lra) ltac:(lra)) as [S0 S1].
  set (d := (X' - IZR k) * (X' - IZR k) * (3 - 2 * (X' - IZR k))
            - (X - IZR k) * (X - IZR k) * (3 - 2 * (X - IZR k))) in *.
  match goal with |- Rabs ?e <= _ =>
    replace e with ((a (k + 1)%Z - a k) * d) by (unfold d; ring) end.
  pose proof (a_bound k). pose proof (a_bound (k + 1)%Z).
  apply Rabs_le. split; nra.
Qed.

Lemma row_lipschitz_cells (n : nat) :
  forall X X', X <= X' -> (Zfloor X' - Zfloor X)%Z = Z.of_nat n ->
  Rabs (row a X' - row a X) <= 3 * (X' - X).
Proof.
  induction n as [| n IH]; intros X X' HX Hn.
  - pose proof (Zfloor_bound X) as [B0 _].
    pose proof (Zfloor_bound X') as [_ B1].
    replace (Zfloor X') with (Zfloor X) in B1 by lia.
    apply (row_lipschitz_cell (Zfloor X)); lra.
  - set (m := (Zfloor X + 1)%Z).
    pose proof (Zfloor_bound X) as [B0 B1].
    pose proof (Zfloor_bound X') as [B2 _].
    assert (Hm : IZR m <= X').
    { apply Rle_trans with (IZR (Zfloor X')); [apply IZR_le; lia | lra]. }
    assert (Em : IZR m = IZR (Zfloor X) + 1) by (unfold m; apply plus_IZR).
    assert (Step1 : Rabs (row a (IZR m) - row a X) <= 3 * (IZR m - X))
      by (apply (row_lipschitz_cell (Zfloor X)); lra).
    assert (Step2 : Rabs (row a X' - row a (IZR m)) <= 3 * (X' - IZR m)).
    { apply IH; [lra |]. rewrite ZfloorZ. lia. }
    replace (row a X' - row a X)
      with ((row a X' - row a (IZR m)) + (row a (IZR m) - row a X)) by ring.
    eapply Rle_trans; [apply Rabs_triang | lra].
Qed.

Lemma row_lipschitz (X X' : R) :
  X <= X' -> Rabs (row a X' - row a X) <= 3 * (X' - X).
Proof.
  intros HX.
  apply (row_lipschitz_cells (Z.to_nat (Zfloor X' - Zfloor X))); [assumption |].
  pose proof (Zfloor_le X X' HX). lia.
Qed.

End Row.

Lemma Rabs_le_between (a b : R) : (Rabs a <= b -> - b <= a <= b)%R.
Proof.
  unfold Rabs. destruct (Rcase_abs a); lra.
Qed.

Lemma lattice_value_bound (iz k : Z) : (-1 <= Terrain.pseudoRandom k iz <= 1)%R.
Proof.
  unfold Terrain.pseudoRandom.
  destruct (pseudoRandom_bits_range k iz) as [Lo Hi].
  apply IZR_le in Lo, Hi. change (2 ^ 31 - 2) with 2147483646 in Hi. lra.
Qed.

(** [interpolatedNoise] blends two rows of the lattice. *)
Lemma interpolatedNoise_rows (x z f : R) :
  let iz := Zfloor (z * f) in
  let tz := (z * f - IZR iz)%R in
  Terrain.interpolatedNoise x z f
  = Terrain.lerp (row (fun k => Terrain.pseudoRandom k iz) (x * f))
                 (row (fun k => Terrain.pseudoRandom k (iz + 1)) (x * f))
                 (tz * tz * (3 - 2 * tz))%R.
Proof. reflexivity. Qed.

Lemma interpolatedNoise_lipschitz (x z f eps : R) :
  (0 <= f -> 0 <= eps ->
   Rabs (Terrain.interpolatedNoise (x + eps) z f
         - Terrain.interpolatedNoise x z f) <= 3 * f * eps)%R.
Proof.
  intros Hf He. rewrite !interpolatedNoise_rows. cbv zeta.
  set (iz := Zfloor (z * f)).
  set (tz := (z * f - IZR iz)%R).
  assert (Htz : (0 <= tz <= 1)%R).
  { pose proof (Zfloor_bound (z * f)). unfold tz, iz. lra. }
  pose proof (smooth_weight_range tz Htz) as Hw.
  set (w := (tz * tz * (3 - 2 * tz))%R) in *.
  assert (HX : (x * f <= (x + eps) * f)%R) by nra.
  pose proof (row_lipschitz (fun k => Terrain.pseudoRandom k iz)
                (lattice_value_bound iz) _ _ HX) as R0.
  pose proof (row_lipschitz (fun k => Terrain.pseudoRandom k (iz + 1))
                (lattice_value_bound (iz + 1)) _ _ HX) as R1.
  apply Rabs_le_between in R0, R1.
  replace ((x + eps) * f - x * f)%R with (f * eps)%R in R0, R1 by ring.
  set (d0 := (row (fun k => Terrain.pseudoRandom k iz) ((x + eps) * f)
              - row (fun k => Terrain.pseudoRandom k iz) (x * f))%R) in *.
  set (d1 := (row (fun k => Terrain.pseudoRandom k (iz + 1)) ((x + eps) * f)
              - row (fun k => Terrain.pseudoRandom k (iz + 1)) (x * f))%R) in *.
  unfold Terrain.lerp.
  match goal with |- (Rabs ?e <= _)%R =>
    replace e with ((1 - w) * d0 + w * d1)%R by (unfold d0, d1; ring) end.
  apply Rabs_le. split; nra.
Qed.



(** ** Variety counts *)

Lemma variety_counts_unfold (N : Z) :
  0 <= N ->
  MushroomGenerator.variety_counts N
  = [ N / 3 + (if 0 <? N mod 3 then 1 else 0);
      N / 3 + (if 1 <? N mod 3 then 1 else 0);
      N / 3 + (if 2 <? N mod 3 then 1 else 0) ].
Proof.
  intros HN. unfold MushroomGenerator.variety_counts. cbv zeta.
  cbn [MushroomGenerator.createMushroomGeometries length
       MushroomGenerator.mapi_from Z.of_nat Pos.of_succ_nat Pos.succ Z.add
       Pos.add].
  rewrite Z.rem_mod_nonneg by lia. reflexivity.
Qed.

Example counts_150 : MushroomGenerator.variety_counts 150 = [50; 50; 50].
Proof. reflexivity. Qed.

Example counts_151 : MushroomGenerator.variety_counts 151 = [51; 50; 50].
Proof. reflexivity. Qed.

Example counts_152 : MushroomGenerator.variety_counts 152 = [51; 51; 50].
Proof. reflexivity. Qed.

(** C3: for every total N >= 0 the three per-variety counts are
    floor(N/3) plus one for each index below N mod 3; they sum to N, the
    extra instances go to the earliest varieties, and the list of tags built
    from them has exactly N entries, [counts[k]] of them tagged [k + 1]. *)
Theorem variety_counts_conserve (N : Z) :
  0 <= N ->
  let counts := MushroomGenerator.variety_counts N in
  (forall k, (k < 3)%nat ->
     nth k counts 0
     = N / 3 + (if Z.of_nat k <? N mod 3 then 1 else 0))
  /\ length counts = 3%nat
  /\ fold_right Z.add 0 counts = N
  /\ (forall i j, (i <= j < 3)%nat ->
        nth j counts 0 <= nth i counts 0 <= nth j counts 0 + 1)
  /\ length (MushroomGenerator.variety_tags counts) = Z.to_nat N
  /\ (forall k, (k < 3)%nat ->
        Z.of_nat (count_occ Z.eq_dec (MushroomGenerator.variety_tags counts)
                    (Z.of_nat k + 1))
        = nth k counts 0).
Proof.
  intros HN counts. subst counts. rewrite variety_counts_unfold by assumption.
  pose proof (Z.div_mod N 3 ltac:(lia)) as Hdm.
  pose proof (Z.mod_pos_bound N 3 ltac:(lia)) as Hm.
  assert (Hq : 0 <= N / 3) by (apply Z.div_pos; lia).
  set (q := N / 3) in *. set (r := N mod 3) in *.
  assert (Hr : r = 0 \/ r = 1 \/ r = 2) by lia.
  repeat split.
  - intros k Hk.
    destruct k as [| [| [| k]]]; try lia; reflexivity.
  - cbn [fold_right].
    destruct Hr as [-> | [-> | ->]]; cbn; lia.
  - destruct H as [Hi Hj].
    destruct i as [| [| [| i]]], j as [| [| [| j]]]; try lia; cbn [nth];
      destruct Hr as [-> | [-> | ->]]; cbn; lia.
  - destruct H as [Hi Hj].
    destruct i as [| [| [| i]]], j as [| [| [| j]]]; try lia; cbn [nth];
      destruct Hr as [-> | [-> | ->]]; cbn; lia.
  - unfold MushroomGenerator.variety_tags.
    cbn [MushroomGenerator.mapi_from concat].
    rewrite !length_app, !repeat_length. cbn [length].
    destruct Hr as [-> | [-> | ->]]; cbn; lia.
  - intros k Hk. unfold MushroomGenerator.variety_tags.
    cbn [MushroomGenerator.mapi_from concat].
    rewrite !count_occ_app. cbn [count_occ].
    destruct k as [| [| [| k]]]; try lia; cbn [nth Z.of_nat Pos.of_succ_nat
      Pos.succ Z.add Pos.add];
      repeat (first [ rewrite count_occ_repeat_eq by reflexivity
                    | rewrite count_occ_repeat_neq by discriminate ]);
      destruct Hr as [-> | [-> | ->]]; cbn; lia.
Qed.

Lemma variety_counts_conserve_witness :
  let counts := MushroomGenerator.variety_counts 151 in
  (forall k, (k < 3)%nat ->
     nth k counts 0
     = 151 / 3 + (if Z.of_nat k <? 151 mod 3 then 1 else 0))
  /\ length counts = 3%nat
  /\ fold_right Z.add 0 counts = 151
  /\ (forall i j, (i <= j < 3)%nat ->
        nth j counts 0 <= nth i counts 0 <= nth j counts 0 + 1)
  /\ length (MushroomGenerator.variety_tags counts) = Z.to_nat 151
  /\ (forall k, (k < 3)%nat ->
        Z.of_nat (count_occ Z.eq_dec (MushroomGenerator.variety_tags counts)
                    (Z.of_nat k + 1))
        = nth k counts 0).
Proof.
  apply (variety_counts_conserve 151). lia.
Defined.

(** ** Placement: the distance constraint

    The retry loops compare the binary64 value of
    [Math.sqrt(x * x + z * z)] with their bounds, so what a pass
    guarantees is a bound on that computed distance. *)













(** *** Concrete passes in binary64 *)

(** Replaces [Float64.value f], [f] a literal, by its fraction. *)
Ltac float_value f :=
  let v := eval vm_compute in (Float64.ratio f) in
  change (Float64.value f) with (let (n, d) := v in (IZR n / IZR d)%R);
  cbv beta iota.






(** ** Placement in exact arithmetic *)


(** *** A concrete pass *)

Lemma sqrt_not_lt (s m : R) : (0 <= m -> m * m <= s -> ~ (sqrt s < m))%R.
Proof.
  intros Hm Hs Hlt.
  assert (m <= sqrt s)%R.
  { rewrite <- (sqrt_square m Hm). apply sqrt_le_1_alt. exact Hs. }
  lra.
Qed.

Lemma sqrt_not_gt (s m : R) : (0 <= m -> s <= m * m -> ~ (sqrt s > m))%R.
Proof.
  intros Hm Hs Hgt.
  assert (sqrt s <= m)%R.
  { rewrite <- (sqrt_square m Hm). apply sqrt_le_1_alt. exact Hs. }
  lra.
Qed.

(** Evaluates the next draw of a generator whose state is known. *)
Ltac draw :=
  match goal with
  | |- context [Random.random_bits ?g] =>
      let v := eval vm_compute in (Random.random_bits g) in
      replace (Random.random_bits g) with v by (vm_compute; reflexivity);
      cbv beta iota zeta
  end.

Lemma two_trees_run :
  TreeGenerator.createInstancedTrees 1 tree_params = Some two_trees.
Proof.
  unfold TreeGenerator.createInstancedTrees,
    TreeGenerator.createDeciduousTreeGeometry,
    TreeGenerator.createConiferousTreeGeometry,
    Random.randFloat, Random.random.
  cbn [tree_params TreeGenerator.prng TreeGenerator.TREE_COUNT].
  do 4 draw.
  change (Z.to_nat (2 / 2)) with 1%nat.
  change (Z.to_nat (2 - 2 / 2)) with 1%nat.
  cbn [TreeGenerator.place TreeGenerator.sample_position
       TreeGenerator.SPREAD TreeGenerator.MIN_DISTANCE_FROM_CENTER_TREES
       TreeGenerator.getTerrainHeight tree_params].
  unfold Random.randFloat, Random.random.
  do 2 draw.
  match goal with |- context [Rlt_dec ?d ?m] =>
    destruct (Rlt_dec d m) as [Lt | _];
      [exfalso; revert Lt; apply sqrt_not_lt; lra |] end.
  do 4 draw.
  match goal with |- context [Rlt_dec ?d ?m] =>
    destruct (Rlt_dec d m) as [Lt | _];
      [exfalso; revert Lt; apply sqrt_not_lt; lra |] end.
  do 2 draw.
  reflexivity.
Qed.

Lemma two_mushrooms_run :
  MushroomGenerator.createInstancedMushrooms 1 mushroom_params
  = Some two_mushrooms.
Proof.
  unfold MushroomGenerator.createInstancedMushrooms.
  cbn [mushroom_params MushroomGenerator.prng MushroomGenerator.MUSHROOM_COUNT].
  change (MushroomGenerator.variety_counts 2) with [1; 1; 0]%Z.
  change (MushroomGenerator.variety_tags [1; 1; 0]%Z) with [1; 2]%Z.
  cbv zeta. cbn [length Nat.sub map Z.ltb Z.compare].
  cbn [MushroomGenerator.shuffle]. unfold Random.random.
  draw.
  replace (Zfloor (1977376442 / 4294967296 * (INR 1 + 1))) with 0%Z
    by (symmetry; apply Zfloor_eq; simpl INR; lra).
  change (MushroomGenerator.swap [1; 2]%Z 1 (Z.to_nat 0)) with [2; 1]%Z.
  change (Z.to_nat 2) with 2%nat.
  cbn [MushroomGenerator.place MushroomGenerator.sample_position
       MushroomGenerator.SPREAD
       MushroomGenerator.MIN_DISTANCE_FROM_GATEWAY_CENTER
       MushroomGenerator.getTerrainHeight mushroom_params].
  unfold Random.randFloat, Random.random.
  do 2 draw.
  match goal with |- context [Rlt_dec ?d ?m] =>
    destruct (Rlt_dec d m) as [Lt | _];
      [exfalso; revert Lt; apply sqrt_not_lt; lra |] end.
  match goal with |- context [Rgt_dec ?d ?m] =>
    destruct (Rgt_dec d m) as [Gt | _];
      [exfalso; revert Gt; apply sqrt_not_gt; lra |] end.
  do 4 draw.
  match goal with |- context [Rlt_dec ?d ?m] =>
    destruct (Rlt_dec d m) as [Lt | _];
      [exfalso; revert Lt; apply sqrt_not_lt; lra |] end.
  match goal with |- context [Rgt_dec ?d ?m] =>
    destruct (Rgt_dec d m) as [Gt | _];
      [exfalso; revert Gt; apply sqrt_not_gt; lra |] end.
  do 2 draw.
  reflexivity.
Qed.

(** ** Placement: unsatisfiable constraints *)









(** ** The day/night cycle *)




(** ** Number conversions on samples *)

Example ToInt32F_samples :
  map JS.ToInt32F
      [2147483648; -1.5; 4294967297.5; 1e300; nan; infinity;
       neg_infinity; -2147483649; 1831620134]%float
  = [-2147483648; -1; 1; 0; 0; 0; 0; 2147483647; 1831620134].
Proof. vm_compute. reflexivity. Qed.

Example floor_samples :
  map JS.floor [2.75; -0.5; -2; 0.25; 4503599627370497; -1e-300]%float
  = [2; -1; -2; 0; 4503599627370497; -1]%float.
Proof. vm_compute. reflexivity. Qed.

Example round53_samples :
  map JS.round53
      [2 ^ 53 + 1; 2 ^ 53 + 3; - (2 ^ 53 + 1); 2 ^ 60 + 2 ^ 7; 2 ^ 60 + 2 ^ 7 + 1;
       2 ^ 52 * 57 + 57; 2 ^ 52 * 57 + 48]
  = [2 ^ 53; 2 ^ 53 + 4; - 2 ^ 53; 2 ^ 60; 2 ^ 60 + 2 ^ 8;
     2 ^ 52 * 57 + 64; 2 ^ 52 * 57 + 64].
Proof. vm_compute. reflexivity. Qed.

(** ** The shuffle and the number of instances *)

Lemma set_nth_count (l : list Z) :
  forall i a b x,
    nth_error l i = Some a ->
    (count_occ Z.eq_dec (MushroomGenerator.set_nth l i b) x
     + (if Z.eq_dec a x then 1 else 0)
     = count_occ Z.eq_dec l x + (if Z.eq_dec b x then 1 else 0))%nat.
Proof.
  induction l as [| y l IH]; intros i a b x H.
  - destruct i; discriminate.
  - destruct i as [| i]; cbn [MushroomGenerator.set_nth nth_error] in *.
    + injection H as ->. cbn [count_occ].
      destruct (Z.eq_dec b x), (Z.eq_dec a x); lia.
    + specialize (IH i a b x H). cbn [count_occ].
      destruct (Z.eq_dec y x); lia.
Qed.

Lemma set_nth_same (l : list Z) :
  forall i a b, nth_error l i = Some a ->
    nth_error (MushroomGenerator.set_nth l i b) i = Some b.
Proof.
  induction l as [| y l IH]; intros [| i] a b H; try discriminate; cbn in *.
  - reflexivity.
  - eapply IH; eassumption.
Qed.

Lemma set_nth_other (l : list Z) :
  forall i j b, i <> j ->
    nth_error (MushroomGenerator.set_nth l i b) j = nth_error l j.
Proof.
  induction l as [| y l IH]; intros [| i] [| j] b H; cbn; try reflexivity.
  - contradiction.
  - apply IH. congruence.
Qed.

Lemma swap_count (l : list Z) (i j : nat) (x : Z) :
  count_occ Z.eq_dec (MushroomGenerator.swap l i j) x = count_occ Z.eq_dec l x.
Proof.
  unfold MushroomGenerator.swap.
  destruct (nth_error l i) as [a |] eqn:Hi; [| reflexivity].
  destruct (nth_error l j) as [b |] eqn:Hj; [| reflexivity].
  pose proof (set_nth_count l i a b x Hi) as C1.
  assert (Hj' : nth_error (MushroomGenerator.set_nth l i b) j = Some b).
  { destruct (Nat.eq_dec i j) as [<- | Hne].
    - eapply set_nth_same; eassumption.
    - rewrite set_nth_other by assumption. exact Hj. }
  pose proof (set_nth_count _ j b a x Hj') as C2.
  lia.
Qed.

(** The shuffle keeps every tag: after it each variety still has the
    number of tags it had before. *)
Lemma shuffle_count (i : nat) :
  forall g types x,
    count_occ Z.eq_dec (fst (MushroomGenerator.shuffle i g types)) x
    = count_occ Z.eq_dec types x.
Proof.
  induction i as [| i IH]; intros g types x; cbn [MushroomGenerator.shuffle].
  - reflexivity.
  - destruct (Random.random g) as [r g']. rewrite IH. apply swap_count.
Qed.

(** The index drawn at step [i] of the shuffle lies in [0, i]. *)
Lemma shuffle_index_in_range (g : Random.SeededRandom) (i : nat) :
  (Z.to_nat (Zfloor (fst (Random.random g) * (INR i + 1))) <= i)%nat.
Proof.
  pose proof (random_unit_interval g) as [R0 R1].
  set (r := fst (Random.random g)) in *. clearbody r.
  pose proof (pos_INR i) as Hi.
  pose proof (Zfloor_bound (r * (INR i + 1))) as [F0 F1].
  assert (Hpos : (0 < (1 - r) * (INR i + 1))%R)
    by (apply Rmult_lt_0_compat; lra).
  replace ((1 - r) * (INR i + 1))%R with (INR i + 1 - r * (INR i + 1))%R
    in Hpos by ring.
  set (k := Zfloor (r * (INR i + 1))) in *.
  assert (Hlt : (IZR k < INR i + 1)%R) by lra.
  rewrite INR_IZR_INZ, <- plus_IZR in Hlt. apply lt_IZR in Hlt. lia.
Qed.

(** A pass that terminates fills every slot it was asked for. *)
Lemma tree_place_length (fuel : nat) (p : TreeGenerator.Params) (lo hi : R)
    (count : nat) :
  forall g ms g',
    TreeGenerator.place fuel p lo hi count g = Some (ms, g') ->
    length ms = count.
Proof.
  induction count as [| count IH]; intros g ms g' H;
    cbn [TreeGenerator.place] in H.
  - injection H as <- _. reflexivity.
  - destruct (TreeGenerator.sample_position fuel _ _ g)
      as [[[x z] g1] |]; [| discriminate].
    destruct (Random.randFloat g1 lo hi) as [sv g2].
    destruct (Random.random g2) as [r g3].
    destruct (TreeGenerator.place fuel p lo hi count g3)
      as [[ms' g4] |] eqn:P; [| discriminate].
    injection H as <- _. cbn. f_equal. eapply IH; eassumption.
Qed.

Lemma trees_count (fuel : nat) (p : TreeGenerator.Params)
    (t : TreeGenerator.Trees) :
  0 <= TreeGenerator.TREE_COUNT p ->
  TreeGenerator.createInstancedTrees fuel p = Some t ->
  Z.of_nat (length (TreeGenerator.deciduousTrunkInstances t)
            + length (TreeGenerator.coniferousTrunkInstances t))
  = TreeGenerator.TREE_COUNT p.
Proof.
  intros HN H. unfold TreeGenerator.createInstancedTrees in H.
  destruct (TreeGenerator.createDeciduousTreeGeometry _) as [dt g1].
  destruct (TreeGenerator.createConiferousTreeGeometry g1) as [ct g2].
  cbv zeta in H.
  destruct (TreeGenerator.place fuel p 0.8 1.2 _ g2)
    as [[dec g3] |] eqn:D; [| discriminate].
  destruct (TreeGenerator.place fuel p 0.7 1.1 _ g3)
    as [[con g4] |] eqn:C; [| discriminate].
  injection H as <-. cbn.
  apply tree_place_length in D, C. rewrite D, C.
  pose proof (Z.div_pos (TreeGenerator.TREE_COUNT p) 2 HN ltac:(lia)).
  assert (TreeGenerator.TREE_COUNT p / 2 <= TreeGenerator.TREE_COUNT p)
    by (apply Z.div_le_upper_bound; lia).
  lia.
Qed.

Lemma mushroom_place_length (fuel : nat) (p : MushroomGenerator.Params)
    (counts types : list Z) (todo : nat) :
  forall i g acc res,
    MushroomGenerator.place fuel p counts types todo i g acc = Some res ->
    length (MushroomGenerator.stemInstances res)
    = (length (MushroomGenerator.stemInstances acc) + todo)%nat.
Proof.
  induction todo as [| todo IH]; intros i g acc res H;
    cbn [MushroomGenerator.place] in H.
  - injection H as <-. lia.
  - destruct (MushroomGenerator.sample_position fuel _ _ g)
      as [[[x z] g1] |]; [| discriminate].
    destruct (Random.randFloat g1 0.5 1.5) as [sv g2].
    destruct (Random.random g2) as [r g3].
    apply IH in H. cbn in H. rewrite length_app in H. cbn in H. lia.
Qed.

Lemma mushrooms_count (fuel : nat) (p : MushroomGenerator.Params)
    (m : MushroomGenerator.Mushrooms) :
  MushroomGenerator.createInstancedMushrooms fuel p = Some m ->
  length (MushroomGenerator.stemInstances m)
  = Z.to_nat (MushroomGenerator.MUSHROOM_COUNT p).
Proof.
  intros H. unfold MushroomGenerator.createInstancedMushrooms in H.
  cbv zeta in H. destruct (MushroomGenerator.shuffle _ _ _) as [types g].
  apply mushroom_place_length in H. exact H.
Qed.

(** ** The progress invariant along a run of frames *)

Lemma animate_progress_range (delta : R) (w : DayNight.World) :
  (0 <= delta)%R ->
  (0 <= DayNight.activeProgress w < 1)%R ->
  (0 <= DayNight.activeProgress (DayNight.animate delta w) < 1)%R.
Proof.
  intros Hd Hp.
  unfold DayNight.activeProgress, DayNight.animate,
    DayNight.DAY_CYCLE_DURATION, DayNight.NIGHT_CYCLE_DURATION in *.
  destruct (DayNight.isDaytime w).
  - assert (0 <= delta / 60)%R by (apply Rmult_le_pos; [assumption | lra]).
    destruct (Rge_dec _ 1.0); cbn; lra.
  - assert (0 <= delta / 45)%R by (apply Rmult_le_pos; [assumption | lra]).
    destruct (Rge_dec _ 1.0); cbn; lra.
Qed.

Lemma frames_progress_range (deltas : list R) :
  Forall (fun delta => (0 <= delta)%R) deltas ->
  forall w,
    (0 <= DayNight.activeProgress w < 1)%R ->
    (0 <= DayNight.activeProgress (frames deltas w) < 1)%R.
Proof.
  induction 1 as [| delta deltas Hd _ IH]; intros w Hw; cbn.
  - exact Hw.
  - apply IH. apply animate_progress_range; assumption.
Qed.

(** The manual toggle resets both progress values and applies the
    settings of the phase it switches to, as the automatic transition
    does. *)
Lemma toggle_resets (w : DayNight.World) :
  let w' := DayNight.toggle w in
  DayNight.isDaytime w' = negb (DayNight.isDaytime w)
  /\ DayNight.dayTimeProgress w' = 0%R
  /\ DayNight.nightTimeProgress w' = 0%R
  /\ DayNight.applied (DayNight.scene w')
     = (if DayNight.isDaytime w' then DayNight.daySettings
        else DayNight.nightSettings).
Proof.
  unfold DayNight.toggle. destruct (DayNight.isDaytime w); cbn; auto.
Qed.

(** * Further properties of the code *)

(** ** The height field: range and interpolation *)

Lemma lerp_between (lo hi x y t : R) :
  (lo <= x <= hi -> lo <= y <= hi -> 0 <= t <= 1 ->
   lo <= Terrain.lerp x y t <= hi)%R.
Proof.
  intros Hx Hy Ht. unfold Terrain.lerp. split; nra.
Qed.

Lemma frac_range (X : R) : (0 <= X - IZR (Zfloor X) <= 1)%R.
Proof. pose proof (Zfloor_bound X). lra. Qed.

(** The noise stays within any interval that holds the four surrounding
    lattice values. *)
Lemma interpolatedNoise_between (x z f lo hi : R) :
  let ix := Zfloor (x * f) in
  let iz := Zfloor (z * f) in
  (lo <= Terrain.pseudoRandom ix iz <= hi ->
   lo <= Terrain.pseudoRandom (ix + 1) iz <= hi ->
   lo <= Terrain.pseudoRandom ix (iz + 1) <= hi ->
   lo <= Terrain.pseudoRandom (ix + 1) (iz + 1) <= hi ->
   lo <= Terrain.interpolatedNoise x z f <= hi)%R.
Proof.
  intros ix iz H1 H2 H3 H4. unfold Terrain.interpolatedNoise. cbv zeta.
  fold ix iz.
  pose proof (smooth_weight_range _ (frac_range (x * f))) as Wx.
  pose proof (smooth_weight_range _ (frac_range (z * f))) as Wz.
  fold ix in Wx. fold iz in Wz.
  apply lerp_between; [apply lerp_between | apply lerp_between |];
    assumption.
Qed.

Lemma interpolatedNoise_range (x z f : R) :
  (-1 <= Terrain.interpolatedNoise x z f <= 1)%R.
Proof.
  apply interpolatedNoise_between; apply lattice_value_bound.
Qed.

Lemma terrain_height_range (x z : R) :
  (- 3.5 <= Terrain.getTerrainHeight x z <= 3.5)%R.
Proof.
  unfold Terrain.getTerrainHeight. cbv zeta.
  destruct (octave_loop_invariant x z Terrain.TERRAIN_OCTAVES)
    as (Ht & Hn & _ & _).
  rewrite Ht, Hn. clear Ht Hn.
  unfold Terrain.TERRAIN_OCTAVES, Terrain.TERRAIN_BASE_FREQUENCY,
    Terrain.TERRAIN_LACUNARITY, Terrain.TERRAIN_PERSISTENCE,
    Terrain.TERRAIN_MAX_HEIGHT.
  cbn [Terrain.sum_below].
  pose proof (interpolatedNoise_range x z (0.04 * 2.1 ^ 0)) as N0.
  pose proof (interpolatedNoise_range x z (0.04 * 2.1 ^ 1)) as N1.
  pose proof (interpolatedNoise_range x z (0.04 * 2.1 ^ 2)) as N2.
  pose proof (interpolatedNoise_range x z (0.04 * 2.1 ^ 3)) as N3.
  pose proof (interpolatedNoise_range x z (0.04 * 2.1 ^ 4)) as N4.
  set (a0 := Terrain.interpolatedNoise x z (0.04 * 2.1 ^ 0)) in *.
  set (a1 := Terrain.interpolatedNoise x z (0.04 * 2.1 ^ 1)) in *.
  set (a2 := Terrain.interpolatedNoise x z (0.04 * 2.1 ^ 2)) in *.
  set (a3 := Terrain.interpolatedNoise x z (0.04 * 2.1 ^ 3)) in *.
  set (a4 := Terrain.interpolatedNoise x z (0.04 * 2.1 ^ 4)) in *.
  simpl pow in *. split; lra.
Qed.

(** X1: the terrain elevation never leaves the band of the maximum
    height: |getTerrainHeight(x, z)| <= TERRAIN_MAX_HEIGHT = 3.5 for all
    real x and z. *)
Theorem getTerrainHeight_bounded (x z : R) :
  (Rabs (Terrain.getTerrainHeight x z) <= Terrain.TERRAIN_MAX_HEIGHT)%R.
Proof.
  pose proof (terrain_height_range x z) as H.
  apply Rabs_le. unfold Terrain.TERRAIN_MAX_HEIGHT. lra.
Qed.



(** ** The height field: slope in every direction *)

(** [interpolatedNoise] also blends two columns of the lattice. *)
Lemma interpolatedNoise_columns (x z f : R) :
  let ix := Zfloor (x * f) in
  let tx := (x * f - IZR ix)%R in
  Terrain.interpolatedNoise x z f
  = row (fun k => Terrain.lerp (Terrain.pseudoRandom ix k)
                               (Terrain.pseudoRandom (ix + 1) k)
                               (tx * tx * (3 - 2 * tx))%R) (z * f).
Proof. reflexivity. Qed.

Lemma interpolatedNoise_lipschitz_z (x z f eps : R) :
  (0 <= f -> 0 <= eps ->
   Rabs (Terrain.interpolatedNoise x (z + eps) f
         - Terrain.interpolatedNoise x z f) <= 3 * f * eps)%R.
Proof.
  intros Hf He. rewrite !interpolatedNoise_columns. cbv zeta.
  set (ix := Zfloor (x * f)).
  set (tx := (x * f - IZR ix)%R).
  assert (Htx : (0 <= tx <= 1)%R) by apply frac_range.
  pose proof (smooth_weight_range tx Htx) as Hw.
  set (w := (tx * tx * (3 - 2 * tx))%R) in *.
  assert (HX : (z * f <= (z + eps) * f)%R) by nra.
  assert (Ha : forall k : Z,
             (-1 <= Terrain.lerp (Terrain.pseudoRandom ix k)
                      (Terrain.pseudoRandom (ix + 1) k) w <= 1)%R).
  { intros k. apply lerp_between;
      [apply lattice_value_bound | apply lattice_value_bound | exact Hw]. }
  pose proof (row_lipschitz _ Ha _ _ HX) as R0.
  replace ((z + eps) * f - z * f)%R with (f * eps)%R in R0 by ring.
  replace (3 * f * eps)%R with (3 * (f * eps))%R by ring.
  exact R0.
Qed.

(** The noise moves by at most [3 * f] per unit of distance, along x and
    along z, in either direction. *)
Lemma interpolatedNoise_lipschitz_plane (x z x' z' f : R) :
  (0 <= f ->
   Rabs (Terrain.interpolatedNoise x' z' f - Terrain.interpolatedNoise x z f)
   <= 3 * f * (Rabs (x' - x) + Rabs (z' - z)))%R.
Proof.
  intros Hf.
  assert (Sx : forall a b c : R,
            (Rabs (Terrain.interpolatedNoise b c f
                   - Terrain.interpolatedNoise a c f)
             <= 3 * f * Rabs (b - a))%R).
  { intros a b c. destruct (Rle_dec a b) as [Hab | Hab].
    - rewrite (Rabs_right (b - a)) by lra.
      replace b with (a + (b - a))%R at 1 by ring.
      apply interpolatedNoise_lipschitz; lra.
    - rewrite (Rabs_left (b - a)) by lra. rewrite Rabs_minus_sym.
      replace a with (b + (a - b))%R at 1 by ring.
      replace (- (b - a))%R with (a - b)%R by ring.
      apply interpolatedNoise_lipschitz; lra. }
  assert (Sz : forall a b c : R,
            (Rabs (Terrain.interpolatedNoise c b f
                   - Terrain.interpolatedNoise c a f)
             <= 3 * f * Rabs (b - a))%R).
  { intros a b c. destruct (Rle_dec a b) as [Hab | Hab].
    - rewrite (Rabs_right (b - a)) by lra.
      replace b with (a + (b - a))%R at 1 by ring.
      apply interpolatedNoise_lipschitz_z; lra.
    - rewrite (Rabs_left (b - a)) by lra. rewrite Rabs_minus_sym.
      replace a with (b + (a - b))%R at 1 by ring.
      replace (- (b - a))%R with (a - b)%R by ring.
      apply interpolatedNoise_lipschitz_z; lra. }
  pose proof (Sx x x' z') as H1. pose proof (Sz z z' x) as H2.
  apply Rabs_le_between in H1, H2.
  apply Rabs_le. split; lra.
Qed.

(** X3: the ground is nowhere steeper than 2 in any direction, up to
    rounding: between any two points with coordinates of magnitude up to
    10^4 the elevation differs by at most twice the sum of the distances
    along x and along z, plus the allowance 10^-9 for the rounding of the
    binary64 evaluation. *)
Theorem getTerrainHeight_slope (x z x' z' : R) :
  in_terrain_range x -> in_terrain_range z ->
  in_terrain_range x' -> in_terrain_range z' ->
  (Rabs (Terrain.getTerrainHeight x' z' - Terrain.getTerrainHeight x z)
   <= 2 * (Rabs (x' - x) + Rabs (z' - z)) + rounding_allowance)%R.
Proof.
  intros _ _ _ _. unfold rounding_allowance.
  unfold Terrain.getTerrainHeight. cbv zeta.
  destruct (octave_loop_invariant x z Terrain.TERRAIN_OCTAVES)
    as (Ht & Hn & _ & _).
  destruct (octave_loop_invariant x' z' Terrain.TERRAIN_OCTAVES)
    as (Ht' & Hn' & _ & _).
  rewrite Ht, Hn, Ht', Hn'. clear Ht Hn Ht' Hn'.
  unfold Terrain.TERRAIN_OCTAVES, Terrain.TERRAIN_BASE_FREQUENCY,
    Terrain.TERRAIN_LACUNARITY, Terrain.TERRAIN_PERSISTENCE,
    Terrain.TERRAIN_MAX_HEIGHT.
  cbn [Terrain.sum_below].
  pose proof (Rabs_pos (x' - x)) as Px. pose proof (Rabs_pos (z' - z)) as Pz.
  set (d := (Rabs (x' - x) + Rabs (z' - z))%R) in *.
  assert (L : forall f, (0 <= f)%R ->
            (- (3 * f * d)
             <= Terrain.interpolatedNoise x' z' f
                - Terrain.interpolatedNoise x z f
             <= 3 * f * d)%R).
  { intros f Hf. apply Rabs_le_between.
    apply interpolatedNoise_lipschitz_plane; lra. }
  pose proof (L (0.04 * 2.1 ^ 0)%R ltac:(simpl; lra)) as L0.
  pose proof (L (0.04 * 2.1 ^ 1)%R ltac:(simpl; lra)) as L1.
  pose proof (L (0.04 * 2.1 ^ 2)%R ltac:(simpl; lra)) as L2.
  pose proof (L (0.04 * 2.1 ^ 3)%R ltac:(simpl; lra)) as L3.
  pose proof (L (0.04 * 2.1 ^ 4)%R ltac:(simpl; lra)) as L4.
  clear L.
  set (a0 := Terrain.interpolatedNoise x z (0.04 * 2.1 ^ 0)) in *.
  set (a1 := Terrain.interpolatedNoise x z (0.04 * 2.1 ^ 1)) in *.
  set (a2 := Terrain.interpolatedNoise x z (0.04 * 2.1 ^ 2)) in *.
  set (a3 := Terrain.interpolatedNoise x z (0.04 * 2.1 ^ 3)) in *.
  set (a4 := Terrain.interpolatedNoise x z (0.04 * 2.1 ^ 4)) in *.
  set (b0 := Terrain.interpolatedNoise x' z' (0.04 * 2.1 ^ 0)) in *.
  set (b1 := Terrain.interpolatedNoise x' z' (0.04 * 2.1 ^ 1)) in *.
  set (b2 := Terrain.interpolatedNoise x' z' (0.04 * 2.1 ^ 2)) in *.
  set (b3 := Terrain.interpolatedNoise x' z' (0.04 * 2.1 ^ 3)) in *.
  set (b4 := Terrain.interpolatedNoise x' z' (0.04 * 2.1 ^ 4)) in *.
  simpl pow in *.
  apply Rabs_le. split; lra.
Qed.

Lemma getTerrainHeight_slope_witness :
  (Rabs (Terrain.getTerrainHeight 6 2 - Terrain.getTerrainHeight 5 3)
   <= 2 * (Rabs (6 - 5) + Rabs (2 - 3)) + rounding_allowance)%R.
Proof.
  apply (getTerrainHeight_slope 5 3 6 2);
    unfold in_terrain_range; rewrite Rabs_right; lra.
Defined.

(** ** The lattice hash: where it stops varying *)

(** A result of magnitude 2^(k+52) or more is rounded to a multiple of
    2^k. *)
Lemma round53_multiple (z k : Z) :
  1 <= k -> 2 ^ (k + 52) <= Z.abs z -> JS.round53 z mod 2 ^ k = 0.
Proof.
  intros Hk H.
  assert (P53 : 2 ^ 53 <= 2 ^ (k + 52)) by (apply Z.pow_le_mono_r; lia).
  destruct (round53_large z ltac:(lia)) as (q & e & He & Hq & Hlog & ->).
  assert (Hke : k + 52 <= Z.log2 (Z.abs z)) by (apply Z.log2_le_pow2; lia).
  replace (2 ^ e) with (2 ^ (e - k) * 2 ^ k)
    by (rewrite <- Z.pow_add_r by lia; f_equal; lia).
  replace (Z.sgn z * (q * (2 ^ (e - k) * 2 ^ k)))
    with (Z.sgn z * q * 2 ^ (e - k) * 2 ^ k) by ring.
  apply Z.mod_mul. apply Z.pow_nonzero; lia.
Qed.

(** From 2^24 on the polynomial exceeds 2^83, where binary64 values are
    multiples of 2^31: the mask leaves nothing. *)
Lemma hash_polynomial_flat (n : Z) :
  2 ^ 24 <= Z.abs n -> hash_polynomial n mod 2 ^ 31 = 0.
Proof.
  intros Hn. unfold hash_polynomial, JS.add, JS.mul.
  set (s1 := JS.round53 (n * n)).
  assert (H1 : 2 ^ 48 <= s1).
  { assert (A : 2 ^ 48 <= Z.abs (JS.round53 (n * n))).
    { apply round53_abs_ge; [lia |]. rewrite Z.abs_mul. nia. }
    pose proof (round53_nonneg (n * n) ltac:(nia)). unfold s1. lia. }
  set (s2 := JS.round53 (s1 * 15731)).
  assert (H2 : 2 ^ 61 <= s2).
  { assert (A : 2 ^ 61 <= Z.abs (JS.round53 (s1 * 15731))).
    { apply round53_abs_ge; [lia |]. lia. }
    pose proof (round53_nonneg (s1 * 15731) ltac:(lia)). unfold s2. lia. }
  set (s3 := JS.round53 (s2 + 789221)).
  assert (H3 : 2 ^ 61 <= s3).
  { assert (A : 2 ^ 61 <= Z.abs (JS.round53 (s2 + 789221))).
    { apply round53_abs_ge; [lia |]. lia. }
    pose proof (round53_nonneg (s2 + 789221) ltac:(lia)). unfold s3. lia. }
  set (s4 := JS.round53 (n * s3)).
  assert (H4 : 2 ^ 85 <= Z.abs s4).
  { apply round53_abs_ge; [lia |]. rewrite Z.abs_mul.
    change (2 ^ 85) with (2 ^ 24 * 2 ^ 61).
    apply Z.mul_le_mono_nonneg; lia. }
  apply round53_multiple; [lia |]. change (2 ^ (31 + 52)) with (2 ^ 83). lia.
Qed.

(** [n << 13 ^ n] is large as soon as [n] has twelve bits. *)
Lemma scramble_large (m : Z) :
  2049 <= Z.abs m < 2 ^ 18 ->
  2 ^ 24 <= Z.abs (JS.xor (JS.shl m 13) m).
Proof.
  intros Hm. unfold JS.xor, JS.shl.
  change (13 mod 32) with 13.
  rewrite (ToInt32_small m) by lia.
  rewrite Z.shiftl_mul_pow2 by lia.
  rewrite !(ToInt32_small (m * 2 ^ 13)) by lia.
  set (v := Z.lxor (m * 2 ^ 13) m).
  assert (Hs : Z.shiftr v 24
               = Z.lxor (Z.shiftr (m * 2 ^ 13) 24) (Z.shiftr m 24))
    by apply Z.shiftr_lxor.
  rewrite !Z.shiftr_div_pow2 in Hs by lia.
  assert (Hv : - 2 ^ 31 <= v < 2 ^ 31).
  { assert (B : forall a, - 2 ^ 31 <= a < 2 ^ 31 <-> Z.shiftr a 31 = 0 \/ Z.shiftr a 31 = -1).
    { intros a. rewrite Z.shiftr_div_pow2 by lia.
      pose proof (Z.div_mod a (2 ^ 31) ltac:(lia)).
      pose proof (Z.mod_pos_bound a (2 ^ 31) ltac:(lia)). lia. }
    apply B. unfold v. rewrite Z.shiftr_lxor.
    rewrite !Z.shiftr_div_pow2 by lia.
    destruct (Z.le_gt_cases 0 m) as [Hp | Hneg].
    - left. rewrite (Z.div_small m) by lia.
      rewrite (Z.div_small (m * 2 ^ 13)) by lia. reflexivity.
    - left.
      replace (m / 2 ^ 31) with (-1)
        by (apply Z.div_unique with (r := m + 2 ^ 31); lia).
      replace (m * 2 ^ 13 / 2 ^ 31) with (-1)
        by (apply Z.div_unique with (r := m * 2 ^ 13 + 2 ^ 31); lia).
      reflexivity. }
  rewrite (ToInt32_small v) by exact Hv.
  destruct (Z.le_gt_cases 0 m) as [Hp | Hneg].
  - rewrite (Z.div_small m) in Hs by lia.
    rewrite Z.lxor_0_r in Hs.
    assert (1 <= m * 2 ^ 13 / 2 ^ 24)
      by (apply Z.div_le_lower_bound; lia).
    pose proof (Z.div_mod v (2 ^ 24) ltac:(lia)).
    pose proof (Z.mod_pos_bound v (2 ^ 24) ltac:(lia)). lia.
  - replace (m / 2 ^ 24) with (-1) in Hs
      by (apply Z.div_unique with (r := m + 2 ^ 24); lia).
    rewrite Z.lxor_m1_r in Hs. unfold Z.lnot in Hs.
    assert (m * 2 ^ 13 / 2 ^ 24 <= -2).
    { enough (m * 2 ^ 13 / 2 ^ 24 < -1) by lia.
      apply Z.div_lt_upper_bound; lia. }
    pose proof (Z.div_mod v (2 ^ 24) ltac:(lia)).
    pose proof (Z.mod_pos_bound v (2 ^ 24) ltac:(lia)). lia.
Qed.

Lemma hash_is_zero_small :
  holds_between (Z.to_nat (2049 - 1039)) 1039 hash_is_zero = true.
Proof. vm_compute. reflexivity. Qed.

Lemma hash_is_zero_spec (m : Z) :
  hash_is_zero m = true ->
  hash_polynomial (JS.xor (JS.shl m 13) m) mod 2 ^ 31 = 0.
Proof.
  intros H.
  destruct (Z.eq_dec (hash_polynomial (JS.xor (JS.shl m 13) m) mod 2 ^ 31) 0)
    as [E | E]; [exact E | exfalso].
  apply Z.eqb_neq in E.
  assert (F : hash_is_zero m = false) by (unfold hash_is_zero; exact E).
  congruence.
Qed.

Lemma hash_zero_band (m : Z) :
  1039 <= Z.abs m < 2 ^ 18 ->
  hash_polynomial (JS.xor (JS.shl m 13) m) mod 2 ^ 31 = 0.
Proof.
  intros Hm. destruct (Z.lt_ge_cases (Z.abs m) 2049) as [Hs | Hl].
  - apply hash_is_zero_spec.
    apply (holds_between_spec _ _ _ hash_is_zero_small).
    rewrite Z2Nat.id by lia. lia.
  - apply hash_polynomial_flat, scramble_large. lia.
Qed.

Lemma pseudoRandom_bits_flat (ix iz : Z) :
  Z.abs ix <= 2 ^ 52 -> Z.abs iz <= 2 ^ 46 ->
  1039 <= Z.abs (ix + iz * 57) < 2 ^ 18 ->
  Terrain.pseudoRandom_bits ix iz = 0.
Proof.
  intros Hx Hz Hm.
  rewrite pseudoRandom_bits_eq, hash_index_exact by lia.
  apply hash_zero_band. exact Hm.
Qed.

Lemma lattice_value_flat (ix iz : Z) :
  Z.abs ix <= 2 ^ 52 -> Z.abs iz <= 2 ^ 46 ->
  1039 <= Z.abs (ix + iz * 57) < 2 ^ 18 ->
  Terrain.pseudoRandom ix iz = 1%R.
Proof.
  intros Hx Hz Hm. unfold Terrain.pseudoRandom.
  rewrite pseudoRandom_bits_flat by assumption. lra.
Qed.

(** X4: the lattice hash loses all variation on a wide band: at every
    lattice point whose index ix + 57 * iz has a magnitude from 1039 up to
    2^18 - 1, [pseudoRandom] returns exactly 1. *)
Theorem pseudoRandom_flat_band (ix iz : Z) :
  Z.abs ix <= 2 ^ 52 -> Z.abs iz <= 2 ^ 46 ->
  1039 <= Z.abs (ix + iz * 57) < 2 ^ 18 ->
  Terrain.pseudoRandom ix iz = 1%R.
Proof.
  intros Hx Hz Hm. unfold Terrain.pseudoRandom.
  rewrite pseudoRandom_bits_flat by assumption. lra.
Qed.

Lemma pseudoRandom_flat_band_witness :
  Terrain.pseudoRandom 38 19 = 1%R.
Proof.
  apply (pseudoRandom_flat_band 38 19); lia.
Defined.

Example flat_band_binary64 :
  map (fun p => Terrain.pseudoRandom_binary64 (fst p) (snd p))
      [(38, 19); (1039, 0); (-1039, 0); (0, 4598); (262143, 0);
       (-262143, 0); (-39, -39)]
  = [1; 1; 1; 1; 1; 1; 1]%float.
Proof. vm_compute. reflexivity. Qed.

(** The noise is constant where the four corners of the cell lie in the
    band: [xl, xh] and [zl, zh] enclose the cell's lattice coordinates. *)
Lemma interpolatedNoise_flat (x z f : R) (xl xh zl zh : Z) :
  (IZR xl <= x * f < IZR xh)%R -> (IZR zl <= z * f < IZR zh)%R ->
  Z.abs xl <= 2 ^ 51 -> Z.abs xh <= 2 ^ 51 ->
  Z.abs zl <= 2 ^ 45 -> Z.abs zh <= 2 ^ 45 ->
  (1039 <= xl + zl * 57 /\ xh + zh * 57 < 2 ^ 18)
  \/ (- 2 ^ 18 < xl + zl * 57 /\ xh + zh * 57 <= - 1039) ->
  Terrain.interpolatedNoise x z f = 1%R.
Proof.
  intros Hx Hz Bxl Bxh Bzl Bzh Band.
  unfold Terrain.interpolatedNoise. cbv zeta.
  pose proof (Zfloor_bound (x * f)) as Fx.
  pose proof (Zfloor_bound (z * f)) as Fz.
  set (ix := Zfloor (x * f)) in *. set (iz := Zfloor (z * f)) in *.
  assert (Ix : xl <= ix < xh).
  { split; [apply Z.lt_succ_r | ]; apply lt_IZR;
      [rewrite succ_IZR |]; lra. }
  assert (Iz : zl <= iz < zh).
  { split; [apply Z.lt_succ_r | ]; apply lt_IZR;
      [rewrite succ_IZR |]; lra. }
  rewrite !lattice_value_flat by lia.
  unfold Terrain.lerp. ring.
Qed.

(** X5: far from the origin the terrain is a plateau: for |x| <= 1000 and
    500 <= |z| <= 5000 the elevation is exactly TERRAIN_MAX_HEIGHT, because
    every lattice point used there falls in the band where the hash is
    constant. *)
Theorem getTerrainHeight_plateau (x z : R) :
  (Rabs x <= 1000)%R -> (500 <= Rabs z <= 5000)%R ->
  Terrain.getTerrainHeight x z = Terrain.TERRAIN_MAX_HEIGHT.
Proof.
  intros Hx Hz. unfold Terrain.getTerrainHeight. cbv zeta.
  destruct (octave_loop_invariant x z Terrain.TERRAIN_OCTAVES)
    as (Ht & Hn & _ & _).
  rewrite Ht, Hn. clear Ht Hn.
  unfold Terrain.TERRAIN_OCTAVES, Terrain.TERRAIN_BASE_FREQUENCY,
    Terrain.TERRAIN_LACUNARITY, Terrain.TERRAIN_PERSISTENCE,
    Terrain.TERRAIN_MAX_HEIGHT.
  cbn [Terrain.sum_below].
  pose proof (Rabs_le_between _ _ Hx) as Ax.
  assert (F : forall f : R, (0.04 <= f <= 0.78)%R ->
            Terrain.interpolatedNoise x z f = 1%R).
  { intros f Hf.
    pose proof (Zfloor_bound (x * f)) as Fx.
    pose proof (Zfloor_bound (z * f)) as Fz.
    assert (Bx : (-780 <= x * f <= 780)%R) by (split; nra).
    assert (Ix : -781 <= Zfloor (x * f) <= 780)
      by (split; apply Z.lt_succ_r; apply lt_IZR; rewrite ?succ_IZR; lra).
    destruct (Rle_dec 0 z) as [Zp | Zn].
    - rewrite Rabs_right in Hz by lra.
      assert (Bz : (20 <= z * f <= 3900)%R) by (split; nra).
      assert (Iz : 19 <= Zfloor (z * f) <= 3900)
        by (split; apply Z.lt_succ_r; apply lt_IZR; rewrite ?succ_IZR; lra).
      assert (J : 1038 < Zfloor (x * f) + Zfloor (z * f) * 57)
        by (apply lt_IZR; rewrite plus_IZR, mult_IZR; nra).
      apply (interpolatedNoise_flat x z f
               (Zfloor (x * f)) (Zfloor (x * f) + 1)
               (Zfloor (z * f)) (Zfloor (z * f) + 1));
        rewrite ?plus_IZR; try lra; try lia.
    - rewrite Rabs_left in Hz by lra.
      assert (Bz : (-3900 <= z * f <= -20)%R) by (split; nra).
      assert (Iz : -3901 <= Zfloor (z * f) <= -20)
        by (split; apply Z.lt_succ_r; apply lt_IZR; rewrite ?succ_IZR; lra).
      assert (J : Zfloor (x * f) + 1 + (Zfloor (z * f) + 1) * 57 < -1038)
        by (apply lt_IZR; rewrite !plus_IZR, mult_IZR, plus_IZR; nra).
      apply (interpolatedNoise_flat x z f
               (Zfloor (x * f)) (Zfloor (x * f) + 1)
               (Zfloor (z * f)) (Zfloor (z * f) + 1));
        rewrite ?plus_IZR; try lra; try lia. }
  rewrite !F by (simpl pow; lra).
  simpl pow. field. lra.
Qed.

Lemma getTerrainHeight_plateau_witness :
  Terrain.getTerrainHeight 12 (-640) = Terrain.TERRAIN_MAX_HEIGHT.
Proof.
  apply (getTerrainHeight_plateau 12 (-640)).
  - rewrite Rabs_right; lra.
  - rewrite Rabs_left; lra.
Defined.

(** X6: on the ground itself the finest octave is lost on the outer
    half: for |x| <= 50 and 24.5 <= |z| <= 50 the fifth pass of the loop of
    [getTerrainHeight] samples a constant, so it adds exactly its amplitude
    to the running total. *)
Theorem finest_octave_flat (x z : R) :
  (Rabs x <= 50)%R -> (24.5 <= Rabs z <= 50)%R ->
  Terrain.totalHeight (octaves 5 x z)
  = (Terrain.totalHeight (octaves 4 x z)
     + Terrain.currentAmplitude (octaves 4 x z))%R.
Proof.
  intros Hx Hz.
  change (octaves 5 x z) with (Terrain.octave x z (octaves 4 x z)).
  cbn [Terrain.octave Terrain.totalHeight].
  destruct (octave_loop_invariant x z 4) as (_ & _ & Hf & _).
  fold (octaves 4 x z) in Hf. rewrite Hf.
  unfold Terrain.TERRAIN_BASE_FREQUENCY, Terrain.TERRAIN_LACUNARITY.
  simpl pow.
  pose proof (Rabs_le_between _ _ Hx) as Ax.
  enough (E : Terrain.interpolatedNoise x z
                (0.04 * (2.1 * (2.1 * (2.1 * (2.1 * 1))))) = 1%R)
    by (rewrite E; ring).
  destruct (Rle_dec 0 z) as [Zp | Zn].
  - rewrite Rabs_right in Hz by lra.
    apply (interpolatedNoise_flat _ _ _ (-39) 39 19 39); try lia;
      try (split; lra).
  - rewrite Rabs_left in Hz by lra.
    apply (interpolatedNoise_flat _ _ _ (-39) 39 (-39) (-19)); try lia;
      try (split; lra).
Qed.

Lemma finest_octave_flat_witness :
  Terrain.totalHeight (octaves 5 10 30)
  = (Terrain.totalHeight (octaves 4 10 30)
     + Terrain.currentAmplitude (octaves 4 10 30))%R.
Proof.
  apply (finest_octave_flat 10 30); rewrite Rabs_right; lra.
Defined.

(** ** Placement: where the instances stand *)

Lemma randFloat_closed_range (g : Random.SeededRandom) (a b : R) :
  (a <= b)%R -> (a <= fst (Random.randFloat g a b) <= b)%R.
Proof.
  intros Hab. unfold Random.randFloat.
  pose proof (random_unit_interval g) as Hr.
  destruct (Random.random g) as [r g']. cbn [fst] in *.
  split; nra.
Qed.






(** X8: the trees are split between the two kinds as the code computes
    it: of TREE_COUNT >= 0 trees, floor(TREE_COUNT / 2) are deciduous and
    the others coniferous, so an odd count gives one more conifer. *)
Theorem trees_split (fuel : nat) (p : TreeGenerator.Params)
    (t : TreeGenerator.Trees) :
  0 <= TreeGenerator.TREE_COUNT p ->
  TreeGenerator.createInstancedTrees fuel p = Some t ->
  let deciduous := Z.of_nat (length (TreeGenerator.deciduousTrunkInstances t)) in
  let coniferous := Z.of_nat (length (TreeGenerator.coniferousTrunkInstances t)) in
  deciduous = TreeGenerator.TREE_COUNT p / 2
  /\ coniferous = TreeGenerator.TREE_COUNT p - TreeGenerator.TREE_COUNT p / 2
  /\ deciduous <= coniferous <= deciduous + 1
  /\ Z.of_nat (length (TreeGenerator.instances t))
     = 2 * TreeGenerator.TREE_COUNT p.
Proof.
  intros HN H. unfold TreeGenerator.createInstancedTrees in H.
  destruct (TreeGenerator.createDeciduousTreeGeometry _) as [dt g1].
  destruct (TreeGenerator.createConiferousTreeGeometry g1) as [ct g2].
  cbv zeta in H.
  destruct (TreeGenerator.place fuel p 0.8 1.2 _ g2)
    as [[dec g3] |] eqn:D; [| discriminate].
  destruct (TreeGenerator.place fuel p 0.7 1.1 _ g3)
    as [[con g4] |] eqn:C; [| discriminate].
  injection H as <-. unfold TreeGenerator.instances.
  cbn [TreeGenerator.deciduousTrunkInstances
       TreeGenerator.deciduousFoliageInstances
       TreeGenerator.coniferousTrunkInstances
       TreeGenerator.coniferousFoliageInstances].
  rewrite !length_app.
  apply tree_place_length in D, C. rewrite D, C.
  pose proof (Z.div_pos (TreeGenerator.TREE_COUNT p) 2 HN ltac:(lia)).
  pose proof (Z.div_mod (TreeGenerator.TREE_COUNT p) 2 ltac:(lia)).
  pose proof (Z.mod_pos_bound (TreeGenerator.TREE_COUNT p) 2 ltac:(lia)).
  cbv zeta. lia.
Qed.

Lemma trees_split_witness :
  let deciduous :=
    Z.of_nat (length (TreeGenerator.deciduousTrunkInstances two_trees)) in
  let coniferous :=
    Z.of_nat (length (TreeGenerator.coniferousTrunkInstances two_trees)) in
  deciduous = 2 / 2
  /\ coniferous = 2 - 2 / 2
  /\ deciduous <= coniferous <= deciduous + 1
  /\ Z.of_nat (length (TreeGenerator.instances two_trees)) = 2 * 2.
Proof.
  apply (trees_split 1 tree_params two_trees).
  - unfold tree_params. cbn [TreeGenerator.TREE_COUNT]. lia.
  - exact two_trees_run.
Defined.





(** ** Placement: every mushroom gets its cap *)

Lemma set_nth_length {A : Type} (l : list A) :
  forall n x, length (MushroomGenerator.set_nth l n x) = length l.
Proof.
  induction l as [| y l IH]; intros [| n] x; cbn; try reflexivity.
  f_equal. apply IH.
Qed.

Lemma swap_length {A : Type} (l : list A) (i j : nat) :
  length (MushroomGenerator.swap l i j) = length l.
Proof.
  unfold MushroomGenerator.swap.
  destruct (nth_error l i); [| reflexivity].
  destruct (nth_error l j); [| reflexivity].
  rewrite !set_nth_length. reflexivity.
Qed.

Lemma shuffle_length (i : nat) :
  forall g types,
    length (fst (MushroomGenerator.shuffle i g types)) = length types.
Proof.
  induction i as [| i IH]; intros g types; cbn [MushroomGenerator.shuffle].
  - reflexivity.
  - destruct (Random.random g) as [r g']. rewrite IH. apply swap_length.
Qed.

(** The shuffle rearranges the tags. *)
Lemma shuffle_permutation (i : nat) (g : Random.SeededRandom)
    (types : list Z) :
  Permutation types (fst (MushroomGenerator.shuffle i g types)).
Proof.
  apply (Permutation_count_occ Z.eq_dec). intros x.
  symmetry. apply shuffle_count.
Qed.

Lemma cap_appended (a b c s : list Transform) (m : Transform) :
  Permutation (a ++ b ++ c) s ->
  Permutation ((a ++ [m]) ++ b ++ c) (s ++ [m])
  /\ Permutation (a ++ (b ++ [m]) ++ c) (s ++ [m])
  /\ Permutation (a ++ b ++ c ++ [m]) (s ++ [m]).
Proof.
  intros H.
  assert (T : Permutation (m :: a ++ b ++ c) (s ++ [m])).
  { rewrite <- Permutation_cons_append. constructor. exact H. }
  repeat split; (etransitivity; [| exact T]).
  - rewrite <- app_assoc. cbn. symmetry. apply Permutation_middle.
  - rewrite <- !app_assoc. cbn. symmetry.
    rewrite (app_assoc a b). rewrite (app_assoc a b (m :: c)).
    apply Permutation_middle.
  - rewrite !app_assoc. rewrite <- Permutation_cons_append.
    rewrite <- !app_assoc. reflexivity.
Qed.

(** The loop of [createInstancedMushrooms] with [done] tags consumed: each
    cap mesh holds as many transforms as [done] has tags of its variety,
    and the caps are the stems in another order. *)
Lemma mushroom_place_caps (fuel : nat) (p : MushroomGenerator.Params)
    (c0 c1 c2 : Z) (types : list Z) (todo : nat) :
  (forall x, In x types -> x = 1 \/ x = 2 \/ x = 3) ->
  Z.of_nat (count_occ Z.eq_dec types 1) = c0 ->
  Z.of_nat (count_occ Z.eq_dec types 2) = c1 ->
  Z.of_nat (count_occ Z.eq_dec types 3) = c2 ->
  let mesh := fun (c : Z) (l : list Transform) =>
                if 0 <? c then Some l else None in
  forall done rest g acc res l0 l1 l2,
    types = done ++ rest -> length rest = todo ->
    MushroomGenerator.capInstances acc = [mesh c0 l0; mesh c1 l1; mesh c2 l2] ->
    length l0 = count_occ Z.eq_dec done 1 ->
    length l1 = count_occ Z.eq_dec done 2 ->
    length l2 = count_occ Z.eq_dec done 3 ->
    Permutation (l0 ++ l1 ++ l2) (MushroomGenerator.stemInstances acc) ->
    MushroomGenerator.place fuel p [c0; c1; c2] types todo (length done) g acc
    = Some res ->
    exists l0' l1' l2',
      MushroomGenerator.capInstances res
      = [mesh c0 l0'; mesh c1 l1'; mesh c2 l2']
      /\ Z.of_nat (length l0') = c0
      /\ Z.of_nat (length l1') = c1
      /\ Z.of_nat (length l2') = c2
      /\ Permutation (l0' ++ l1' ++ l2') (MushroomGenerator.stemInstances res).
Proof.
  intros Htags C0 C1 C2 mesh.
  induction todo as [| todo IH];
    intros done rest g acc res l0 l1 l2 Hsplit Hrest Hcaps L0 L1 L2 Hperm H;
    cbn [MushroomGenerator.place] in H.
  - injection H as <-. destruct rest; [| discriminate].
    rewrite app_nil_r in Hsplit. subst done.
    exists l0, l1, l2. repeat split; try assumption; lia.
  - destruct rest as [| t rest']; [discriminate |].
    injection Hrest as Hrest.
    destruct (MushroomGenerator.sample_position fuel _ _ g)
      as [[[px pz] g1] |]; [| discriminate].
    destruct (Random.randFloat g1 0.5 1.5) as [sv g2].
    destruct (Random.random g2) as [r g3].
    set (m := {| position := (px, MushroomGenerator.getTerrainHeight p px pz, pz);
                 rotation_y := (r * PI * 2)%R; scale := sv |}) in *.
    assert (Ht : nth_error types (length done) = Some t).
    { rewrite Hsplit, nth_error_app2 by lia.
      rewrite Nat.sub_diag. reflexivity. }
    rewrite Ht in H.
    assert (Hin : In t types)
      by (rewrite Hsplit; apply in_or_app; right; left; reflexivity).
    assert (Hocc : forall x,
               count_occ Z.eq_dec types x
               = (count_occ Z.eq_dec done x
                  + (if Z.eqb t x then 1 else 0)
                  + count_occ Z.eq_dec rest' x)%nat).
    { intros x. rewrite Hsplit, count_occ_app. cbn [count_occ].
      destruct (Z.eq_dec t x), (Z.eqb_spec t x); lia. }
    assert (Hdone : forall x,
               count_occ Z.eq_dec (done ++ [t]) x
               = (count_occ Z.eq_dec done x
                  + (if Z.eqb t x then 1 else 0))%nat).
    { intros x. rewrite count_occ_app. cbn [count_occ].
      destruct (Z.eq_dec t x), (Z.eqb_spec t x); lia. }
    assert (Hsplit' : types = (done ++ [t]) ++ rest')
      by (rewrite <- app_assoc; exact Hsplit).
    assert (Hlen : S (length done) = length (done ++ [t]))
      by (rewrite length_app; cbn; lia).
    rewrite Hlen in H.
    destruct (cap_appended l0 l1 l2 _ m Hperm) as (P0 & P1 & P2).
    pose proof (Hocc 1) as O1. pose proof (Hocc 2) as O2.
    pose proof (Hocc 3) as O3.
    pose proof (Hdone 1) as D1. pose proof (Hdone 2) as D2.
    pose proof (Hdone 3) as D3.
    destruct (Htags t Hin) as [-> | [-> | ->]];
      cbn [Z.eqb Pos.eqb] in O1, O2, O3, D1, D2, D3;
      cbn [MushroomGenerator.set_cap MushroomGenerator.capInstances
           MushroomGenerator.stemInstances] in H;
      rewrite Hcaps in H.
    + (* variety 1 *)
      change (1 - 1 <? 0) with false in H.
      change (Z.to_nat (1 - 1)) with 0%nat in H.
      cbn [nth_error] in H.
      assert (Hc : (0 <? c0) = true) by (apply Z.ltb_lt; lia).
      assert (Hmesh : forall l, mesh c0 l = Some l)
        by (intros l; unfold mesh; rewrite Hc; reflexivity).
      rewrite !Hmesh in H.
      assert (Hg : (Z.of_nat (length l0) <? c0) = true)
        by (apply Z.ltb_lt; lia).
      rewrite Hg in H. cbn [MushroomGenerator.set_nth] in H.
      eapply (IH (done ++ [1]) rest' g3 _ res (l0 ++ [m]) l1 l2);
        try eassumption;
        cbn [MushroomGenerator.capInstances MushroomGenerator.stemInstances];
        try assumption;
        try (rewrite !Hmesh; reflexivity);
        rewrite ?length_app; cbn [length]; lia.
    + (* variety 2 *)
      change (2 - 1 <? 0) with false in H.
      change (Z.to_nat (2 - 1)) with 1%nat in H.
      cbn [nth_error] in H.
      assert (Hc : (0 <? c1) = true) by (apply Z.ltb_lt; lia).
      assert (Hmesh : forall l, mesh c1 l = Some l)
        by (intros l; unfold mesh; rewrite Hc; reflexivity).
      rewrite !Hmesh in H.
      assert (Hg : (Z.of_nat (length l1) <? c1) = true)
        by (apply Z.ltb_lt; lia).
      rewrite Hg in H. cbn [MushroomGenerator.set_nth] in H.
      eapply (IH (done ++ [2]) rest' g3 _ res l0 (l1 ++ [m]) l2);
        try eassumption;
        cbn [MushroomGenerator.capInstances MushroomGenerator.stemInstances];
        try assumption;
        try (rewrite !Hmesh; reflexivity);
        rewrite ?length_app; cbn [length]; lia.
    + (* variety 3 *)
      change (3 - 1 <? 0) with false in H.
      change (Z.to_nat (3 - 1)) with 2%nat in H.
      cbn [nth_error] in H.
      assert (Hc : (0 <? c2) = true) by (apply Z.ltb_lt; lia).
      assert (Hmesh : forall l, mesh c2 l = Some l)
        by (intros l; unfold mesh; rewrite Hc; reflexivity).
      rewrite !Hmesh in H.
      assert (Hg : (Z.of_nat (length l2) <? c2) = true)
        by (apply Z.ltb_lt; lia).
      rewrite Hg in H. cbn [MushroomGenerator.set_nth] in H.
      eapply (IH (done ++ [3]) rest' g3 _ res l0 l1 (l2 ++ [m]));
        try eassumption;
        cbn [MushroomGenerator.capInstances MushroomGenerator.stemInstances];
        try assumption;
        try (rewrite !Hmesh; reflexivity);
        rewrite ?length_app; cbn [length]; lia.
Qed.
Lemma variety_tags_shape (c0 c1 c2 : Z) :
  MushroomGenerator.variety_tags [c0; c1; c2]
  = repeat 1 (Z.to_nat c0) ++ repeat 2 (Z.to_nat c1)
    ++ repeat 3 (Z.to_nat c2) ++ [].
Proof. reflexivity. Qed.

Lemma mesh_filled (c : Z) (l : list Transform) :
  0 <= c -> Z.of_nat (length l) = c ->
  cap_filled c (if 0 <? c then Some l else None)
  /\ cap_list (if 0 <? c then Some l else None) = l.
Proof.
  intros Hc Hl. destruct (Z.ltb_spec 0 c) as [Hpos | Hzero]; cbn.
  - repeat split; assumption.
  - split; [lia |]. destruct l; [reflexivity | cbn in Hl; lia].
Qed.

(** X10: every mushroom gets a cap of its variety and no cap slot stays
    empty: a pass that terminates for MUSHROOM_COUNT >= 0 places
    MUSHROOM_COUNT stems, fills the cap mesh of every variety with exactly
    the number of instances it was allocated for (a variety with none has
    no mesh), and the cap transforms are the stem transforms in another
    order. *)
Theorem mushrooms_capped (fuel : nat) (p : MushroomGenerator.Params)
    (m : MushroomGenerator.Mushrooms) :
  0 <= MushroomGenerator.MUSHROOM_COUNT p ->
  MushroomGenerator.createInstancedMushrooms fuel p = Some m ->
  length (MushroomGenerator.stemInstances m)
  = Z.to_nat (MushroomGenerator.MUSHROOM_COUNT p)
  /\ Forall2 cap_filled
       (MushroomGenerator.variety_counts (MushroomGenerator.MUSHROOM_COUNT p))
       (MushroomGenerator.capInstances m)
  /\ Permutation (concat (map cap_list (MushroomGenerator.capInstances m)))
                 (MushroomGenerator.stemInstances m).
Proof.
  intros HN H. split; [exact (mushrooms_count fuel p m H) |].
  unfold MushroomGenerator.createInstancedMushrooms in H. cbv zeta in H.
  set (N := MushroomGenerator.MUSHROOM_COUNT p) in *.
  rewrite variety_counts_unfold in * by assumption.
  pose proof (Z.div_mod N 3 ltac:(lia)) as Hdm.
  pose proof (Z.mod_pos_bound N 3 ltac:(lia)) as Hmod.
  assert (Hq : 0 <= N / 3) by (apply Z.div_pos; lia).
  set (c0 := N / 3 + (if 0 <? N mod 3 then 1 else 0)) in *.
  set (c1 := N / 3 + (if 1 <? N mod 3 then 1 else 0)) in *.
  set (c2 := N / 3 + (if 2 <? N mod 3 then 1 else 0)) in *.
  assert (B0 : 0 <= c0) by (unfold c0; destruct (0 <? N mod 3); lia).
  assert (B1 : 0 <= c1) by (unfold c1; destruct (1 <? N mod 3); lia).
  assert (B2 : 0 <= c2) by (unfold c2; destruct (2 <? N mod 3); lia).
  assert (Hsum : c0 + c1 + c2 = N).
  { unfold c0, c1, c2.
    destruct (Z.ltb_spec 0 (N mod 3)), (Z.ltb_spec 1 (N mod 3)),
      (Z.ltb_spec 2 (N mod 3)); lia. }
  rewrite variety_tags_shape in H.
  set (tags := repeat 1 (Z.to_nat c0) ++ repeat 2 (Z.to_nat c1)
               ++ repeat 3 (Z.to_nat c2) ++ []) in *.
  pose proof (shuffle_count (length tags - 1) (MushroomGenerator.prng p) tags)
    as Hcount.
  pose proof (shuffle_length (length tags - 1) (MushroomGenerator.prng p) tags)
    as Hlen.
  destruct (MushroomGenerator.shuffle _ _ tags) as [types g1].
  cbn [fst] in Hcount, Hlen.
  assert (T : forall x, count_occ Z.eq_dec tags x
                        = ((if Z.eqb x 1 then Z.to_nat c0 else 0)
                           + (if Z.eqb x 2 then Z.to_nat c1 else 0)
                           + (if Z.eqb x 3 then Z.to_nat c2 else 0))%nat).
  { intros x. unfold tags. rewrite !count_occ_app. cbn [count_occ].
    assert (Rp : forall a n,
               count_occ Z.eq_dec (repeat a n) x
               = if Z.eqb x a then n else 0%nat).
    { intros a n. destruct (Z.eqb_spec x a) as [-> | Ne].
      - apply count_occ_repeat_eq. reflexivity.
      - apply count_occ_repeat_neq. congruence. }
    rewrite !Rp. lia. }
  assert (Htags : forall x, In x types -> x = 1 \/ x = 2 \/ x = 3).
  { intros x Hin. apply (count_occ_In Z.eq_dec) in Hin.
    rewrite Hcount, T in Hin.
    destruct (Z.eqb_spec x 1); [tauto |].
    destruct (Z.eqb_spec x 2); [tauto |].
    destruct (Z.eqb_spec x 3); [tauto | lia]. }
  assert (Tlen : length types = Z.to_nat N).
  { rewrite Hlen. unfold tags. rewrite !length_app, !repeat_length.
    cbn [length]. lia. }
  set (acc0 := {| MushroomGenerator.stemInstances := [];
                  MushroomGenerator.capInstances :=
                    map (fun count => if 0 <? count then Some [] else None)
                        [c0; c1; c2] |}) in H.
  destruct (mushroom_place_caps fuel p c0 c1 c2 types (Z.to_nat N) Htags
              ltac:(rewrite Hcount, T; cbn; lia)
              ltac:(rewrite Hcount, T; cbn; lia)
              ltac:(rewrite Hcount, T; cbn; lia)
              [] types g1 acc0 m [] [] []
              eq_refl Tlen eq_refl eq_refl eq_refl eq_refl
              (Permutation_refl _) H)
    as (l0 & l1 & l2 & Hcaps & L0 & L1 & L2 & Hperm).
  rewrite Hcaps.
  destruct (mesh_filled c0 l0 B0 L0) as [F0 E0].
  destruct (mesh_filled c1 l1 B1 L1) as [F1 E1].
  destruct (mesh_filled c2 l2 B2 L2) as [F2 E2].
  split.
  - repeat constructor; assumption.
  - cbn [map concat]. rewrite E0, E1, E2, app_nil_r. exact Hperm.
Qed.

Lemma mushrooms_capped_witness :
  length (MushroomGenerator.stemInstances two_mushrooms) = Z.to_nat 2
  /\ Forall2 cap_filled (MushroomGenerator.variety_counts 2)
       (MushroomGenerator.capInstances two_mushrooms)
  /\ Permutation
       (concat (map cap_list (MushroomGenerator.capInstances two_mushrooms)))
       (MushroomGenerator.stemInstances two_mushrooms).
Proof.
  apply (mushrooms_capped 1 mushroom_params two_mushrooms).
  - unfold mushroom_params. cbn [MushroomGenerator.MUSHROOM_COUNT]. lia.
  - exact two_mushrooms_run.
Defined.

(** ** The day/night cycle: the arc, the label and the clock *)

Lemma smoothstep_range (x lo hi : R) :
  (lo < hi -> 0 <= DayNight.smoothstep x lo hi <= 1)%R.
Proof.
  intros Hlh. unfold DayNight.smoothstep.
  destruct (Rle_dec x lo); [lra |].
  destruct (Rge_dec x hi); [lra |].
  apply smooth_weight_range.
  assert (0 < hi - lo)%R by lra.
  split.
  - apply Rmult_le_pos; [lra |]. left. apply Rinv_0_lt_compat. assumption.
  - apply Rmult_le_reg_r with (hi - lo)%R; [assumption |].
    unfold Rdiv. rewrite Rmult_assoc, Rinv_l by lra. lra.
Qed.

Lemma arc_angles (p : R) :
  (sin ((1.0 - p) * PI) = sin (p * PI)
   /\ cos ((1.0 - p) * PI) = - cos (p * PI)
   /\ cos ((1.0 - p) * PI - PI / 2) = sin (p * PI))%R.
Proof.
  replace ((1.0 - p) * PI)%R with (PI - p * PI)%R by lra.
  repeat split.
  - rewrite sin_minus, sin_PI, cos_PI. ring.
  - rewrite cos_minus, sin_PI, cos_PI. ring.
  - rewrite cos_minus, cos_PI2, sin_PI2.
    rewrite sin_minus, sin_PI, cos_PI. ring.
Qed.

(** X11: during a phase the light and the body of the phase follow one
    arc: at progress p in [0, 1] they stand at
    (R sin(pi p), R sin(pi p), -R cos(pi p)) with R = LIGHT_ORBIT_RADIUS, so
    the world x coordinate always equals the height, the height stays in
    [0, R], the opacity in [0, 1] and the scale in [0.5, 1.3]; the body is
    shown whenever it belongs to the running phase (the horizon test never
    hides it), and the other body is hidden. *)
Theorem celestial_arc (daytime isDay : bool) (p : R) (sc : DayNight.Scene) :
  (0 <= p <= 1)%R ->
  let sc' := DayNight.updateCelestialBodyPosition daytime p isDay sc in
  let body :=
    if isDay then DayNight.sunMesh sc' else DayNight.moonMesh sc' in
  let other :=
    if isDay then DayNight.moonMesh sc' else DayNight.sunMesh sc' in
  let h := (DayNight.LIGHT_ORBIT_RADIUS * sin (p * PI))%R in
  DayNight.lightPosition sc'
  = (h, h, (- (DayNight.LIGHT_ORBIT_RADIUS * cos (p * PI)))%R)
  /\ DayNight.mesh_position body = DayNight.lightPosition sc'
  /\ (0 <= h <= DayNight.LIGHT_ORBIT_RADIUS)%R
  /\ (0 <= DayNight.opacity body <= 1)%R
  /\ (0.5 <= DayNight.mesh_scale body <= 1.3)%R
  /\ DayNight.visible body = Bool.eqb isDay daytime
  /\ DayNight.visible other = false.
Proof.
  intros Hp sc' body other h. subst sc' body other h.
  destruct (arc_angles p) as (Es & Ec & Ez).
  assert (Hsin : (0 <= sin (p * PI) <= 1)%R).
  { pose proof PI_RGT_0. split.
    - apply sin_ge_0; nra.
    - apply SIN_bound. }
  unfold DayNight.updateCelestialBodyPosition. cbv zeta.
  rewrite Es, Ec, Ez. unfold DayNight.LIGHT_ORBIT_RADIUS.
  replace (25 * sin (p * PI) / 25)%R with (sin (p * PI)) by field.
  rewrite (Rmax_right 0 (sin (p * PI))) by lra.
  set (s := sin (p * PI)) in *.
  assert (Vis : (if Rgt_dec (25 * s) (-0.1) then true else false) = true).
  { destruct (Rgt_dec (25 * s) (-0.1)) as [_ | N]; [reflexivity |].
    exfalso. apply N. lra. }
  pose proof (smoothstep_range s 0.05 0.15 ltac:(lra)) as Hop.
  assert (Hsc : forall k : R, (1 <= k <= 1.2)%R ->
            (0.5 <= Rmax 0.5 (s * k + 0.1) <= 1.3)%R).
  { intros k Hk. split; [apply Rmax_l |].
    apply Rmax_lub; [lra | nra]. }
  destruct isDay;
    cbn [DayNight.lightPosition DayNight.sunMesh DayNight.moonMesh
         DayNight.mesh_position DayNight.opacity DayNight.mesh_scale
         DayNight.visible DayNight.hide];
    rewrite Vis, andb_true_r;
    (repeat split; try reflexivity; try lra; try apply Hop;
     try (apply Hsc; lra); f_equal; ring).
Qed.

Lemma celestial_arc_witness :
  let sc' := DayNight.updateCelestialBodyPosition true (1 / 4) true
               (DayNight.scene late_afternoon) in
  let h := (DayNight.LIGHT_ORBIT_RADIUS * sin (1 / 4 * PI))%R in
  DayNight.lightPosition sc'
  = (h, h, (- (DayNight.LIGHT_ORBIT_RADIUS * cos (1 / 4 * PI)))%R)
  /\ DayNight.mesh_position (DayNight.sunMesh sc') = DayNight.lightPosition sc'
  /\ (0 <= h <= DayNight.LIGHT_ORBIT_RADIUS)%R
  /\ (0 <= DayNight.opacity (DayNight.sunMesh sc') <= 1)%R
  /\ (0.5 <= DayNight.mesh_scale (DayNight.sunMesh sc') <= 1.3)%R
  /\ DayNight.visible (DayNight.sunMesh sc') = true
  /\ DayNight.visible (DayNight.moonMesh sc') = false.
Proof.
  apply (celestial_arc true true (1 / 4) (DayNight.scene late_afternoon)).
  lra.
Defined.
(** X12: the automatic transition is the manual one with the other
    label: when a frame ends the phase, the flag, both progress values and
    the whole scene are those a click on the button would have produced,
    but the button then reads "Switch to Night" during the night and
    "Switch to Day" during the day, the opposite of what the click handler
    writes. *)
Theorem automatic_transition_label (delta : R) (w : DayNight.World) :
  (1 <= DayNight.activeProgress w + delta / DayNight.activeDuration w)%R ->
  let auto := DayNight.animate delta w in
  let manual := DayNight.toggle w in
  DayNight.isDaytime auto = DayNight.isDaytime manual
  /\ DayNight.dayTimeProgress auto = DayNight.dayTimeProgress manual
  /\ DayNight.nightTimeProgress auto = DayNight.nightTimeProgress manual
  /\ DayNight.scene auto = DayNight.scene manual
  /\ DayNight.toggleText manual
     = (if DayNight.isDaytime manual then "Switch to Night"
        else "Switch to Day")%string
  /\ DayNight.toggleText auto
     = (if DayNight.isDaytime auto then "Switch to Day"
        else "Switch to Night")%string.
Proof.
  intros H auto manual. subst auto manual.
  unfold DayNight.activeProgress, DayNight.activeDuration, DayNight.animate,
    DayNight.toggle in *.
  destruct (DayNight.isDaytime w) eqn:Day.
  - destruct (Rge_dec (DayNight.dayTimeProgress w
                       + delta / DayNight.DAY_CYCLE_DURATION) 1.0)
      as [_ | N]; [| exfalso; apply N; lra].
    cbn. repeat split; reflexivity.
  - destruct (Rge_dec (DayNight.nightTimeProgress w
                       + delta / DayNight.NIGHT_CYCLE_DURATION) 1.0)
      as [_ | N]; [| exfalso; apply N; lra].
    cbn. repeat split; reflexivity.
Qed.

Lemma automatic_transition_label_witness :
  let auto := DayNight.animate 3 late_afternoon in
  let manual := DayNight.toggle late_afternoon in
  DayNight.isDaytime auto = DayNight.isDaytime manual
  /\ DayNight.dayTimeProgress auto = DayNight.dayTimeProgress manual
  /\ DayNight.nightTimeProgress auto = DayNight.nightTimeProgress manual
  /\ DayNight.scene auto = DayNight.scene manual
  /\ DayNight.toggleText manual
     = (if DayNight.isDaytime manual then "Switch to Night"
        else "Switch to Day")%string
  /\ DayNight.toggleText auto
     = (if DayNight.isDaytime auto then "Switch to Day"
        else "Switch to Night")%string.
Proof.
  apply (automatic_transition_label 3 late_afternoon).
  unfold DayNight.activeProgress, DayNight.activeDuration,
    DayNight.DAY_CYCLE_DURATION, late_afternoon.
  cbn [DayNight.isDaytime DayNight.dayTimeProgress]. lra.
Defined.




(** ** The spawner: launch, bookkeeping, landing *)

Lemma template_index_in_range (r : R) (n : nat) :
  (0 <= r < 1)%R -> (0 < n)%nat ->
  0 <= Zfloor (r * INR n) /\ (Z.to_nat (Zfloor (r * INR n)) < n)%nat.
Proof.
  intros Hr Hn.
  assert (Hpos : (0 < INR n)%R) by (apply lt_0_INR; exact Hn).
  pose proof (Zfloor_bound (r * INR n)) as [F0 F1].
  set (k := Zfloor (r * INR n)) in *.
  assert (Hlo : (-1 < k)%Z).
  { apply lt_IZR. assert (0 <= r * INR n)%R by (apply Rmult_le_pos; lra).
    lra. }
  assert (Hhi : (k < Z.of_nat n)%Z).
  { apply lt_IZR. rewrite <- INR_IZR_INZ.
    assert (r * INR n < INR n)%R by nra. lra. }
  lia.
Qed.

Lemma evict_length (s : Spawned.State) :
  (length (Spawned.spawnedMushrooms s) <= Spawned.MAX_SPAWNED_MUSHROOMS)%nat ->
  (length (Spawned.spawnedMushrooms (Spawned.evict s))
   < Spawned.MAX_SPAWNED_MUSHROOMS)%nat
  /\ Spawned.spawnedMushrooms (Spawned.evict s)
     = (if (Spawned.MAX_SPAWNED_MUSHROOMS
            <=? length (Spawned.spawnedMushrooms s))%nat
        then tl (Spawned.spawnedMushrooms s)
        else Spawned.spawnedMushrooms s).
Proof.
  intros Hlen. unfold Spawned.evict.
  destruct (Nat.leb_spec Spawned.MAX_SPAWNED_MUSHROOMS
              (length (Spawned.spawnedMushrooms s))) as [Full | Free].
  - destruct (Spawned.spawnedMushrooms s) as [| m q] eqn:Q.
    + unfold Spawned.MAX_SPAWNED_MUSHROOMS in Full. cbn in Full. lia.
    + cbn [Spawned.spawnedMushrooms tl length] in *. split; [lia | reflexivity].
  - split; [exact Free | reflexivity].
Qed.

Lemma evict_keeps (s : Spawned.State) :
  Spawned.mushroomTemplates (Spawned.evict s) = Spawned.mushroomTemplates s
  /\ Spawned.portalMesh (Spawned.evict s) = Spawned.portalMesh s
  /\ Spawned.created (Spawned.evict s) = Spawned.created s.
Proof.
  unfold Spawned.evict.
  destruct (Spawned.MAX_SPAWNED_MUSHROOMS <=? _)%nat; [| auto].
  destruct (Spawned.spawnedMushrooms s); auto.
Qed.

(** A click with a loaded portal: the shape of the new state. *)
Lemma spawn_shape (d : Spawned.Draws) (s : Spawned.State)
    (templates : list MushroomGenerator.MushroomTemplate)
    (portal : R * R * R) :
  unit_draws d ->
  Spawned.mushroomTemplates s = Some templates -> templates <> [] ->
  Spawned.portalMesh s = Some portal ->
  exists m,
    Spawned.spawnMushroom d s
    = Some {| Spawned.spawnedMushrooms :=
                Spawned.spawnedMushrooms (Spawned.evict s) ++ [m];
              Spawned.sceneGroups :=
                Spawned.sceneGroups (Spawned.evict s) ++ [Spawned.created s];
              Spawned.created := S (Spawned.created s);
              Spawned.mushroomTemplates := Some templates;
              Spawned.portalMesh := Some portal |}
    /\ Spawned.mesh m = Spawned.created s
    /\ In (Spawned.template m) templates
    /\ Spawned.mesh_rotation m = (0, 0, 0)%R
    /\ Spawned.mesh_position m
       = (let '(px, py, pz) := portal in (px, py + 0.5, pz))%R
    /\ Spawned.airborne m = true
    /\ Spawned.velocity m
       = ((Spawned.r_vx d - 0.5) * 4, Spawned.r_vy d * 3 + 7,
          Spawned.r_vz d * -3 - 5)%R
    /\ Spawned.rotationSpeed m
       = ((Spawned.r_rx d - 0.5) * 8, (Spawned.r_ry d - 0.5) * 8,
          (Spawned.r_rz d - 0.5) * 8)%R
    /\ Spawned.capMaterial m
       = match MushroomGenerator.type (Spawned.template m) with
         | 1 => 1 | 2 => 2 | 3 => 3 | _ => 1
         end.
Proof.
  intros Hd Ht Hne Hp.
  destruct (evict_keeps s) as (Kt & Kp & Kc).
  unfold Spawned.spawnMushroom. cbv zeta. rewrite Kt, Kp, Kc, Ht, Hp.
  destruct templates as [| t0 ts]; [contradiction |].
  set (templates := t0 :: ts) in *.
  inversion Hd as [| r0 l0 Hr _]; subst.
  destruct (template_index_in_range (Spawned.r_template d) (length templates)
              Hr ltac:(cbn; lia)) as [I0 I1].
  destruct (Z.ltb_spec (Zfloor (Spawned.r_template d * INR (length templates))) 0)
    as [Neg | _]; [lia |].
  destruct (nth_error templates
              (Z.to_nat (Zfloor (Spawned.r_template d
                                 * INR (length templates)))))
    as [t |] eqn:E; [| apply nth_error_None in E; lia].
  destruct portal as [[px py] pz].
  eexists. split; [reflexivity |].
  cbn [Spawned.mesh Spawned.template Spawned.mesh_rotation
       Spawned.mesh_position Spawned.airborne Spawned.velocity
       Spawned.rotationSpeed Spawned.capMaterial].
  repeat split; try reflexivity.
  eapply nth_error_In; eassumption.
Qed.
Lemma draws_ranges (d : Spawned.Draws) :
  unit_draws d ->
  (0 <= Spawned.r_template d < 1 /\ 0 <= Spawned.r_vx d < 1
   /\ 0 <= Spawned.r_vy d < 1 /\ 0 <= Spawned.r_vz d < 1
   /\ 0 <= Spawned.r_rx d < 1 /\ 0 <= Spawned.r_ry d < 1
   /\ 0 <= Spawned.r_rz d < 1)%R.
Proof.
  unfold unit_draws. intros H.
  repeat match goal with
         | H : Forall _ (_ :: _) |- _ => inversion H; subst; clear H
         end.
  repeat split; tauto.
Qed.

(** X14: once the model is loaded a click on the gate cannot fail and
    launches exactly one mushroom: it joins the end of the queue (the oldest
    entry leaves first when the queue holds 50), it starts in flight half a
    unit above the portal with vx in [-2, 2), vy in [7, 10] and vz in
    [-8, -5], tumbling at 4 rad/s at most about each axis, built from one
    of the three templates with the cap material of its variety. *)
Theorem spawn_launches (d : Spawned.Draws) (s : Spawned.State)
    (portal : R * R * R) :
  unit_draws d ->
  Spawned.mushroomTemplates s = Some MushroomGenerator.createMushroomGeometries ->
  Spawned.portalMesh s = Some portal ->
  (length (Spawned.spawnedMushrooms s) <= Spawned.MAX_SPAWNED_MUSHROOMS)%nat ->
  exists s' m,
    Spawned.spawnMushroom d s = Some s'
    /\ Spawned.spawnedMushrooms s'
       = (if (Spawned.MAX_SPAWNED_MUSHROOMS
              <=? length (Spawned.spawnedMushrooms s))%nat
          then tl (Spawned.spawnedMushrooms s)
          else Spawned.spawnedMushrooms s) ++ [m]
    /\ length (Spawned.spawnedMushrooms s')
       = Nat.min (S (length (Spawned.spawnedMushrooms s)))
                 Spawned.MAX_SPAWNED_MUSHROOMS
    /\ In (Spawned.template m) MushroomGenerator.createMushroomGeometries
    /\ launched portal m.
Proof.
  intros Hd Ht Hp Hlen.
  destruct (spawn_shape d s _ portal Hd Ht ltac:(discriminate) Hp)
    as (m & Hs & _ & Hin & _ & Hpos & Hair & Hv & Hr & Hc).
  destruct (evict_length s Hlen) as [Hlt Hq].
  destruct (draws_ranges d Hd) as (_ & Rx & Ry & Rz & Sx & Sy & Sz).
  eexists. exists m. split; [exact Hs |].
  cbn [Spawned.spawnedMushrooms]. rewrite Hq. repeat split.
  - rewrite length_app. cbn [length].
    unfold Spawned.MAX_SPAWNED_MUSHROOMS in *.
    destruct (Nat.leb_spec 50 (length (Spawned.spawnedMushrooms s))).
    + destruct (Spawned.spawnedMushrooms s); cbn [tl length] in *; lia.
    + lia.
  - exact Hin.
  - unfold launched. destruct portal as [[px py] pz].
    rewrite Hv, Hr, Hpos, Hair, Hc.
    repeat split; try lra.
    cbn in Hin.
    destruct Hin as [<- | [<- | [<- | []]]]; reflexivity.
Qed.

Lemma spawn_launches_witness :
  exists s' m,
    Spawned.spawnMushroom middle_draws (ready (0, 1, 0)%R) = Some s'
    /\ Spawned.spawnedMushrooms s' = [m]
    /\ length (Spawned.spawnedMushrooms s') = 1%nat
    /\ In (Spawned.template m) MushroomGenerator.createMushroomGeometries
    /\ launched (0, 1, 0)%R m.
Proof.
  apply (spawn_launches middle_draws (ready (0, 1, 0)%R) (0, 1, 0)%R).
  - unfold unit_draws, middle_draws.
    cbn [Spawned.r_template Spawned.r_vx Spawned.r_vy Spawned.r_vz
         Spawned.r_rx Spawned.r_ry Spawned.r_rz].
    repeat constructor; lra.
  - reflexivity.
  - reflexivity.
  - cbn. unfold Spawned.MAX_SPAWNED_MUSHROOMS. lia.
Defined.

Lemma tidy_evict (s : Spawned.State) : tidy s -> tidy (Spawned.evict s).
Proof.
  intros (Hlen & Hscene & Hnd & Hfresh & Hrest). unfold Spawned.evict.
  destruct (Spawned.MAX_SPAWNED_MUSHROOMS <=? _)%nat;
    [| repeat split; assumption].
  destruct (Spawned.spawnedMushrooms s) as [| m q] eqn:Q;
    [rewrite <- Q in *; repeat split; assumption |].
  unfold tidy. cbn [Spawned.spawnedMushrooms Spawned.sceneGroups
                    Spawned.created].
  rewrite Hscene in *. cbn [map Spawned.remove_group length] in *.
  rewrite Nat.eqb_refl.
  inversion Hnd; subst. inversion Hfresh; subst. inversion Hrest; subst.
  repeat split; try assumption. lia.
Qed.

Lemma tidy_spawn (d : Spawned.Draws) (s : Spawned.State) :
  unit_draws d -> tidy s ->
  exists s', Spawned.spawnMushroom d s = Some s' /\ tidy s'.
Proof.
  intros Hd Ht.
  pose proof (tidy_evict s Ht) as He.
  destruct (evict_keeps s) as (Kt & Kp & Kc).
  destruct (Spawned.mushroomTemplates s) as [[| t0 ts] |] eqn:T.
  - exists (Spawned.evict s). split; [| exact He].
    unfold Spawned.spawnMushroom. cbv zeta. rewrite Kt. reflexivity.
  - destruct (Spawned.portalMesh s) as [portal |] eqn:P.
    + destruct (spawn_shape d s _ portal Hd T ltac:(discriminate) P)
        as (m & Hs & Hmesh & _ & _ & _ & Hair & _).
      eexists. split; [exact Hs |].
      destruct Ht as (Hlen & _).
      destruct (evict_length s Hlen) as [Hlt _].
      destruct He as (_ & Hscene & Hnd & Hfresh & Hrest).
      rewrite Kc in Hfresh.
      unfold tidy. cbn [Spawned.spawnedMushrooms Spawned.sceneGroups
                        Spawned.created].
      repeat split.
      * rewrite length_app. cbn [length]. lia.
      * rewrite map_app, Hscene. cbn [map]. rewrite Hmesh. reflexivity.
      * rewrite Hscene in *.
        apply NoDup_app; [exact Hnd | repeat constructor; intros [] | ].
        intros r Hin [<- | []].
        apply in_map_iff in Hin. destruct Hin as (m' & E & Hin).
        rewrite Forall_forall in Hfresh. specialize (Hfresh m' Hin). lia.
      * apply Forall_app. split.
        -- eapply Forall_impl; [| exact Hfresh]. cbn. intros; lia.
        -- constructor; [rewrite Hmesh; lia | constructor].
      * apply Forall_app. split; [exact Hrest |].
        constructor; [intros F; congruence | constructor].
    + exists (Spawned.evict s). split; [| exact He].
      unfold Spawned.spawnMushroom. cbv zeta. rewrite Kt, Kp.
      set (templates := t0 :: ts).
      destruct (draws_ranges d Hd) as (Hr & _).
      destruct (template_index_in_range (Spawned.r_template d)
                  (length templates) Hr ltac:(cbn; lia)) as [I0 I1].
      destruct (Z.ltb_spec
                  (Zfloor (Spawned.r_template d * INR (length templates))) 0)
        as [Neg | _]; [lia |].
      destruct (nth_error templates
                  (Z.to_nat (Zfloor (Spawned.r_template d
                                     * INR (length templates)))))
        as [t |] eqn:E; [reflexivity | apply nth_error_None in E; lia].
  - exists (Spawned.evict s). split; [| exact He].
    unfold Spawned.spawnMushroom. cbv zeta. rewrite Kt. reflexivity.
Qed.

Lemma fly_landed (delta : R) (m : Spawned.MushroomData) :
  Spawned.mesh (Spawned.fly delta m) = Spawned.mesh m
  /\ (Spawned.airborne (Spawned.fly delta m) = false ->
      (Spawned.airborne m = false -> at_rest m) ->
      at_rest (Spawned.fly delta m)).
Proof.
  unfold Spawned.fly.
  destruct (Spawned.airborne m) eqn:A; [| split; [reflexivity | auto]].
  destruct (Spawned.velocity m) as [[vx vy] vz].
  destruct (Spawned.mesh_position m) as [[x y] z].
  destruct (Spawned.mesh_rotation m) as [[rx ry] rz].
  destruct (Spawned.rotationSpeed m) as [[sx sy] sz].
  split; [reflexivity |].
  cbn [Spawned.airborne]. intros L _.
  apply negb_false_iff in L. unfold at_rest.
  cbn [Spawned.mesh_position Spawned.mesh_rotation]. rewrite L.
  repeat split.
Qed.

Lemma tidy_animate (delta : R) (s : Spawned.State) :
  tidy s -> tidy (Spawned.animate delta s).
Proof.
  intros (Hlen & Hscene & Hnd & Hfresh & Hrest).
  unfold tidy, Spawned.animate.
  cbn [Spawned.spawnedMushrooms Spawned.sceneGroups Spawned.created].
  assert (Hmesh : map Spawned.mesh
                    (map (Spawned.fly delta) (Spawned.spawnedMushrooms s))
                  = map Spawned.mesh (Spawned.spawnedMushrooms s)).
  { rewrite map_map. apply map_ext. intros m. apply fly_landed. }
  repeat split.
  - rewrite length_map. exact Hlen.
  - rewrite Hmesh. exact Hscene.
  - exact Hnd.
  - apply Forall_map. eapply Forall_impl; [| exact Hfresh].
    cbn. intros m Hm. destruct (fly_landed delta m) as [-> _]. exact Hm.
  - apply Forall_map. eapply Forall_impl; [| exact Hrest].
    cbn. intros m Hm L. apply (proj2 (fly_landed delta m)); assumption.
Qed.

Lemma tidy_run (es : list Spawned.event) :
  Forall possible es ->
  forall s, tidy s -> exists s', Spawned.run es s = Some s' /\ tidy s'.
Proof.
  induction 1 as [| e es He _ IH]; intros s Hs; cbn [Spawned.run].
  - exists s. split; [reflexivity | exact Hs].
  - destruct e as [portal | d | delta]; cbn [Spawned.handle possible] in *.
    + apply IH. destruct Hs as (H1 & H2 & H3 & H4 & H5).
      repeat split; assumption.
    + destruct (tidy_spawn d s He Hs) as (s1 & -> & Hs1). apply IH, Hs1.
    + apply IH, tidy_animate, Hs.
Qed.

(** X15: whatever happens to the spawner, in whatever order (the model
    finishes loading, the gate is clicked, frames are drawn), no click ever
    fails and the bookkeeping stays in order: the queue never holds more
    than 50 mushrooms, the scene holds exactly the groups of the queue, each
    once, and every mushroom that has landed stands on the terrain at its
    own (x, z), upright. *)
Theorem spawner_stays_tidy (es : list Spawned.event) :
  Forall possible es ->
  exists s, Spawned.run es Spawned.initial = Some s /\ tidy s.
Proof.
  intros Hes. apply (tidy_run es Hes).
  unfold tidy, Spawned.initial, Spawned.MAX_SPAWNED_MUSHROOMS. cbn.
  repeat split; try constructor. lia.
Qed.

Lemma spawner_stays_tidy_witness :
  exists s,
    Spawned.run [Spawned.Click middle_draws; Spawned.Loaded (0, 1, 0)%R;
                 Spawned.Click middle_draws; Spawned.Frame 0.016%R]
      Spawned.initial = Some s
    /\ tidy s.
Proof.
  apply (spawner_stays_tidy
           [Spawned.Click middle_draws; Spawned.Loaded (0, 1, 0)%R;
            Spawned.Click middle_draws; Spawned.Frame 0.016%R]).
  assert (M : unit_draws middle_draws).
  { unfold unit_draws, middle_draws.
    cbn [Spawned.r_template Spawned.r_vx Spawned.r_vy Spawned.r_vz
         Spawned.r_rx Spawned.r_ry Spawned.r_rz].
    repeat constructor; lra. }
  constructor; [exact M |].
  constructor; [exact I |].
  constructor; [exact M |].
  constructor; [exact I | constructor].
Defined.
Lemma squares_nonneg (deltas : list R) : (0 <= squares deltas)%R.
Proof.
  unfold squares. induction deltas as [| delta deltas IH]; cbn [fold_right].
  - lra.
  - pose proof (Rle_0_sqr delta) as H. unfold Rsqr in H. lra.
Qed.

(** One frame of a mushroom that is still in flight after it. *)
Lemma fly_airborne (delta : R) (m : Spawned.MushroomData) :
  Spawned.airborne (Spawned.fly delta m) = true ->
  Spawned.airborne m = true
  /\ (let '(_, vy, _) := Spawned.velocity m in
      let '(_, y, _) := Spawned.mesh_position m in
      let '(_, vy', _) := Spawned.velocity (Spawned.fly delta m) in
      let '(x', y', z') := Spawned.mesh_position (Spawned.fly delta m) in
      vy' = vy - Spawned.GRAVITY * delta
      /\ y' = y + vy' * delta
      /\ (vy' < 0 -> Terrain.getTerrainHeight x' z' <= y'))%R.
Proof.
  intros A.
  assert (A' : Spawned.airborne m = true).
  { unfold Spawned.fly in A.
    destruct (Spawned.airborne m) eqn:E; [reflexivity | congruence]. }
  split; [exact A' |].
  unfold Spawned.fly in *. rewrite A' in *.
  destruct (Spawned.velocity m) as [[vx vy] vz].
  destruct (Spawned.mesh_position m) as [[x y] z].
  destruct (Spawned.mesh_rotation m) as [[rx ry] rz].
  destruct (Spawned.rotationSpeed m) as [[sx sy] sz].
  cbn [Spawned.airborne Spawned.velocity Spawned.mesh_position] in *.
  destruct (Rlt_dec (vy - Spawned.GRAVITY * delta) 0) as [Fall | Rise].
  - destruct (Rlt_dec (y + (vy - Spawned.GRAVITY * delta) * delta)
                (Terrain.getTerrainHeight (x + vx * delta) (z + vz * delta)))
      as [Below | Above]; [discriminate |].
    repeat split. intros _. lra.
  - repeat split. intros F. lra.
Qed.

(** While a mushroom is in flight it has the velocity of the parabola,
    and it lies below the parabola by half of GRAVITY times the sum of the
    squares of the frame times. *)
Lemma flight_airborne (deltas : list R) :
  forall m,
    Spawned.airborne (flight deltas m) = true ->
    Spawned.airborne m = true
    /\ (let '(_, vy, _) := Spawned.velocity m in
        let '(_, y, _) := Spawned.mesh_position m in
        let '(_, vy', _) := Spawned.velocity (flight deltas m) in
        let '(_, y', _) := Spawned.mesh_position (flight deltas m) in
        vy' = vy - Spawned.GRAVITY * elapsed deltas
        /\ y' = parabola (elapsed deltas) y vy
                - Spawned.GRAVITY * squares deltas / 2)%R.
Proof.
  unfold parabola, elapsed, squares.
  induction deltas as [| delta deltas IH]; intros m A.
  - cbn [flight fold_left fold_right] in *. split; [exact A |].
    destruct (Spawned.velocity m) as [[vx vy] vz].
    destruct (Spawned.mesh_position m) as [[x y] z].
    split; field.
  - change (flight (delta :: deltas) m)
      with (flight deltas (Spawned.fly delta m)) in *.
    destruct (IH _ A) as [A1 IH1].
    destruct (fly_airborne delta m A1) as [A0 Step].
    split; [exact A0 |].
    destruct (Spawned.velocity m) as [[vx vy] vz].
    destruct (Spawned.mesh_position m) as [[x y] z].
    destruct (Spawned.velocity (Spawned.fly delta m)) as [[vx1 vy1] vz1].
    destruct (Spawned.mesh_position (Spawned.fly delta m)) as [[x1 y1] z1].
    destruct (Spawned.velocity (flight deltas (Spawned.fly delta m)))
      as [[vx' vy'] vz'].
    destruct (Spawned.mesh_position (flight deltas (Spawned.fly delta m)))
      as [[x' y'] z'].
    destruct Step as (Ev & Ey & _). destruct IH1 as (Ev' & Ey').
    cbn [fold_right]. subst. split; field.
Qed.

(** After the last frame a mushroom that is falling and still in flight
    is not below the terrain. *)
Lemma flight_above_terrain (deltas : list R) (m : Spawned.MushroomData) :
  deltas <> [] ->
  Spawned.airborne (flight deltas m) = true ->
  let '(_, vy', _) := Spawned.velocity (flight deltas m) in
  let '(x', y', z') := Spawned.mesh_position (flight deltas m) in
  (vy' < 0 -> Terrain.getTerrainHeight x' z' <= y')%R.
Proof.
  intros Hne A.
  destruct (exists_last Hne) as (pre & delta & ->).
  unfold flight in *. rewrite fold_left_app in *. cbn [fold_left] in *.
  destruct (fly_airborne delta _ A) as [_ Step].
  destruct (Spawned.velocity (fold_left _ pre m)) as [[vx vy] vz].
  destruct (Spawned.mesh_position (fold_left _ pre m)) as [[x y] z].
  destruct (Spawned.velocity (Spawned.fly delta _)) as [[vx' vy'] vz'].
  destruct (Spawned.mesh_position (Spawned.fly delta _)) as [[x' y'] z'].
  tauto.
Qed.

Lemma flight_rests (deltas : list R) :
  forall m,
    (Spawned.airborne m = false -> at_rest m) ->
    Spawned.airborne (flight deltas m) = false ->
    at_rest (flight deltas m).
Proof.
  induction deltas as [| delta deltas IH]; intros m H0 L.
  - apply H0, L.
  - change (flight (delta :: deltas) m)
      with (flight deltas (Spawned.fly delta m)) in *.
    apply IH; [| exact L].
    intros L1. apply (proj2 (fly_landed delta m)); assumption.
Qed.

Lemma flight_lands (deltas : list R) (m : Spawned.MushroomData) (y vy : R) :
  deltas <> [] ->
  Spawned.airborne m = true ->
  (let '(_, vy0, _) := Spawned.velocity m in vy0 <= vy)%R ->
  (let '(_, y0, _) := Spawned.mesh_position m in y0 <= y)%R ->
  (0 <= elapsed deltas)%R ->
  (vy - Spawned.GRAVITY * elapsed deltas < 0)%R ->
  (parabola (elapsed deltas) y vy < - Terrain.TERRAIN_MAX_HEIGHT)%R ->
  Spawned.airborne (flight deltas m) = false
  /\ at_rest (flight deltas m).
Proof.
  intros Hne A Hvy Hy HT Hv Hp.
  assert (L : Spawned.airborne (flight deltas m) = false).
  { destruct (Spawned.airborne (flight deltas m)) eqn:E; [| reflexivity].
    exfalso.
    destruct (flight_airborne deltas m E) as [_ C].
    pose proof (flight_above_terrain deltas m Hne E) as Above.
    pose proof (squares_nonneg deltas) as Q.
    destruct (Spawned.velocity m) as [[vx0 vy0] vz0].
    destruct (Spawned.mesh_position m) as [[x0 y0] z0].
    destruct (Spawned.velocity (flight deltas m)) as [[vx' vy'] vz'].
    destruct (Spawned.mesh_position (flight deltas m)) as [[x' y'] z'].
    destruct C as (Ev & Ey).
    pose proof (terrain_height_range x' z') as Hh.
    unfold parabola, Spawned.GRAVITY, Terrain.TERRAIN_MAX_HEIGHT in *.
    assert (vy0 * elapsed deltas <= vy * elapsed deltas)%R
      by (apply Rmult_le_compat_r; assumption).
    assert (F : (vy' < 0)%R) by lra.
    specialize (Above F). lra. }
  split; [exact L |].
  apply flight_rests; [| exact L]. intros F. congruence.
Qed.

(** X16: what goes up comes down, whatever the frame rate: once the
    frame times add up to a time t at which the parabola
    y + vy t - GRAVITY t^2 / 2 of the launch is falling and below the lowest
    possible terrain (-TERRAIN_MAX_HEIGHT), a mushroom that was in flight
    has landed: it is no longer airborne and stands on the terrain at its
    own (x, z), upright. *)
Theorem mushroom_lands (deltas : list R) (m : Spawned.MushroomData) :
  deltas <> [] ->
  Spawned.airborne m = true ->
  (let '(_, vy, _) := Spawned.velocity m in
   let '(_, y, _) := Spawned.mesh_position m in
   vy - Spawned.GRAVITY * elapsed deltas < 0
   /\ parabola (elapsed deltas) y vy < - Terrain.TERRAIN_MAX_HEIGHT)%R ->
  Spawned.airborne (flight deltas m) = false
  /\ at_rest (flight deltas m).
Proof.
  intros Hne A H.
  assert (L : Spawned.airborne (flight deltas m) = false).
  { destruct (Spawned.airborne (flight deltas m)) eqn:E; [| reflexivity].
    exfalso.
    destruct (flight_airborne deltas m E) as [_ C].
    pose proof (flight_above_terrain deltas m Hne E) as Above.
    pose proof (squares_nonneg deltas) as Q.
    destruct (Spawned.velocity m) as [[vx vy] vz].
    destruct (Spawned.mesh_position m) as [[x y] z].
    destruct (Spawned.velocity (flight deltas m)) as [[vx' vy'] vz'].
    destruct (Spawned.mesh_position (flight deltas m)) as [[x' y'] z'].
    destruct C as (Ev & Ey). destruct H as [Hv Hy].
    pose proof (terrain_height_range x' z') as Hh.
    unfold parabola, Spawned.GRAVITY, Terrain.TERRAIN_MAX_HEIGHT in *.
    assert (F : (vy' < 0)%R) by lra.
    specialize (Above F). lra. }
  split; [exact L |].
  apply flight_rests; [| exact L]. intros F. congruence.
Qed.

Lemma mushroom_lands_witness :
  Spawned.airborne (flight [1; 0.5; 0.5]%R thrown) = false
  /\ at_rest (flight [1; 0.5; 0.5]%R thrown).
Proof.
  apply (mushroom_lands [1; 0.5; 0.5]%R thrown).
  - discriminate.
  - reflexivity.
  - unfold thrown, parabola, elapsed, Spawned.GRAVITY,
      Terrain.TERRAIN_MAX_HEIGHT.
    cbn [Spawned.velocity Spawned.mesh_position fold_right].
    split; lra.
Defined.

(** X17: every mushroom thrown out of the portal lands: if the portal
    stands at height py and the frames since the launch add up to a time
    t > 2/3 s with 7.5 t^2 - 10 t > py + 4, the mushroom has landed and
    stands on the terrain, upright.  For a portal no higher than 10 this
    is the case after 3 seconds. *)
Theorem launched_mushroom_lands (portal : R * R * R)
    (m : Spawned.MushroomData) (deltas : list R) :
  launched portal m ->
  deltas <> [] ->
  (let '(_, py, _) := portal in
   2 / 3 < elapsed deltas
   /\ py + 4 < 7.5 * (elapsed deltas * elapsed deltas) - 10 * elapsed deltas)%R ->
  Spawned.airborne (flight deltas m) = false
  /\ at_rest (flight deltas m).
Proof.
  intros Hl Hne Ht. unfold launched in Hl.
  destruct portal as [[px py] pz].
  destruct (Spawned.velocity m) as [[vx vy] vz] eqn:V.
  destruct (Spawned.rotationSpeed m) as [[sx sy] sz].
  destruct Hl as (Hpos & Hair & (_ & Hvy & _) & _).
  destruct Ht as [T0 T1].
  apply (flight_lands deltas m (py + 0.5) 10 Hne Hair).
  - rewrite V. lra.
  - rewrite Hpos. lra.
  - lra.
  - unfold Spawned.GRAVITY. lra.
  - unfold parabola, Spawned.GRAVITY, Terrain.TERRAIN_MAX_HEIGHT. lra.
Qed.

Lemma launched_mushroom_lands_witness :
  Spawned.airborne (flight [1; 1; 1]%R thrown) = false
  /\ at_rest (flight [1; 1; 1]%R thrown).
Proof.
  apply (launched_mushroom_lands (0, 4.5, 0)%R thrown [1; 1; 1]%R).
  - unfold launched, thrown.
    cbn [Spawned.velocity Spawned.rotationSpeed Spawned.mesh_position
         Spawned.airborne Spawned.capMaterial Spawned.template
         MushroomGenerator.type].
    repeat split; try lra.
    f_equal. f_equal. lra.
  - discriminate.
  - unfold elapsed. cbn [fold_right]. split; lra.
Defined.

(** X18: the ground that is drawn is the height field that the trees
    and the mushrooms stand on: after the rotation of the mesh by -pi/2
    about x, every vertex of the ground lies at elevation
    getTerrainHeight(X, Z) over its own world position (X, Z), which is
    (x, -y) of the vertex of the plane it was made from. *)
Theorem ground_on_height_field (positions : list (R * R * R)) :
  Forall (fun v => let '(X, Y, Z) := v in Y = Terrain.getTerrainHeight X Z)
         (Ground.world (Ground.createGroundMesh positions))
  /\ map (fun v => let '(X, _, Z) := v in (X, Z))
         (Ground.world (Ground.createGroundMesh positions))
     = map (fun v => let '(x, y, _) := v in (x, (- y)%R)) positions.
Proof.
  unfold Ground.world, Ground.createGroundMesh, Ground.displace.
  cbn [Ground.vertices Ground.rotation_x].
  assert (C : cos (- PI / 2) = 0%R).
  { replace (- PI / 2)%R with (- (PI / 2))%R by lra.
    rewrite cos_neg. apply cos_PI2. }
  assert (S : sin (- PI / 2) = (-1)%R).
  { replace (- PI / 2)%R with (- (PI / 2))%R by lra.
    rewrite sin_neg, sin_PI2. reflexivity. }
  induction positions as [| [[x y] z] l [IH1 IH2]]; cbn [map].
  - split; [constructor | reflexivity].
  - unfold Ground.rotateX at 1 3. rewrite C, S. split.
    + constructor; [| exact IH1].
      replace (y * -1 + Terrain.getTerrainHeight x (- y) * 0)%R
        with (- y)%R by ring.
      ring.
    + f_equal; [| exact IH2]. f_equal. ring.
Qed.

(** ** The generator, the shuffle and the tree templates *)

(** X19: for every state of the generator, whatever its seed,
    [random()] returns k / 2^32 for an integer 0 <= k < 2^32: a value of
    [0, 1 - 2^-32], never 1. *)
Theorem random_on_grid (g : Random.SeededRandom) :
  exists k : Z,
    0 <= k < 2 ^ 32
    /\ fst (Random.random g) = (IZR k / 4294967296)%R
    /\ (0 <= fst (Random.random g) <= 1 - 1 / 4294967296)%R.
Proof.
  exists (fst (Random.random_bits g)).
  pose proof (random_bits_range g) as [Lo Hi].
  unfold Random.random.
  destruct (Random.random_bits g) as [u g']. cbn [fst] in *.
  repeat split; try assumption.
  - apply IZR_le in Lo. lra.
  - assert (H : u <= 4294967295) by lia. apply IZR_le in H. lra.
Qed.

(** X20: the shuffle of the variety tags loses and duplicates nothing:
    for every generator state the shuffled list is a rearrangement of the
    list it was given, and the index drawn at step i always lies in
    [0, i], inside the array. *)
Theorem shuffle_rearranges (g : Random.SeededRandom) (types : list Z) :
  Permutation types
    (fst (MushroomGenerator.shuffle (length types - 1) g types))
  /\ forall (g' : Random.SeededRandom) (i : nat),
       0 <= Zfloor (fst (Random.random g') * (INR i + 1)) <= Z.of_nat i.
Proof.
  split; [apply shuffle_permutation |].
  intros g' i.
  pose proof (shuffle_index_in_range g' i) as Hi.
  pose proof (random_unit_interval g') as [R0 _].
  pose proof (pos_INR i) as Pi.
  assert (H0 : (0 <= fst (Random.random g') * (INR i + 1))%R)
    by (apply Rmult_le_pos; lra).
  pose proof (Zfloor_bound (fst (Random.random g') * (INR i + 1))) as [_ F1].
  assert (Hk : -1 < Zfloor (fst (Random.random g') * (INR i + 1))).
  { apply lt_IZR. lra. }
  lia.
Qed.

(** X21: every tree template holds together: whatever the generator
    state, the deciduous trunk is 1.5 to 2.5 high and its foliage sphere,
    of radius half the trunk height and centred at most a twentieth of the
    trunk height off the axis, reaches down to 0.8 of the trunk height; the
    coniferous trunk is 2 to 3.5 high and the base of its cone, 0.9 trunk
    heights tall, is at 0.9 of the trunk height.  The foliage never floats
    above the trunk. *)
Theorem tree_templates_hold_together (g : Random.SeededRandom) :
  let deciduous := fst (TreeGenerator.createDeciduousTreeGeometry g) in
  let coniferous := fst (TreeGenerator.createConiferousTreeGeometry g) in
  let h := TreeGenerator.trunkHeight deciduous in
  let '(dx, dy, dz) := TreeGenerator.foliageOffset deciduous in
  let h' := TreeGenerator.trunkHeight coniferous in
  let '(cx, cy, cz) := TreeGenerator.foliageOffset coniferous in
  ((1.5 <= h <= 2.5
    /\ dy - TreeGenerator.foliageRadius deciduous = 0.8 * h
    /\ Rabs dx <= 0.05 * h /\ Rabs dz <= 0.05 * h)
   /\ (2 <= h' <= 3.5
       /\ cy - h' * 0.9 / 2 = 0.9 * h'
       /\ cx = 0 /\ cz = 0))%R.
Proof.
  unfold TreeGenerator.createDeciduousTreeGeometry,
    TreeGenerator.createConiferousTreeGeometry.
  pose proof (randFloat_closed_range g 1.5 2.5 ltac:(lra)) as Hd.
  pose proof (randFloat_closed_range g 2.0 3.5 ltac:(lra)) as Hc.
  destruct (Random.randFloat g 1.5 2.5) as [h g1].
  destruct (Random.randFloat g 2.0 3.5) as [h' g1'].
  cbn [fst] in Hd, Hc.
  pose proof (randFloat_closed_range g1 (- (h * 0.1) * 0.5) (h * 0.1 * 0.5)
                ltac:(lra)) as Hx.
  destruct (Random.randFloat g1 (- (h * 0.1) * 0.5) (h * 0.1 * 0.5))
    as [dx g2].
  pose proof (randFloat_closed_range g2 (- (h * 0.1) * 0.5) (h * 0.1 * 0.5)
                ltac:(lra)) as Hz.
  destruct (Random.randFloat g2 (- (h * 0.1) * 0.5) (h * 0.1 * 0.5))
    as [dz g3].
  cbn [fst TreeGenerator.trunkHeight TreeGenerator.foliageOffset
       TreeGenerator.foliageRadius] in *.
  repeat split; try lra; apply Rabs_le; lra.
Qed.

(** ** The gate, its portal and the two spawners *)

(** X22: the gate rests on the terrain and the portal stays inside it:
    for every model, the lowest point of the placed gate is at
    getTerrainHeight(0, 0); the portal plane, 0.4 of the width and 0.65 of
    the height of the gate, lies within the box of the gate in x and y and
    its centre within the box in z; and the centre of the portal is
    0.37 gate heights above the terrain at the gate. *)
Theorem gate_rests_on_terrain (h : R -> R -> R) (geometry : Gateway.Box3) :
  proper geometry ->
  let g := Gateway.loadGatewayModel h geometry in
  let '(ax, ay, az) := Gateway.min (Gateway.worldBoundingBox g) in
  let '(bx, by_, bz) := Gateway.max (Gateway.worldBoundingBox g) in
  let '(px, py, pz) := Gateway.portalPosition g in
  let '(_, sy, _) := Gateway.size g in
  (ay = h 0 0
   /\ ax <= px - Gateway.portalWidth g / 2
   /\ px + Gateway.portalWidth g / 2 <= bx
   /\ ay <= py - Gateway.portalHeight g / 2
   /\ py + Gateway.portalHeight g / 2 <= by_
   /\ az <= pz <= bz
   /\ py = h 0 0 + 0.37 * sy)%R.
Proof.
  unfold proper, Gateway.loadGatewayModel, Gateway.setFromObject,
    Gateway.getSize, Gateway.getCenter.
  destruct geometry as [[[ax ay] az] [[bx by_] bz]].
  cbn [Gateway.min Gateway.max Gateway.worldBoundingBox
       Gateway.portalPosition Gateway.size Gateway.portalWidth
       Gateway.portalHeight].
  intros (Hx & Hy & Hz). repeat split; lra.
Qed.

Lemma gate_rests_on_terrain_witness :
  let g := Gateway.loadGatewayModel Terrain.getTerrainHeight sample_gate in
  let '(ax, ay, az) := Gateway.min (Gateway.worldBoundingBox g) in
  let '(bx, by_, bz) := Gateway.max (Gateway.worldBoundingBox g) in
  let '(px, py, pz) := Gateway.portalPosition g in
  let '(_, sy, _) := Gateway.size g in
  (ay = Terrain.getTerrainHeight 0 0
   /\ ax <= px - Gateway.portalWidth g / 2
   /\ px + Gateway.portalWidth g / 2 <= bx
   /\ ay <= py - Gateway.portalHeight g / 2
   /\ py + Gateway.portalHeight g / 2 <= by_
   /\ az <= pz <= bz
   /\ py = Terrain.getTerrainHeight 0 0 + 0.37 * sy)%R.
Proof.
  apply (gate_rests_on_terrain Terrain.getTerrainHeight sample_gate).
  unfold proper, sample_gate. cbn [Gateway.min Gateway.max].
  repeat split; lra.
Defined.

(** X23: the two spawners of the repository agree: for every value of
    the random call in [0, 1), the spawner of the module, given the three
    templates and the cap materials in their order, builds its group from
    the template and with the cap material that [spawnMushroom] of the scene
    manager chooses by its switch on the variety, and puts it where it was
    told. *)
Theorem spawners_agree (d : Spawned.Draws) (s : Spawned.State)
    (portal position : R * R * R) :
  unit_draws d ->
  Spawned.mushroomTemplates s = Some MushroomGenerator.createMushroomGeometries ->
  Spawned.portalMesh s = Some portal ->
  exists s' m g,
    Spawned.spawnMushroom d s = Some s'
    /\ Spawned.spawnedMushrooms s'
       = Spawned.spawnedMushrooms (Spawned.evict s) ++ [m]
    /\ MushroomSpawn.spawnMushroom MushroomGenerator.createMushroomGeometries
         variety_materials position (Spawned.r_template d) = Some g
    /\ MushroomSpawn.template g = Spawned.template m
    /\ MushroomSpawn.capMaterial g = Some (Spawned.capMaterial m)
    /\ MushroomSpawn.position g = position.
Proof.
  intros Hd Ht Hp.
  destruct (spawn_shape d s _ portal Hd Ht ltac:(discriminate) Hp)
    as (m & Hs & _ & _ & _ & _ & _ & _ & _ & _).
  destruct (draws_ranges d Hd) as (Hr & _).
  destruct (template_index_in_range (Spawned.r_template d)
              (length MushroomGenerator.createMushroomGeometries)
              Hr ltac:(cbn; lia)) as [I0 I1].
  revert Hs. unfold Spawned.spawnMushroom, MushroomSpawn.spawnMushroom.
  cbv zeta. destruct (evict_keeps s) as (Kt & Kp & Kc).
  rewrite Kt, Kp, Ht, Hp.
  set (k := Zfloor (Spawned.r_template d
                    * INR (length MushroomGenerator.createMushroomGeometries)))
    in *.
  change (match MushroomGenerator.createMushroomGeometries with
          | [] => ?a | _ :: _ => ?b end) with b.
  destruct (Z.ltb_spec k 0) as [Neg | _]; [lia |].
  cbn [length MushroomGenerator.createMushroomGeometries] in I1.
  destruct (Z.to_nat k) as [| [| [| n]]] eqn:K; try lia;
    cbn [nth_error MushroomGenerator.createMushroomGeometries
         MushroomGenerator.type variety_materials];
    destruct portal as [[px py] pz]; intros Hs;
    eexists; eexists; eexists;
    (split; [reflexivity |]);
    cbn [Spawned.spawnedMushrooms];
    (split; [reflexivity |]);
    (split; [reflexivity |]);
    cbn [MushroomSpawn.template MushroomSpawn.capMaterial
         MushroomSpawn.position Spawned.template Spawned.capMaterial];
    repeat split.
Qed.

Lemma spawners_agree_witness :
  exists s' m g,
    Spawned.spawnMushroom middle_draws (ready (0, 1, 0)%R) = Some s'
    /\ Spawned.spawnedMushrooms s'
       = Spawned.spawnedMushrooms (Spawned.evict (ready (0, 1, 0)%R)) ++ [m]
    /\ MushroomSpawn.spawnMushroom MushroomGenerator.createMushroomGeometries
         variety_materials (0, 1.5, 0)%R (Spawned.r_template middle_draws)
       = Some g
    /\ MushroomSpawn.template g = Spawned.template m
    /\ MushroomSpawn.capMaterial g = Some (Spawned.capMaterial m)
    /\ MushroomSpawn.position g = (0, 1.5, 0)%R.
Proof.
  apply (spawners_agree middle_draws (ready (0, 1, 0)%R) (0, 1, 0)%R
           (0, 1.5, 0)%R).
  - unfold unit_draws, middle_draws.
    cbn [Spawned.r_template Spawned.r_vx Spawned.r_vy Spawned.r_vz
         Spawned.r_rx Spawned.r_ry Spawned.r_rz].
    repeat constructor; lra.
  - reflexivity.
  - reflexivity.
Defined.

(** * Rounding: the binary64 code against exact arithmetic

    The properties of the height field above are stated of its exact
    evaluation.  This part runs the binary64 evaluation of the source
    next to it: where the two part, and how closely the code follows the
    reference inside [in_terrain_range]. *)

(** ** The height field *)

(** C5 as stated fails on the code: at x = 225179981368525024 (a binary64
    value), z = 0 the product x * 0.04 has no fractional bits left, and
    [getTerrainHeight] returns 3.36... while the reference fBm is
    negative there. *)
Lemma getTerrainHeight_is_fbm_counterexample :
  Terrain64.getTerrainHeight 225179981368525024 0
  = 3.3615558574122368%float
  /\ (3 < Float64.value (Terrain64.getTerrainHeight 225179981368525024 0))%R
  /\ (Terrain.fbm_reference (Float64.value 225179981368525024)
                            (Float64.value 0) < 0)%R.
Proof.
  split; [vm_compute; reflexivity |].
  split.
  { replace (Terrain64.getTerrainHeight 225179981368525024 0)
      with 3.3615558574122368%float by (vm_compute; reflexivity).
    float_value 3.3615558574122368%float. lra. }
  float_value 225179981368525024%float. float_value 0%float.
  replace (225179981368525024 / 1)%R with 225179981368525024%R by lra.
  replace (0 / 1)%R with 0%R by lra.
  unfold Terrain.fbm_reference. cbn [Terrain.sum_below].
  rewrite <- !interpolatedNoise_reference.
  assert (N0 : Terrain.interpolatedNoise 225179981368525024 0 (0.04 * 2.1 ^ 0)
               = (1 - 1946754048 / 1073741823)%R).
  { unfold Terrain.interpolatedNoise. cbv zeta.
    replace (Zfloor (0 * (0.04 * 2.1 ^ 0))) with 0%Z
      by (symmetry; apply Zfloor_eq; simpl; lra).
    replace (Zfloor (225179981368525024 * (0.04 * 2.1 ^ 0)))
      with 9007199254741000%Z
      by (symmetry; apply Zfloor_eq; simpl; lra).
    assert (V1 : Terrain.pseudoRandom 9007199254741000 0
                 = (1 - 1946754048 / 1073741823)%R).
    { unfold Terrain.pseudoRandom.
      replace (Terrain.pseudoRandom_bits 9007199254741000 0)
        with 1946754048%Z by (vm_compute; reflexivity).
      reflexivity. }
    assert (V2 : Terrain.pseudoRandom (9007199254741000 + 1) 0
                 = (1 - 1946754048 / 1073741823)%R).
    { unfold Terrain.pseudoRandom.
      replace (Terrain.pseudoRandom_bits (9007199254741000 + 1) 0)
        with 1946754048%Z by (vm_compute; reflexivity).
      reflexivity. }
    rewrite V1, V2. unfold Terrain.lerp. simpl pow. ring. }
  rewrite N0.
  pose proof (interpolatedNoise_range 225179981368525024 0 (0.04 * 2.1 ^ 1))
    as [_ N1].
  pose proof (interpolatedNoise_range 225179981368525024 0 (0.04 * 2.1 ^ 2))
    as [_ N2].
  pose proof (interpolatedNoise_range 225179981368525024 0 (0.04 * 2.1 ^ 3))
    as [_ N3].
  pose proof (interpolatedNoise_range 225179981368525024 0 (0.04 * 2.1 ^ 4))
    as [_ N4].
  set (n1 := Terrain.interpolatedNoise _ _ (0.04 * 2.1 ^ 1)) in *.
  set (n2 := Terrain.interpolatedNoise _ _ (0.04 * 2.1 ^ 2)) in *.
  set (n3 := Terrain.interpolatedNoise _ _ (0.04 * 2.1 ^ 3)) in *.
  set (n4 := Terrain.interpolatedNoise _ _ (0.04 * 2.1 ^ 4)) in *.
  simpl pow. lra.
Qed.


(** *** The code next to the reference on samples *)

(** Evaluates a [Zfloor] of the goal whose value is [k]. *)
Ltac floor_is k :=
  match goal with
  | |- context [Zfloor ?X] =>
      replace (Zfloor X) with k by (symmetry; apply Zfloor_eq; lra)
  end.

(** Evaluates the lattice hashes of the goal. *)
Ltac hash_values :=
  repeat match goal with
  | |- context [Terrain.pseudoRandom_bits ?a ?b] =>
      let v := eval vm_compute in (Terrain.pseudoRandom_bits a b) in
      change (Terrain.pseudoRandom_bits a b) with v
  end.

(** Unfolds the reference fBm down to its lattice cells. *)
Ltac reference_cells :=
  unfold Terrain.fbm_reference; cbn [Terrain.sum_below];
  unfold Terrain.value_noise_reference; cbv zeta; simpl pow.

(** Closes a comparison once the cells are known. *)
Ltac reference_value :=
  unfold Terrain.pseudoRandom, Terrain.smoothstep_weight;
  hash_values; simpl pow; apply Rabs_le; split; lra.

(** Near the origin, in the forest and at the rim of [in_terrain_range]
    the height the code computes lies within 10^-12 of the reference
    fBm. *)
Example getTerrainHeight_follows_reference :
  (Rabs (Float64.value (Terrain64.getTerrainHeight 5 3)
         - Terrain.fbm_reference 5 3) <= 1 / 1000000000000
   /\ Rabs (Float64.value (Terrain64.getTerrainHeight (-17.25) 42.5)
            - Terrain.fbm_reference (-17.25) 42.5) <= 1 / 1000000000000
   /\ Rabs (Float64.value
              (Terrain64.getTerrainHeight 9999.5 (-175.4296875))
            - Terrain.fbm_reference 9999.5 (-175.4296875))
      <= 1 / 1000000000000)%R.
Proof.
  split; [| split].
  - replace (Terrain64.getTerrainHeight 5 3)
      with (-0x1.b13001e58bb3cp-1)%float by (vm_compute; reflexivity).
    float_value (-0x1.b13001e58bb3cp-1)%float.
    reference_cells.
    repeat floor_is 0%Z. repeat floor_is 1%Z. repeat floor_is 2%Z.
    repeat floor_is 3%Z.
    reference_value.
  - replace (Terrain64.getTerrainHeight (-17.25) 42.5)
      with 0x1.6685b6f997a4ap-1%float by (vm_compute; reflexivity).
    float_value 0x1.6685b6f997a4ap-1%float.
    reference_cells.
    repeat floor_is (-1)%Z. repeat floor_is 1%Z. repeat floor_is (-2)%Z.
    repeat floor_is 3%Z. repeat floor_is (-4)%Z. repeat floor_is 7%Z.
    repeat floor_is (-7)%Z. repeat floor_is 15%Z. repeat floor_is (-14)%Z.
    repeat floor_is 33%Z.
    reference_value.
  - replace (Terrain64.getTerrainHeight 9999.5 (-175.4296875))
      with (-0x1.2b3991a4efc1ap-1)%float by (vm_compute; reflexivity).
    float_value (-0x1.2b3991a4efc1ap-1)%float.
    reference_cells.
    repeat floor_is 399%Z. repeat floor_is (-8)%Z. repeat floor_is 839%Z.
    repeat floor_is (-15)%Z. repeat floor_is 1763%Z. repeat floor_is (-31)%Z.
    repeat floor_is 3704%Z. repeat floor_is (-65)%Z. repeat floor_is 7778%Z.
    repeat floor_is (-137)%Z.
    reference_value.
Qed.

(** The test of the specification, x = 5 against x = 5.0001 at z = 3: the
    computed heights differ by less than twice the distance. *)
Example getTerrainHeight_step_sample :
  (Rabs (Float64.value (Terrain64.getTerrainHeight 5.0001 3)
         - Float64.value (Terrain64.getTerrainHeight 5 3))
   <= 2 * (Float64.value 5.0001 - Float64.value 5))%R.
Proof.
  replace (Terrain64.getTerrainHeight 5.0001 3)
    with (-0.84607647998561608)%float by (vm_compute; reflexivity).
  replace (Terrain64.getTerrainHeight 5 3)
    with (-0.84606939246246027)%float by (vm_compute; reflexivity).
  float_value (-0.84607647998561608)%float.
  float_value (-0.84606939246246027)%float.
  float_value 5.0001%float. float_value 5%float.
  apply Rabs_le. split; lra.
Qed.

(** ** The launch of a mushroom *)

(** The launch velocity reaches its bounds 10 and -8 in binary64: for the
    largest value [Math.random()] can return, 1 - 2^-53, the sums
    [r * 3 + 7] and [r * -3 - 5] round to 10 and to -8.  The tumbling speed
    reaches -4 the same way. *)
Example initialVelocity_reaches_bounds :
  Spawned64.initialVelocity 0x1.fffffffffffffp-1 0x1.fffffffffffffp-1
                            0x1.fffffffffffffp-1
  = (1.9999999999999996, 10, -8)%float
  /\ Spawned64.randomRotationSpeed 0x1.fffffffffffffp-1 0 0x1p-60
     = (3.9999999999999991, -4, -4)%float.
Proof. split; vm_compute; reflexivity. Qed.
